(** * Portero: policy-mediating MCP gateway

    A shallow embedding of the request pipeline, the policy resolver, the
    pattern matcher, the anonymizer, the file-backed stores and the approval
    channel of Portero, together with the properties its specification states
    about them.

    Conventions of the embedding.

    - A JavaScript string is a sequence of UTF-16 code units.  The embedding
      uses [string], i.e. the code units below 256.  The line terminators
      U+2028 and U+2029 are therefore outside the model; LF and CR are in it.
    - A JavaScript object used as a record or as a map is an association list
      in [Object.entries] order.  Where the code looks a name chosen by a
      caller up in a plain object ([this.policies[toolName]],
      [process.env[varName]]), the lookup also finds the properties
      inherited from [Object.prototype]; [Js.inherited] lists their names.
      An assignment [result[key] = value] with the key ["__proto__"] adds
      no property: the loader of the configuration models this
      ([ConfigLoader.assignAll]); elsewhere that key is outside the model.
    - [Date] values are millisecond timestamps in [Z]; a stored date string
      that does not parse ([NaN]) is [None].  A time value outside the range
      of dates is [NaN] as well ([Js.timeClip]); the stores that compute an
      expiry ([GrantsDB.create], [ApprovalsDB.create]) throw on it, as
      [toISOString] does.  Stored dates are those the code wrote.
    - Numbers are IEEE doubles in the code and integers in [Z] here.  The two
      agree as long as every intermediate value is an integer below [2^53];
      where a number is computed from text a caller sends, the statements
      bound the text accordingly.
    - Every effect is explicit: the disk, the in-memory state of the bot and
      the log of backend dispatches are fields of a state record, and the
      outside world (clock, uuid generator, backends, chat transport) is a
      record of functions. *)

From Stdlib Require Import String Ascii List ZArith Bool Lia.
Import ListNotations.
Open Scope string_scope.
Set Warnings "-register-all".

(* ===================================================================== *)
(** * JavaScript string primitives *)
(* ===================================================================== *)

Module JsString.

(** [s.slice(n)] for [0 <= n]. *)
Fixpoint drop (n : nat) (s : string) : string :=
  match n, s with
  | O, _ => s
  | S _, EmptyString => EmptyString
  | S k, String _ r => drop k r
  end.

(** [s.slice(0, n)]. *)
Fixpoint take (n : nat) (s : string) : string :=
  match n, s with
  | O, _ => EmptyString
  | S _, EmptyString => EmptyString
  | S k, String c r => String c (take k r)
  end.

(** [s.includes(needle)]. *)
Fixpoint includes (needle s : string) : bool :=
  prefix needle s ||
  match s with
  | EmptyString => false
  | String _ r => includes needle r
  end.

(** Leftmost, non-overlapping replacement of every occurrence of a non-empty
    literal [needle]: what [s.replace(/needle/g, repl)] computes when [needle]
    is a literal and [repl] contains no [$], and what
    [s.split(needle).join(repl)] computes.  [skip] counts the characters of
    a match that remain to be passed over. *)
Fixpoint replaceAll_go (needle repl : string) (skip : nat) (s : string) : string :=
  match s with
  | EmptyString => EmptyString
  | String c r =>
      match skip with
      | S k => replaceAll_go needle repl k r
      | O =>
          if prefix needle s
          then repl ++ replaceAll_go needle repl (String.length needle - 1) r
          else String c (replaceAll_go needle repl 0 r)
      end
  end.

Definition replaceAll (needle repl s : string) : string :=
  replaceAll_go needle repl 0 s.

(** [s.split("").join(t)]: the separator is put between the characters. *)
Fixpoint intersperse (t s : string) : string :=
  match s with
  | EmptyString => EmptyString
  | String c EmptyString => String c EmptyString
  | String c r => String c (t ++ intersperse t r)
  end.

(** [s.split(sep).join(t)]. *)
Definition splitJoin (sep t s : string) : string :=
  match sep with
  | EmptyString => intersperse t s
  | _ => replaceAll sep t s
  end.

(** [s.replace(/[class]/g, '\\$&')]: every character of the class is
    prefixed with a backslash. *)
Fixpoint escapeClass (inClass : ascii -> bool) (s : string) : string :=
  match s with
  | EmptyString => EmptyString
  | String c r =>
      if inClass c
      then String "\"%char (String c (escapeClass inClass r))
      else String c (escapeClass inClass r)
  end.

(** Canonicalization of a code unit under the [i] flag (no [u] flag):
    the upper-case mapping of the code unit, here on Latin-1. *)
Definition canonicalize (c : ascii) : ascii :=
  let n := nat_of_ascii c in
  if ((97 <=? n) && (n <=? 122))%nat then ascii_of_nat (n - 32)
  else if ((224 <=? n) && (n <=? 254) && negb (n =? 247))%nat
       then ascii_of_nat (n - 32)
  else c.

(** Case-insensitive prefix test. *)
Fixpoint prefixCI (p s : string) : bool :=
  match p, s with
  | EmptyString, _ => true
  | String _ _, EmptyString => false
  | String a p', String b s' =>
      Ascii.eqb (canonicalize a) (canonicalize b) && prefixCI p' s'
  end.

(** [GetSubstitution] for a regular expression without capture groups:
    [$$], [$&], [$`] and [$'] are expanded, every other [$] is literal. *)
Fixpoint getSubstitution (before matched after template : string) : string :=
  match template with
  | EmptyString => EmptyString
  | String c r =>
      if Ascii.eqb c "$"%char then
        match r with
        | EmptyString => String c EmptyString
        | String d r' =>
            if Ascii.eqb d "$"%char
            then String "$"%char (getSubstitution before matched after r')
            else if Ascii.eqb d "&"%char
            then matched ++ getSubstitution before matched after r'
            else if Ascii.eqb d "`"%char
            then before ++ getSubstitution before matched after r'
            else if Ascii.eqb d "'"%char
            then after ++ getSubstitution before matched after r'
            else String c (getSubstitution before matched after r)
        end
      else String c (getSubstitution before matched after r)
  end.

(** [s.replace(new RegExp(escapeRegExp(source), 'gi'), target)] for a
    non-empty [source]: the escaped source denotes the literal [source],
    matched case-insensitively; [before] is the part of the subject already
    scanned. *)
Fixpoint replaceCI_go (source target : string) (skip : nat)
    (before s : string) : string :=
  match s with
  | EmptyString => EmptyString
  | String c r =>
      match skip with
      | S k => replaceCI_go source target k (before ++ String c EmptyString) r
      | O =>
          if prefixCI source s
          then getSubstitution before (take (String.length source) s)
                 (drop (String.length source) s) target
               ++ replaceCI_go source target (String.length source - 1)
                    (before ++ String c EmptyString) r
          else String c (replaceCI_go source target 0
                           (before ++ String c EmptyString) r)
      end
  end.

(** With an empty [source] the regular expression matches the empty string
    at every position, the end included. *)
Fixpoint insertEverywhere (target before s : string) : string :=
  getSubstitution before EmptyString s target ++
  match s with
  | EmptyString => EmptyString
  | String c r =>
      String c (insertEverywhere target (before ++ String c EmptyString) r)
  end.

Definition replaceCI (source target s : string) : string :=
  match source with
  | EmptyString => insertEverywhere target EmptyString s
  | _ => replaceCI_go source target 0 EmptyString s
  end.

(** [s.split(sep)] for a one-character separator: the pieces between the
    separators, the empty ones included. *)
Fixpoint split (sep : ascii) (s : string) : list string :=
  match s with
  | EmptyString => [EmptyString]
  | String c r =>
      if Ascii.eqb c sep then EmptyString :: split sep r
      else match split sep r with
           | piece :: pieces => String c piece :: pieces
           | [] => [String c EmptyString]
           end
  end.

End JsString.

(* ===================================================================== *)
(** * The fragment of regular expressions the gateway builds *)
(* ===================================================================== *)

Module RegExp.

(** A one-character matcher. *)
Inductive charset : Type :=
| CsLit (c : ascii)       (* a literal character, escaped or not *)
| CsDot                   (* [.] : anything but a line terminator *)
| CsNotSlash.             (* [[^/]] *)

Inductive token : Type :=
| TAtom (a : charset)
| TStar                   (* the quantifier [*] *)
| TBol                    (* [^] *)
| TEol.                   (* [$] *)

Inductive item : Type :=
| One (a : charset)
| Many (a : charset)      (* [a*] *)
| Bol
| Eol.

(** [SyntaxCharacter] of the grammar, and [/]: the characters whose
    backslash escape is an identity escape in the modelled fragment. *)
Definition isSyntaxChar (c : ascii) : bool :=
  existsb (Ascii.eqb c)
    ["^"; "$"; "\"; "."; "*"; "+"; "?"; "("; ")"; "["; "]"; "{"; "}"; "|"; "/"]%char.

(** Characters that cannot stand for themselves outside the fragment. *)
Definition isUnsupported (c : ascii) : bool :=
  existsb (Ascii.eqb c) ["+"; "?"; "("; ")"; "]"; "{"; "}"; "|"]%char.

(** The lexer; [None] is a pattern outside the fragment (or a syntax
    error). *)
Fixpoint lex (s : string) : option (list token) :=
  match s with
  | EmptyString => Some []
  | String c r =>
      if Ascii.eqb c "\"%char then
        match r with
        | String d r' =>
            if isSyntaxChar d
            then option_map (cons (TAtom (CsLit d))) (lex r')
            else None
        | EmptyString => None
        end
      else if Ascii.eqb c "["%char then
        match r with
        | String c1 (String c2 (String c3 r')) =>
            if Ascii.eqb c1 "^"%char && Ascii.eqb c2 "/"%char
               && Ascii.eqb c3 "]"%char
            then option_map (cons (TAtom CsNotSlash)) (lex r')
            else None
        | _ => None
        end
      else if Ascii.eqb c "."%char then option_map (cons (TAtom CsDot)) (lex r)
      else if Ascii.eqb c "*"%char then option_map (cons TStar) (lex r)
      else if Ascii.eqb c "^"%char then option_map (cons TBol) (lex r)
      else if Ascii.eqb c "$"%char then option_map (cons TEol) (lex r)
      else if isUnsupported c then None
      else option_map (cons (TAtom (CsLit c))) (lex r)
  end.

(** Quantifiers are attached to the atom before them; a [*] with nothing to
    repeat is a syntax error. *)
Fixpoint quantify (ts : list token) : option (list item) :=
  match ts with
  | [] => Some []
  | TAtom a :: TStar :: r => option_map (cons (Many a)) (quantify r)
  | TAtom a :: r => option_map (cons (One a)) (quantify r)
  | TStar :: _ => None
  | TBol :: r => option_map (cons Bol) (quantify r)
  | TEol :: r => option_map (cons Eol) (quantify r)
  end.

(** [new RegExp(source)]. *)
Definition compile (source : string) : option (list item) :=
  match lex source with
  | Some ts => quantify ts
  | None => None
  end.

Definition isLineTerminator (c : ascii) : bool :=
  Ascii.eqb c "010"%char || Ascii.eqb c "013"%char.

Definition inSet (a : charset) (c : ascii) : bool :=
  match a with
  | CsLit d => Ascii.eqb c d
  | CsDot => negb (isLineTerminator c)
  | CsNotSlash => negb (Ascii.eqb c "/"%char)
  end.

(** Does the regular expression match at the current position?  [atStart]
    tells whether the position is the start of the input (no [m] flag). *)
Fixpoint matchHere (its : list item) (atStart : bool) (s : string) : bool :=
  match its with
  | [] => true
  | Bol :: r => atStart && matchHere r atStart s
  | Eol :: r =>
      match s with EmptyString => matchHere r atStart s | _ => false end
  | One a :: r =>
      match s with
      | String c s' => inSet a c && matchHere r false s'
      | EmptyString => false
      end
  | Many a :: r =>
      (fix many (b : bool) (s : string) {struct s} : bool :=
         matchHere r b s ||
         match s with
         | String c s' => inSet a c && many false s'
         | EmptyString => false
         end) atStart s
  end.

Fixpoint searchFrom (its : list item) (atStart : bool) (s : string) : bool :=
  matchHere its atStart s ||
  match s with
  | String _ s' => searchFrom its false s'
  | EmptyString => false
  end.

(** [regex.test(s)]. *)
Definition test (its : list item) (s : string) : bool := searchFrom its true s.

(** [^(.+)$] against what remains of a string: every character is one that
    [.] accepts, and there is at least one. *)
Fixpoint dots (s : string) : bool :=
  match s with
  | EmptyString => true
  | String c r => negb (isLineTerminator c) && dots r
  end.

Definition dotPlus (s : string) : bool :=
  match s with
  | EmptyString => false
  | _ => dots s
  end.

End RegExp.

(* ===================================================================== *)
(** * The pattern matcher shared by policies and grants *)
(* ===================================================================== *)

Module Pattern.

(** The class [[.+?^${}()|[\]\\]] of the first replacement. *)
Definition isEscaped (c : ascii) : bool :=
  existsb (Ascii.eqb c)
    ["."; "+"; "?"; "^"; "$"; "{"; "}"; "("; ")"; "|"; "["; "]"; "\"]%char.

Definition DOUBLE_WILDCARD : string := "__DOUBLE_WILDCARD__".

(** The four chained replacements of [matchesPattern]. *)
Definition regexBody (pattern : string) : string :=
  let s1 := JsString.escapeClass isEscaped pattern in
  let s2 := JsString.replaceAll "**" DOUBLE_WILDCARD s1 in
  let s3 := JsString.replaceAll "*" "[^/]*" s2 in
  JsString.replaceAll DOUBLE_WILDCARD ".*" s3.

Definition regexPattern (pattern : string) : string :=
  "^" ++ regexBody pattern ++ "$".

(** [matchesPattern(toolName, pattern)] of policy.ts, policy-rules.ts and
    grants.ts (three copies of one function).  The [None] branch stands for
    the [SyntaxError] of [new RegExp]; [regexPattern_compiles] below shows
    that it is never taken. *)
Definition matchesPattern (toolName pattern : string) : bool :=
  if String.eqb pattern "*" then true
  else match RegExp.compile (regexPattern pattern) with
       | Some re => RegExp.test re toolName
       | None => false
       end.

End Pattern.

(* ===================================================================== *)
(** * Structured values *)
(* ===================================================================== *)

(** Tool arguments and results are untyped structured data.  Numbers are
    integers; they are passed through and tested for zero, and the [limit]
    of [portero/list_tasks] is compared and used as an index. *)
Inductive json : Type :=
| JNull
| JBool (b : bool)
| JNum (n : Z)
| JStr (s : string)
| JArr (items : list json)
| JObj (fields : list (string * json)).

Module Js.

(** [ToBoolean]. *)
Definition truthy (v : json) : bool :=
  match v with
  | JNull => false
  | JBool b => b
  | JNum n => negb (n =? 0)%Z
  | JStr s => negb (String.eqb s "")
  | JArr _ | JObj _ => true
  end.

(** [a || b] on an optional string: [undefined] and [""] are falsy. *)
Definition strOr (a : option string) (b : string) : string :=
  match a with
  | Some s => if String.eqb s "" then b else s
  | None => b
  end.

(** [a ?? null]-style access to an optional field. *)
Definition optOr {A} (a : option A) (b : A) : A :=
  match a with Some x => x | None => b end.

(** [obj[key]] on own properties. *)
Fixpoint getField {A} (key : string) (fields : list (string * A)) : option A :=
  match fields with
  | [] => None
  | (k, v) :: rest => if String.eqb k key then Some v else getField key rest
  end.

(** [obj[key] = v]: an existing property keeps its place. *)
Fixpoint setField {A} (key : string) (v : A) (fields : list (string * A))
  : list (string * A) :=
  match fields with
  | [] => [(key, v)]
  | (k, w) :: rest =>
      if String.eqb k key then (k, v) :: rest
      else (k, w) :: setField key v rest
  end.

(** The object built by assigning the entries one after the other. *)
Definition fromEntries {A} (entries : list (string * A)) : list (string * A) :=
  fold_left (fun acc kv => setField (fst kv) (snd kv) acc) entries [].

(** [array.find(p)]. *)
Definition find {A} (p : A -> bool) (l : list A) : option A := List.find p l.

(** The first element satisfying [p] is replaced by its image under [f]:
    the effect of mutating the row that [find] returned. *)
Fixpoint mutateFirst {A} (p : A -> bool) (f : A -> A) (l : list A) : list A :=
  match l with
  | [] => []
  | x :: rest => if p x then f x :: rest else x :: mutateFirst p f rest
  end.

(** The names of the properties of [Object.prototype].  A lookup
    [obj[name]] on a plain object that has no own property [name] answers
    with the inherited property for these names, and with [undefined] for
    every other name. *)
Definition prototypeNames : list string :=
  ["constructor"; "__defineGetter__"; "__defineSetter__"; "hasOwnProperty";
   "__lookupGetter__"; "__lookupSetter__"; "isPrototypeOf";
   "propertyIsEnumerable"; "toString"; "valueOf"; "__proto__";
   "toLocaleString"].

Definition inherited (name : string) : bool :=
  existsb (String.eqb name) prototypeNames.

(** [String(Object.prototype[name])] for an inherited [name]:
    [__proto__] is [Object.prototype] itself, [constructor] is the function
    [Object], the others are functions of their own name. *)
Definition inheritedText (name : string) : string :=
  if String.eqb name "__proto__" then "[object Object]"
  else if String.eqb name "constructor" then "function Object() { [native code] }"
  else "function " ++ name ++ "() { [native code] }".

(** [new Date(t)] for an integer [t]: the time value is [t] within
    8.64e15 ms of the epoch and [NaN] beyond. *)
Definition timeClip (t : Z) : option Z :=
  if (Z.abs t <=? 8640000000000000)%Z then Some t else None.

(** [array.slice(0, end)]: a negative [end] counts from the end of the
    array. *)
Definition slice0 {A} (end_ : Z) (l : list A) : list A :=
  let len := Z.of_nat (List.length l) in
  let final := if (end_ <? 0)%Z then Z.max (len + end_) 0 else Z.min end_ len in
  firstn (Z.to_nat final) l.

End Js.

(** What a call produces: a value, or a thrown [Error] with its message. *)
Inductive outcome (A : Type) : Type :=
| Returned (a : A)
| Thrown (message : string).
Arguments Returned {A} a.
Arguments Thrown {A} message.

(* ===================================================================== *)
(** * Anonymizer (middleware/anonymizer.ts) *)
(* ===================================================================== *)

Module Anonymizer.

Record Replacement : Type := mkReplacement {
  fake : string;
  real : string;
  bidirectional : bool;
  caseSensitive : option bool;
  responseReplacement : option string
}.

Inductive Direction : Type := toReal | toFake.

Definition REDACTED : string := "***REDACTED***".

(** The class [[.*+?^${}()|[\]\\]] of [escapeRegExp]. *)
Definition isRegExpSpecial (c : ascii) : bool :=
  existsb (Ascii.eqb c)
    ["."; "*"; "+"; "?"; "^"; "$"; "{"; "}"; "("; ")"; "|"; "["; "]"; "\"]%char.

(** [escapeRegExp(str)].  The escaped string compiles to the sequence of
    the characters of [str] taken literally ([escapeRegExp_literal] below),
    which is what [JsString.replaceCI] matches. *)
Definition escapeRegExp (str : string) : string :=
  JsString.escapeClass isRegExpSpecial str.

(** One turn of the loop of [replaceInValue]. *)
Definition replaceStep (direction : Direction) (result : string)
    (replacement : Replacement) : string :=
  let '(source, target) :=
    match direction with
    | toReal => (fake replacement, real replacement)
    | toFake =>
        if negb (bidirectional replacement)
        then (real replacement,
              Js.strOr (responseReplacement replacement) REDACTED)
        else (real replacement, fake replacement)
    end in
  (* caseSensitive !== false *)
  match caseSensitive replacement with
  | Some false => JsString.replaceCI source target result
  | _ => JsString.splitJoin source target result
  end.

Definition replaceInValue (replacements : list Replacement)
    (value : string) (direction : Direction) : string :=
  fold_left (replaceStep direction) replacements value.

Fixpoint deepTraverse (obj : json) (replacer : string -> string) : json :=
  match obj with
  | JStr s => JStr (replacer s)
  | JArr items => JArr (map (fun item => deepTraverse item replacer) items)
  | JObj fields =>
      JObj (Js.fromEntries
              (map (fun kv => (replacer (fst kv), deepTraverse (snd kv) replacer))
                 fields))
  | other => other
  end.

Definition anonymizeRequest (replacements : list Replacement) (data : json) : json :=
  deepTraverse data (fun value => replaceInValue replacements value toReal).

Definition deanonymizeResponse (replacements : list Replacement) (data : json) : json :=
  deepTraverse data (fun value => replaceInValue replacements value toFake).

End Anonymizer.

(* ===================================================================== *)
(** * File store (storage/file-store.ts) *)
(* ===================================================================== *)

Module FileStore.

(** What [JSON.parse] makes of the text of a file: it throws
    ([Unparsable]), or it yields a document.  A text that parses to a value
    of another shape than the collection's is outside the model. *)
Inductive content (T : Type) : Type :=
| Unparsable
| Parsed (doc : T).
Arguments Unparsable {T}.
Arguments Parsed {T} doc.

(** A path and its sibling [path.tmp]; [None] is a file that does not exist
    (or cannot be read). *)
Record file (T : Type) : Type := mkFile {
  target : option (content T);
  tmp : option (content T)
}.
Arguments mkFile {T} target tmp.
Arguments target {T} f.
Arguments tmp {T} f.

Definition absent {T} : file T := mkFile None None.

(** [readJsonFile(path, fallback)]: any failure of [readFile] or of
    [JSON.parse] is caught and answered with the fallback. *)
Definition readJsonFile {T} (f : file T) (fallback : T) : T :=
  match target f with
  | Some (Parsed doc) => doc
  | Some Unparsable => fallback
  | None => fallback
  end.

(** The two steps of [writeJsonFileAtomic]. *)
Definition writeTmp {T} (f : file T) (data : T) : file T :=
  mkFile (target f) (Some (Parsed data)).

Definition rename {T} (f : file T) : file T :=
  mkFile (tmp f) None.

Definition writeJsonFileAtomic {T} (f : file T) (data : T) : file T :=
  rename (writeTmp f data).

End FileStore.

Import FileStore.

(* ===================================================================== *)
(** * Shared types (config/types.ts, db/*.ts) *)
(* ===================================================================== *)

(** The three actions, and [not_an_action] for what the resolver returns
    when its lookup in the static map answers with a property inherited
    from [Object.prototype]: a function or an object, equal to none of the
    three strings. *)
Inductive PolicyAction : Type := allow | deny | require_approval | not_an_action.

Definition PolicyAction_eqb (a b : PolicyAction) : bool :=
  match a, b with
  | allow, allow | deny, deny | require_approval, require_approval
  | not_an_action, not_an_action => true
  | _, _ => false
  end.

Inductive TaskStatus : Type :=
| pending_approval
| approved_queued
| executing
| completed
| denied
| error.

Definition TaskStatus_eqb (a b : TaskStatus) : bool :=
  match a, b with
  | pending_approval, pending_approval
  | approved_queued, approved_queued
  | executing, executing
  | completed, completed
  | denied, denied
  | error, error => true
  | _, _ => false
  end.

(** A row of tasks.json.  [rowToTask] only turns the date strings into
    [Date]s, so rows and tasks are one type here. *)
Record Task : Type := mkTask {
  task_id : string;
  task_toolName : string;
  task_args : json;            (* real arguments, sent to the backend *)
  task_originalArgs : json;    (* the caller's arguments *)
  task_status : TaskStatus;
  task_result : option json;
  task_error : option string;
  task_policyAction : PolicyAction;
  task_telegramMessageId : option Z;
  task_createdAt : Z;
  task_approvedAt : option Z;
  task_executedAt : option Z;
  task_checkedAt : option Z
}.

Record GrantRow : Type := mkGrant {
  grant_id : string;
  grant_pattern : string;
  grant_createdAt : option Z;
  grant_expiresAt : option Z    (* [new Date(expiresAt).getTime()], [None] for [NaN] *)
}.

Record RuleRow : Type := mkRule {
  rule_id : string;
  rule_pattern : string;
  rule_action : PolicyAction;
  rule_createdAt : Z
}.

Record AdminState : Type := mkAdminState {
  admin_adminChatId : option string
}.

Inductive ApprovalStatus : Type := approval_pending | approval_approved | approval_denied.

(** A row of the approvals collection of the earlier, polling design. *)
Record ApprovalRow : Type := mkApproval {
  approval_id : string;
  approval_toolName : string;
  approval_args : json;
  approval_status : ApprovalStatus;
  approval_telegramMessageId : option Z;
  approval_createdAt : Z;
  approval_expiresAt : Z;
  approval_resolvedAt : option Z
}.

Record AuditRow : Type := mkAudit {
  audit_timestamp : Z;
  audit_toolName : string;
  audit_args : json;
  audit_result : option json;
  audit_policyAction : option PolicyAction;
  audit_approvalStatus : option string;
  audit_error : option string
}.

(** The data directory. *)
Record Disk : Type := mkDisk {
  approvalsJson : file (list ApprovalRow);
  tasksJson : file (list Task);
  grantsJson : file (list GrantRow);
  rulesJson : file (list RuleRow);
  adminJson : file AdminState;
  auditNdjson : list AuditRow      (* the lines, oldest first *)
}.

Definition set_approvalsJson (d : Disk) (f : file (list ApprovalRow)) : Disk :=
  mkDisk f (tasksJson d) (grantsJson d) (rulesJson d) (adminJson d)
    (auditNdjson d).
Definition set_tasksJson (d : Disk) (f : file (list Task)) : Disk :=
  mkDisk (approvalsJson d) f (grantsJson d) (rulesJson d) (adminJson d)
    (auditNdjson d).
Definition set_grantsJson (d : Disk) (f : file (list GrantRow)) : Disk :=
  mkDisk (approvalsJson d) (tasksJson d) f (rulesJson d) (adminJson d)
    (auditNdjson d).
Definition set_rulesJson (d : Disk) (f : file (list RuleRow)) : Disk :=
  mkDisk (approvalsJson d) (tasksJson d) (grantsJson d) f (adminJson d)
    (auditNdjson d).
Definition set_adminJson (d : Disk) (f : file AdminState) : Disk :=
  mkDisk (approvalsJson d) (tasksJson d) (grantsJson d) (rulesJson d) f
    (auditNdjson d).
Definition set_auditNdjson (d : Disk) (l : list AuditRow) : Disk :=
  mkDisk (approvalsJson d) (tasksJson d) (grantsJson d) (rulesJson d)
    (adminJson d) l.

(* ===================================================================== *)
(** * Tasks store (db/tasks.ts) *)
(* ===================================================================== *)

Module TasksDB.

Definition hasId (id : string) (t : Task) : bool := String.eqb (task_id t) id.

Definition with_status (s : TaskStatus) (t : Task) : Task :=
  mkTask (task_id t) (task_toolName t) (task_args t) (task_originalArgs t) s
    (task_result t) (task_error t) (task_policyAction t)
    (task_telegramMessageId t) (task_createdAt t) (task_approvedAt t)
    (task_executedAt t) (task_checkedAt t).
Definition with_result (r : json) (t : Task) : Task :=
  mkTask (task_id t) (task_toolName t) (task_args t) (task_originalArgs t)
    (task_status t) (Some r) (task_error t) (task_policyAction t)
    (task_telegramMessageId t) (task_createdAt t) (task_approvedAt t)
    (task_executedAt t) (task_checkedAt t).
Definition with_error (e : string) (t : Task) : Task :=
  mkTask (task_id t) (task_toolName t) (task_args t) (task_originalArgs t)
    (task_status t) (task_result t) (Some e) (task_policyAction t)
    (task_telegramMessageId t) (task_createdAt t) (task_approvedAt t)
    (task_executedAt t) (task_checkedAt t).
Definition with_telegramMessageId (m : Z) (t : Task) : Task :=
  mkTask (task_id t) (task_toolName t) (task_args t) (task_originalArgs t)
    (task_status t) (task_result t) (task_error t) (task_policyAction t)
    (Some m) (task_createdAt t) (task_approvedAt t)
    (task_executedAt t) (task_checkedAt t).
Definition with_approvedAt (now : Z) (t : Task) : Task :=
  mkTask (task_id t) (task_toolName t) (task_args t) (task_originalArgs t)
    (task_status t) (task_result t) (task_error t) (task_policyAction t)
    (task_telegramMessageId t) (task_createdAt t) (Some now)
    (task_executedAt t) (task_checkedAt t).
Definition with_executedAt (now : Z) (t : Task) : Task :=
  mkTask (task_id t) (task_toolName t) (task_args t) (task_originalArgs t)
    (task_status t) (task_result t) (task_error t) (task_policyAction t)
    (task_telegramMessageId t) (task_createdAt t) (task_approvedAt t)
    (Some now) (task_checkedAt t).
Definition with_checkedAt (now : Z) (t : Task) : Task :=
  mkTask (task_id t) (task_toolName t) (task_args t) (task_originalArgs t)
    (task_status t) (task_result t) (task_error t) (task_policyAction t)
    (task_telegramMessageId t) (task_createdAt t) (task_approvedAt t)
    (task_executedAt t) (Some now).

(** [create]: [id] is the fresh uuid, [now] the current time.  The new row
    goes to the front. *)
Definition create (id : string) (now : Z) (toolName : string)
    (args originalArgs : json) (policyAction : PolicyAction)
    (f : file (list Task)) : file (list Task) * Task :=
  let data := readJsonFile f [] in
  let row := mkTask id toolName args originalArgs pending_approval None None
               policyAction None now None None None in
  (writeJsonFileAtomic f (row :: data), row).

Definition get (id : string) (f : file (list Task)) : option Task :=
  Js.find (hasId id) (readJsonFile f []).

(** The shape shared by the mutators: read, find the row, return at once
    when there is none, else mutate it and write the document back. *)
Definition mutate (id : string) (change : Task -> Task)
    (f : file (list Task)) : file (list Task) :=
  let data := readJsonFile f [] in
  match Js.find (hasId id) data with
  | None => f
  | Some _ => writeJsonFileAtomic f (Js.mutateFirst (hasId id) change data)
  end.

Definition updateStatus (id : string) (status : TaskStatus) (now : Z)
    (f : file (list Task)) : file (list Task) :=
  mutate id
    (fun row =>
       let row := with_status status row in
       let row := if TaskStatus_eqb status approved_queued
                  then with_approvedAt now row else row in
       if TaskStatus_eqb status executing
       then with_executedAt now row else row)
    f.

Definition setResult (id : string) (result : json) (now : Z)
    (f : file (list Task)) : file (list Task) :=
  mutate id
    (fun row => with_executedAt now (with_result result (with_status completed row)))
    f.

Definition setError (id : string) (message : string) (now : Z)
    (f : file (list Task)) : file (list Task) :=
  mutate id
    (fun row => with_executedAt now (with_error message (with_status error row)))
    f.

Definition setTelegramMessageId (id : string) (messageId : Z)
    (f : file (list Task)) : file (list Task) :=
  mutate id (with_telegramMessageId messageId) f.

Definition markChecked (id : string) (now : Z)
    (f : file (list Task)) : file (list Task) :=
  mutate id (with_checkedAt now) f.

Definition listPending (f : file (list Task)) : list Task :=
  filter (fun t => TaskStatus_eqb (task_status t) pending_approval)
    (readJsonFile f []).

Definition listAll (limit : Z) (f : file (list Task)) : list Task :=
  Js.slice0 limit (readJsonFile f []).

Definition listByStatus (status : TaskStatus) (limit : Z)
    (f : file (list Task)) : list Task :=
  Js.slice0 limit
    (filter (fun t => TaskStatus_eqb (task_status t) status) (readJsonFile f [])).

End TasksDB.

(* ===================================================================== *)
(** * Grants store (db/grants.ts) *)
(* ===================================================================== *)

Module GrantsDB.

(** [create]: the row is built with [now.toISOString()] and
    [expiresAt.toISOString()], which throw a [RangeError] on a date that is
    [NaN]; then nothing is written.  ([now] is the time of the clock and
    [durationSeconds] an integer, as a number holds it.) *)
Definition create (id : string) (now : Z) (pattern : string)
    (durationSeconds : Z) (f : file (list GrantRow))
  : outcome (file (list GrantRow) * GrantRow) :=
  let data := readJsonFile f [] in
  match Js.timeClip now, Js.timeClip (now + durationSeconds * 1000)%Z with
  | Some createdAt, Some expiresAt =>
      let row := mkGrant id pattern (Some createdAt) (Some expiresAt) in
      Returned (writeJsonFileAtomic f (row :: data), row)
  | _, _ => Thrown "Invalid time value"
  end.

(** The test of the loop body:
    [Number.isFinite(exp) && exp > now && matchesPattern(toolName, g.pattern)]. *)
Definition grantCovers (now : Z) (toolName : string) (g : GrantRow) : bool :=
  match grant_expiresAt g with
  | Some exp => (now <? exp)%Z && Pattern.matchesPattern toolName (grant_pattern g)
  | None => false
  end.

Fixpoint anyGrant (now : Z) (toolName : string) (grants : list GrantRow) : bool :=
  match grants with
  | [] => false
  | g :: rest => if grantCovers now toolName g then true
                 else anyGrant now toolName rest
  end.

Definition hasActiveGrant (now : Z) (toolName : string)
    (f : file (list GrantRow)) : bool :=
  anyGrant now toolName (readJsonFile f []).

(** [getActive]: the test is [new Date(g.expiresAt).getTime() > now], which
    is false for [NaN]. *)
Definition getActive (now : Z) (f : file (list GrantRow)) : list GrantRow :=
  filter (fun g => match grant_expiresAt g with
                   | Some exp => (now <? exp)%Z
                   | None => false
                   end)
    (readJsonFile f []).

(** [revokeAll]: the new file, and the number of grants there were. *)
Definition revokeAll (f : file (list GrantRow)) : file (list GrantRow) * nat :=
  let data := readJsonFile f [] in
  (writeJsonFileAtomic f [], List.length data).

(** [revoke(id)]: the new file, and whether a grant was removed. *)
Definition revoke (id : string) (f : file (list GrantRow))
  : file (list GrantRow) * bool :=
  let data := readJsonFile f [] in
  let kept := filter (fun g => negb (String.eqb (grant_id g) id)) data in
  (writeJsonFileAtomic f kept,
   negb (Nat.eqb (List.length kept) (List.length data))).

End GrantsDB.

(* ===================================================================== *)
(** * Dynamic policy rules (db/policy-rules.ts) *)
(* ===================================================================== *)

Module PolicyRulesDB.

Record ResolvedPolicyRule : Type := mkResolved {
  resolved_action : PolicyAction;
  resolved_id : string;
  resolved_pattern : string
}.

Definition resolvedOf (r : RuleRow) : ResolvedPolicyRule :=
  mkResolved (rule_action r) (rule_id r) (rule_pattern r).

Definition with_action (a : PolicyAction) (r : RuleRow) : RuleRow :=
  mkRule (rule_id r) (rule_pattern r) a (rule_createdAt r).

Definition hasPattern (pattern : string) (r : RuleRow) : bool :=
  String.eqb (rule_pattern r) pattern.

Definition upsert (id : string) (now : Z) (pattern : string)
    (action : PolicyAction) (f : file (list RuleRow)) : file (list RuleRow) :=
  let data := readJsonFile f [] in
  match Js.find (hasPattern pattern) data with
  | Some _ =>
      writeJsonFileAtomic f (Js.mutateFirst (hasPattern pattern) (with_action action) data)
  | None => writeJsonFileAtomic f (mkRule id pattern action now :: data)
  end.

Definition remove (id : string) (f : file (list RuleRow)) : file (list RuleRow) :=
  let data := readJsonFile f [] in
  writeJsonFileAtomic f (filter (fun r => negb (String.eqb (rule_id r) id)) data).

(** The [for] loop of [resolveDetailed]. *)
Fixpoint firstMatching (toolName : string) (rules : list RuleRow)
  : option ResolvedPolicyRule :=
  match rules with
  | [] => None
  | rule :: rest =>
      if Pattern.matchesPattern toolName (rule_pattern rule)
      then Some (resolvedOf rule)
      else firstMatching toolName rest
  end.

Definition resolveDetailed (toolName : string) (f : file (list RuleRow))
  : option ResolvedPolicyRule :=
  let data := readJsonFile f [] in
  match Js.find (hasPattern toolName) data with
  | Some exact => Some (resolvedOf exact)
  | None => firstMatching toolName data
  end.

(** What [upsert] returns: the rule as it now stands. *)
Definition upserted (id : string) (now : Z) (pattern : string)
    (action : PolicyAction) (f : file (list RuleRow)) : RuleRow :=
  match Js.find (hasPattern pattern) (readJsonFile f []) with
  | Some existing => mkRule (rule_id existing) pattern action (rule_createdAt existing)
  | None => mkRule id pattern action now
  end.

(** What [remove] returns: [before !== data.rules.length]. *)
Definition removeFound (id : string) (f : file (list RuleRow)) : bool :=
  let data := readJsonFile f [] in
  negb (Nat.eqb (List.length data)
          (List.length (filter (fun r => negb (String.eqb (rule_id r) id)) data))).

End PolicyRulesDB.

(* ===================================================================== *)
(** * Approvals store (db/approvals.ts) and storage bootstrap (db/index.ts) *)
(* ===================================================================== *)

Module ApprovalsDB.

(** [create]: as for a grant, [toISOString] throws on a date that is
    [NaN], before anything is written. *)
Definition create (id : string) (now : Z) (toolName : string) (args : json)
    (timeoutSeconds : Z) (f : file (list ApprovalRow))
  : outcome (file (list ApprovalRow) * ApprovalRow) :=
  let data := readJsonFile f [] in
  match Js.timeClip now, Js.timeClip (now + timeoutSeconds * 1000)%Z with
  | Some createdAt, Some expiresAt =>
      let row := mkApproval id toolName args approval_pending None
                   createdAt expiresAt None in
      Returned (writeJsonFileAtomic f (row :: data), row)
  | _, _ => Thrown "Invalid time value"
  end.

Definition get (id : string) (f : file (list ApprovalRow)) : option ApprovalRow :=
  Js.find (fun a => String.eqb (approval_id a) id) (readJsonFile f []).

Definition getPending (f : file (list ApprovalRow)) : list ApprovalRow :=
  filter (fun a => match approval_status a with
                   | approval_pending => true
                   | _ => false
                   end)
    (readJsonFile f []).

End ApprovalsDB.

(** [initStorage]: each of the three files is written back with what
    [readJsonFile] makes of it. *)
Definition initStorage (d : Disk) : Disk :=
  let d := set_approvalsJson d
             (writeJsonFileAtomic (approvalsJson d) (readJsonFile (approvalsJson d) [])) in
  let d := set_grantsJson d
             (writeJsonFileAtomic (grantsJson d) (readJsonFile (grantsJson d) [])) in
  set_rulesJson d
    (writeJsonFileAtomic (rulesJson d) (readJsonFile (rulesJson d) [])).

(** [cleanupExpired], run every minute: pending approvals and grants whose
    expiry is a date not after [now] are dropped; a file is written only
    when something was dropped from it.  (The expiry of an approval row is
    a date here, that of a grant row may be unparsable.) *)
Definition approvalKept (now : Z) (a : ApprovalRow) : bool :=
  match approval_status a with
  | approval_pending => (now <? approval_expiresAt a)%Z
  | _ => true
  end.

Definition grantKept (now : Z) (g : GrantRow) : bool :=
  match grant_expiresAt g with
  | Some exp => (now <? exp)%Z
  | None => true
  end.

Definition cleanupExpired (now : Z) (d : Disk) : Disk :=
  let approvals := readJsonFile (approvalsJson d) [] in
  let keptApprovals := filter (approvalKept now) approvals in
  let approvalsDeleted := (List.length approvals - List.length keptApprovals)%nat in
  let d := if (0 <? approvalsDeleted)%nat
           then set_approvalsJson d (writeJsonFileAtomic (approvalsJson d) keptApprovals)
           else d in
  let grants := readJsonFile (grantsJson d) [] in
  let keptGrants := filter (grantKept now) grants in
  let grantsDeleted := (List.length grants - List.length keptGrants)%nat in
  if (0 <? grantsDeleted)%nat
  then set_grantsJson d (writeJsonFileAtomic (grantsJson d) keptGrants)
  else d.

(* ===================================================================== *)
(** * Policy engine (middleware/policy.ts) *)
(* ===================================================================== *)

Module PolicyEngine.

Inductive Source : Type := db_rule | config_exact | config_pattern | default.

Record Detailed : Type := mkDetailed {
  action : PolicyAction;
  source : Source;
  pattern : option string;
  ruleId : option string
}.

Record t : Type := mkEngine {
  policies : list (string * PolicyAction);   (* in [Object.entries] order *)
  defaultPolicy : PolicyAction;
  hasPolicyRulesDB : bool
}.

(** The [for] loop over [Object.entries(this.policies)]. *)
Fixpoint firstPattern (toolName : string) (entries : list (string * PolicyAction))
  : option Detailed :=
  match entries with
  | [] => None
  | (pattern, action) :: rest =>
      if Pattern.matchesPattern toolName pattern
      then Some (mkDetailed action config_pattern (Some pattern) None)
      else firstPattern toolName rest
  end.

(** [this.policies[toolName]], tested for truthiness: the own entry (an
    action is a non-empty string), else the property that a name of
    [Js.prototypeNames] inherits, else [undefined]. *)
Definition lookup (toolName : string) (entries : list (string * PolicyAction))
  : option PolicyAction :=
  match Js.getField toolName entries with
  | Some action => Some action
  | None => if Js.inherited toolName then Some not_an_action else None
  end.

Definition checkPolicyDetailed (engine : t) (rules : file (list RuleRow))
    (toolName : string) : Detailed :=
  match (if hasPolicyRulesDB engine
         then PolicyRulesDB.resolveDetailed toolName rules else None) with
  | Some resolved =>
      mkDetailed (PolicyRulesDB.resolved_action resolved) db_rule
        (Some (PolicyRulesDB.resolved_pattern resolved))
        (Some (PolicyRulesDB.resolved_id resolved))
  | None =>
      match lookup toolName (policies engine) with
      | Some action => mkDetailed action config_exact (Some toolName) None
      | None =>
          match firstPattern toolName (policies engine) with
          | Some hit => hit
          | None => mkDetailed (defaultPolicy engine) default None None
          end
      end
  end.

Definition checkPolicy (engine : t) (rules : file (list RuleRow))
    (toolName : string) : PolicyAction :=
  action (checkPolicyDetailed engine rules toolName).

End PolicyEngine.

(* ===================================================================== *)
(** * The running gateway: state, outside world, effects *)
(* ===================================================================== *)

Module Notice.

Inductive Status : Type := ok | blocked | failed.   (* 'ok' | 'blocked' | 'error' *)

Record t : Type := mkNotice {
  status : Status;
  toolName : string;
  policyAction : PolicyAction;
  policySource : option PolicyEngine.Source;
  policyPattern : option string;
  policyRuleId : option string;
  usedGrant : bool;
  usedApproval : bool;
  argsPreview : json;
  resultPreview : option json;
  error : option string;
  at_ : Z
}.

End Notice.

(** The texts the bot answers with. *)
Inductive Reply : Type :=
| PairingDisabled          (* Pairing is disabled (PAIRING_CODE not set on server). *)
| PairUsage                (* Usage: /pair <PAIRING_CODE> *)
| InvalidPairingCode       (* Invalid pairing code. *)
| CouldNotReadChatId       (* Could not read chat id. *)
| Paired                   (* Paired! This chat is now the admin chat for approvals. *)
| NotPairedYet             (* Not paired yet. Use /pair <PAIRING_CODE>. *)
| Unauthorized             (* Unauthorized *)
| CallbackAnswer (text : string)
| TaskCompleted (taskId : string)
| TaskFailed (taskId : string).

(** A call that reached a backend client. *)
Record Dispatch : Type := mkDispatch {
  dispatch_mcpName : string;
  dispatch_toolName : string;
  dispatch_arguments : json
}.

Record World : Type := mkWorld {
  disk : Disk;
  clock : Z;                         (* [Date.now()] *)
  uuids : nat;                       (* identifiers drawn so far *)
  adminChatId : string;              (* [TelegramBot.adminChatId]; [""] is unpaired *)
  noticeQueue : list Notice.t;       (* oldest first *)
  noticeFlushTimer : bool;
  dispatched : list Dispatch;        (* oldest first *)
  outbox : list (option string * Reply)   (* answers of the bot, oldest first *)
}.

Definition set_disk (w : World) (d : Disk) : World :=
  mkWorld d (clock w) (uuids w) (adminChatId w) (noticeQueue w)
    (noticeFlushTimer w) (dispatched w) (outbox w).
Definition set_uuids (w : World) (n : nat) : World :=
  mkWorld (disk w) (clock w) n (adminChatId w) (noticeQueue w)
    (noticeFlushTimer w) (dispatched w) (outbox w).
Definition set_adminChatId (w : World) (c : string) : World :=
  mkWorld (disk w) (clock w) (uuids w) c (noticeQueue w)
    (noticeFlushTimer w) (dispatched w) (outbox w).
Definition set_notices (w : World) (q : list Notice.t) (timer : bool) : World :=
  mkWorld (disk w) (clock w) (uuids w) (adminChatId w) q timer
    (dispatched w) (outbox w).
Definition set_dispatched (w : World) (l : list Dispatch) : World :=
  mkWorld (disk w) (clock w) (uuids w) (adminChatId w) (noticeQueue w)
    (noticeFlushTimer w) l (outbox w).
Definition set_outbox (w : World) (l : list (option string * Reply)) : World :=
  mkWorld (disk w) (clock w) (uuids w) (adminChatId w) (noticeQueue w)
    (noticeFlushTimer w) (dispatched w) l.

(** What the gateway does not decide. *)
Record Env : Type := mkEnv {
  uuidv4 : nat -> string;
    (* the n-th identifier of the generator *)
  getClient : string -> option (string -> json -> outcome json);
    (* [clientManager.getClient(mcpName)] and what [client.callTool] answers *)
  sendMessage : string -> string -> outcome Z;
    (* [bot.telegram.sendMessage(chat, text, ...)]: the message id, or a failure *)
  formatApprovalMessage : string -> string -> json -> string;
  stringify : json -> string;
    (* [JSON.stringify(value, null, 2)] *)
  toISOString : Z -> string
}.

(** Configuration fixed at start-up. *)
Record Config : Type := mkConfig {
  replacements : list Anonymizer.Replacement;
  policyEngine : PolicyEngine.t;
  pairingCode : string;
  hasTelegramBot : bool              (* [MCPHandler.telegramBot] is optional *)
}.

(** Computations on the state that may throw. *)
Definition M (A : Type) : Type := World -> World * outcome A.

Definition ret {A} (a : A) : M A := fun w => (w, Returned a).
Definition throw {A} (message : string) : M A := fun w => (w, Thrown message).
Definition bind {A B} (m : M A) (k : A -> M B) : M B :=
  fun w =>
    match m w with
    | (w', Returned a) => k a w'
    | (w', Thrown e) => (w', Thrown e)
    end.
Definition tryCatch {A} (m : M A) (handler : string -> M A) : M A :=
  fun w =>
    match m w with
    | (w', Returned a) => (w', Returned a)
    | (w', Thrown e) => handler e w'
    end.
Definition gets {A} (f : World -> A) : M A := fun w => (w, Returned (f w)).
Definition modify (f : World -> World) : M unit := fun w => (f w, Returned tt).
Definition liftOutcome {A} (o : outcome A) : M A := fun w => (w, o).

Declare Scope gateway_scope.
Delimit Scope gateway_scope with gateway.
Notation "x <- m ;; k" := (bind m (fun x => k))
  (at level 61, m at next level, right associativity) : gateway_scope.
Notation "m ;;; k" := (bind m (fun _ => k))
  (at level 61, right associativity) : gateway_scope.
Open Scope gateway_scope.

Definition onTasks (f : file (list Task) -> file (list Task)) : M unit :=
  modify (fun w => set_disk w (set_tasksJson (disk w) (f (tasksJson (disk w))))).
Definition onGrants (f : file (list GrantRow) -> file (list GrantRow)) : M unit :=
  modify (fun w => set_disk w (set_grantsJson (disk w) (f (grantsJson (disk w))))).
Definition onRules (f : file (list RuleRow) -> file (list RuleRow)) : M unit :=
  modify (fun w => set_disk w (set_rulesJson (disk w) (f (rulesJson (disk w))))).

(** [uuidv4()]. *)
Definition freshId (env : Env) : M string :=
  fun w => (set_uuids w (S (uuids w)), Returned (uuidv4 env (uuids w))).

Definition reply (chat : option string) (r : Reply) : M unit :=
  modify (fun w => set_outbox w (outbox w ++ [(chat, r)])).

(* ===================================================================== *)
(** * Audit log (db/audit.ts) and admin pairing store *)
(* ===================================================================== *)

Module AuditDB.

Definition log (toolName : string) (args : json) (result : option json)
    (policyAction : option PolicyAction) (approvalStatus error : option string)
  : M unit :=
  modify (fun w =>
    set_disk w
      (set_auditNdjson (disk w)
         (auditNdjson (disk w) ++
          [mkAudit (clock w) toolName args result policyAction approvalStatus error]))).

End AuditDB.

Module AdminStore.

Definition get (f : file AdminState) : AdminState :=
  readJsonFile f (mkAdminState None).

Definition setAdminChatId (adminChatId : string) : M unit :=
  modify (fun w =>
    set_disk w
      (set_adminJson (disk w)
         (writeJsonFileAtomic (adminJson (disk w)) (mkAdminState (Some adminChatId))))).

End AdminStore.

(* ===================================================================== *)
(** * Router (mcp/router.ts) *)
(* ===================================================================== *)

Module Router.

Definition dquote : string := String "034"%char EmptyString.

(** [s.split('/')] cut at the first separator: the part before it, and the
    remaining parts joined again, when there is a separator at all. *)
Fixpoint cutAt (sep : ascii) (s : string) : option (string * string) :=
  match s with
  | EmptyString => None
  | String c r =>
      if Ascii.eqb c sep then Some (EmptyString, r)
      else match cutAt sep r with
           | Some (a, b) => Some (String c a, b)
           | None => None
           end
  end.

Definition parseNamespace (namespacedName : string) : outcome (string * string) :=
  match cutAt "/"%char namespacedName with
  | None =>
      Thrown ("Invalid namespaced tool name: " ++ namespacedName ++
              ". Expected format: " ++ dquote ++ "mcp_name/tool_name" ++ dquote)
  | Some parts => Returned parts
  end.

Definition callTool (env : Env) (namespacedName : string) (args : json) : M json :=
  parts <- liftOutcome (parseNamespace namespacedName) ;;
  let '(mcpName, toolName) := parts in
  match getClient env mcpName with
  | None =>
      throw ("MCP server " ++ dquote ++ mcpName ++ dquote ++ " is not connected")
  | Some client =>
      modify (fun w =>
        set_dispatched w (dispatched w ++ [mkDispatch mcpName toolName args])) ;;;
      liftOutcome (client toolName args)
  end.

(** [namespacedUri.match(/^([^:]+):\/\/(.+)$/)]: the class cannot pass a
    colon, so the first group is what stands before the first colon. *)
Definition matchResourceUri (namespacedUri : string) : option (string * string) :=
  match cutAt ":"%char namespacedUri with
  | Some (String c name, rest) =>
      if prefix "//" rest && RegExp.dotPlus (JsString.drop 2 rest)
      then Some (String c name, JsString.drop 2 rest)
      else None
  | _ => None
  end.

(** [readResource]: [readers mcpName] is [clientManager.getClient(mcpName)]
    with what its [readResource({ uri })] answers. *)
Definition readResource (readers : string -> option (string -> outcome json))
    (namespacedUri : string) : outcome json :=
  match matchResourceUri namespacedUri with
  | None =>
      Thrown ("Invalid namespaced resource URI: " ++ namespacedUri ++
              ". Expected format: " ++ dquote ++ "mcp_name://uri" ++ dquote)
  | Some (mcpName, originalUri) =>
      match readers mcpName with
      | None =>
          Thrown ("MCP server " ++ dquote ++ mcpName ++ dquote ++ " is not connected")
      | Some client => client originalUri
      end
  end.

End Router.

(* ===================================================================== *)
(** * Aggregator (mcp/aggregator.ts) *)
(* ===================================================================== *)

Module Aggregator.

Record Tool : Type := mkTool {
  tool_name : string;
  tool_description : option string;
  tool_inputSchema : json
}.

Record Resource : Type := mkResource {
  resource_uri : string;
  resource_name : string;
  resource_description : option string;
  resource_mimeType : option string
}.

Record t : Type := mkAggregator {
  toolsCache : option (list Tool);
  resourcesCache : option (list Resource);
  cacheTimestamp : Z;
  pinnedToolsByMCP : list (string * option (list string));   (* a [Map] *)
  recentlyUsed : list string                                  (* a [Set] *)
}.

Definition cacheTTL : Z := 60000.

(** The constructor: [mcpConfigs] gives, for each configuration, its name
    and its [pinnedTools]. *)
Definition new (mcpConfigs : option (list (string * option (list string)))) : t :=
  mkAggregator None None 0
    (match mcpConfigs with
     | Some configs => Js.fromEntries configs
     | None => []
     end)
    [].

Definition markUsed (toolName : string) (a : t) : t :=
  mkAggregator (toolsCache a) (resourcesCache a) (cacheTimestamp a)
    (pinnedToolsByMCP a)
    (if existsb (String.eqb toolName) (recentlyUsed a) then recentlyUsed a
     else (recentlyUsed a ++ [toolName])%list).

Definition namespacedTool (mcpName : string) (tool : Tool) : Tool :=
  mkTool (mcpName ++ "/" ++ tool_name tool)
    (Some (Js.strOr (tool_description tool)
             ("[" ++ mcpName ++ "] " ++ tool_name tool)))
    (tool_inputSchema tool).

(** [clientManager.getAllClients()] in the order of the [Map], each client
    with what its [listTools()] answers: it throws, or it returns a response
    whose [tools] may be missing. *)
Definition aggregateTools (clients : list (string * outcome (option (list Tool))))
  : list Tool :=
  flat_map (fun client =>
              match snd client with
              | Returned (Some tools) => map (namespacedTool (fst client)) tools
              | Returned None => []
              | Thrown _ => []
              end)
    clients.

Definition listAllToolsUnfiltered (refresh : bool) (now : Z)
    (clients : list (string * outcome (option (list Tool)))) (a : t)
  : t * list Tool :=
  let aggregate :=
    let allTools := aggregateTools clients in
    (mkAggregator (Some allTools) (resourcesCache a) now (pinnedToolsByMCP a)
       (recentlyUsed a),
     allTools) in
  match toolsCache a with
  | Some cached =>
      if negb refresh && (now - cacheTimestamp a <? cacheTTL)%Z
      then (a, cached)
      else aggregate
  | None => aggregate
  end.

Definition hasPinning (a : t) : bool :=
  existsb (fun entry => match snd entry with Some _ => true | None => false end)
    (pinnedToolsByMCP a).

(** The test of the filter of [listAllTools]. *)
Definition visible (a : t) (tool : Tool) : bool :=
  match Router.cutAt "/"%char (tool_name tool) with
  | None => true
  | Some (mcpName, localName) =>
      match Js.getField mcpName (pinnedToolsByMCP a) with
      | None | Some None => true
      | Some (Some pinnedTools) =>
          if existsb (String.eqb localName) pinnedTools then true
          else if existsb (String.eqb (tool_name tool)) (recentlyUsed a) then true
          else false
      end
  end.

Definition listAllTools (refresh : bool) (now : Z)
    (clients : list (string * outcome (option (list Tool)))) (a : t)
  : t * list Tool :=
  let '(a', allTools) := listAllToolsUnfiltered refresh now clients a in
  if negb (hasPinning a') then (a', allTools)
  else (a', filter (visible a') allTools).

Definition namespacedResource (mcpName : string) (resource : Resource) : Resource :=
  mkResource (mcpName ++ "://" ++ resource_uri resource)
    ("[" ++ mcpName ++ "] " ++ resource_name resource)
    (resource_description resource) (resource_mimeType resource).

Definition aggregateResources
    (clients : list (string * outcome (option (list Resource)))) : list Resource :=
  flat_map (fun client =>
              match snd client with
              | Returned (Some resources) =>
                  map (namespacedResource (fst client)) resources
              | Returned None => []
              | Thrown _ => []
              end)
    clients.

Definition listAllResources (refresh : bool) (now : Z)
    (clients : list (string * outcome (option (list Resource)))) (a : t)
  : t * list Resource :=
  let aggregate :=
    let allResources := aggregateResources clients in
    (mkAggregator (toolsCache a) (Some allResources) now (pinnedToolsByMCP a)
       (recentlyUsed a),
     allResources) in
  match resourcesCache a with
  | Some cached =>
      if negb refresh && (now - cacheTimestamp a <? cacheTTL)%Z
      then (a, cached)
      else aggregate
  | None => aggregate
  end.

Definition invalidateCache (a : t) : t :=
  mkAggregator None None 0 (pinnedToolsByMCP a) (recentlyUsed a).

End Aggregator.

(* ===================================================================== *)
(** * Approval channel (telegram/bot.ts) *)
(* ===================================================================== *)

Module TelegramBot.

(** [String.prototype.trim] on the Latin-1 white space. *)
Definition isWhiteSpace (c : ascii) : bool :=
  existsb (Nat.eqb (nat_of_ascii c)) [9; 10; 11; 12; 13; 32; 160]%nat.

Fixpoint trimStart (s : string) : string :=
  match s with
  | EmptyString => EmptyString
  | String c r => if isWhiteSpace c then trimStart r else s
  end.

Fixpoint trimEnd (s : string) : string :=
  match s with
  | EmptyString => EmptyString
  | String c r =>
      match trimEnd r with
      | EmptyString => if isWhiteSpace c then EmptyString else String c EmptyString
      | r' => String c r'
      end
  end.

Definition trim (s : string) : string := trimEnd (trimStart s).

(** [text.split(' ').slice(1).join(' ')]: what follows the first space. *)
Definition afterFirst (sep : ascii) (text : string) : string :=
  match Router.cutAt sep text with
  | Some (_, rest) => rest
  | None => EmptyString
  end.

(** [!chatId] for [ctx.chat?.id?.toString()]. *)
Definition readable (chatId : option string) : option string :=
  match chatId with
  | Some c => if String.eqb c "" then None else Some c
  | None => None
  end.

(** The [/pair] command. *)
Definition onPair (cfg : Config) (chatId : option string) (text : string) : M unit :=
  let code := trim (afterFirst " "%char text) in
  if String.eqb (pairingCode cfg) "" then reply chatId PairingDisabled
  else if String.eqb code "" then reply chatId PairUsage
  else if negb (String.eqb code (pairingCode cfg)) then reply chatId InvalidPairingCode
  else match readable chatId with
       | None => reply chatId CouldNotReadChatId
       | Some c =>
           modify (fun w => set_adminChatId w c) ;;;
           AdminStore.setAdminChatId c ;;;
           reply chatId Paired
       end.

Definition isAdmin (chatId : option string) : M bool :=
  admin <- gets adminChatId ;;
  if String.eqb admin "" then reply chatId NotPairedYet ;;; ret false
  else match chatId with
       | Some c =>
           if String.eqb c admin then ret true
           else reply chatId Unauthorized ;;; ret false
       | None => reply chatId Unauthorized ;;; ret false
       end.

Definition enqueueExecutionNotice (notice : Z -> Notice.t) : M unit :=
  admin <- gets adminChatId ;;
  if String.eqb admin "" then ret tt
  else modify (fun w => set_notices w (noticeQueue w ++ [notice (clock w)]) true).

Definition sendApprovalRequest (env : Env) (taskId toolName : string) (args : json)
  : M unit :=
  let message := formatApprovalMessage env taskId toolName args in
  admin <- gets adminChatId ;;
  if String.eqb admin ""
  then throw "Telegram bot not paired (adminChatId is not set)"
  else
    messageId <- liftOutcome (sendMessage env admin message) ;;
    onTasks (TasksDB.setTelegramMessageId taskId messageId).

(** A notification to the admin whose failure is swallowed. *)
Definition notifyAdmin (r : Reply) : M unit :=
  admin <- gets adminChatId ;;
  if String.eqb admin "" then ret tt else reply (Some admin) r.

Definition executeApprovedTask (env : Env) (cfg : Config) (taskId : string) : M unit :=
  task <- gets (fun w => TasksDB.get taskId (tasksJson (disk w))) ;;
  match task with
  | None => ret tt
  | Some task =>
      now <- gets clock ;;
      onTasks (TasksDB.updateStatus taskId executing now) ;;;
      tryCatch
        (result <- Router.callTool env (task_toolName task) (task_args task) ;;
         let fakeResult := Anonymizer.deanonymizeResponse (replacements cfg) result in
         onTasks (TasksDB.setResult taskId fakeResult now) ;;;
         AuditDB.log (task_toolName task) (task_originalArgs task) (Some fakeResult)
           (Some (task_policyAction task)) (Some "approved") None ;;;
         notifyAdmin (TaskCompleted taskId))
        (fun errorMessage =>
         onTasks (TasksDB.setError taskId errorMessage now) ;;;
         AuditDB.log (task_toolName task) (task_originalArgs task) None
           (Some (task_policyAction task)) (Some "approved") (Some errorMessage) ;;;
         notifyAdmin (TaskFailed taskId))
  end.

(** [void this.executeApprovedTask(taskId)]: nothing it throws reaches the
    caller.  The detached run is taken to completion before the next
    event. *)
Definition detached (m : M unit) : M unit :=
  fun w => (fst (m w), Returned tt).

Definition upsertRule (env : Env) (pattern : string) (action : PolicyAction) : M unit :=
  existing <- gets (fun w =>
    Js.find (PolicyRulesDB.hasPattern pattern) (readJsonFile (rulesJson (disk w)) [])) ;;
  now <- gets clock ;;
  match existing with
  | Some _ => onRules (PolicyRulesDB.upsert EmptyString now pattern action)
  | None =>
      id <- freshId env ;;
      onRules (PolicyRulesDB.upsert id now pattern action)
  end.

(** [grantsDB.create(pattern, durationSeconds)], with the grant it
    returns. *)
Definition createGrantReturning (env : Env) (pattern : string)
    (durationSeconds : Z) : M GrantRow :=
  id <- freshId env ;;
  now <- gets clock ;;
  created <- gets (fun w =>
    GrantsDB.create id now pattern durationSeconds (grantsJson (disk w))) ;;
  match created with
  | Returned (written, grant) => onGrants (fun _ => written) ;;; ret grant
  | Thrown e => throw e
  end.

Definition createGrant (env : Env) (pattern : string) (durationSeconds : Z) : M unit :=
  createGrantReturning env pattern durationSeconds ;;; ret tt.

(** The decisions offered under an approval request. *)
Inductive Decision : Type :=
| Approve
| Deny
| ApproveGrant10m
| ApproveGrant1h
| ApproveAllowTool
| DenyAlwaysTool.

Definition decisionOf (action : string) : option Decision :=
  if String.eqb action "approve" then Some Approve
  else if String.eqb action "deny" then Some Deny
  else if String.eqb action "approve_grant10m" then Some ApproveGrant10m
  else if String.eqb action "approve_grant1h" then Some ApproveGrant1h
  else if String.eqb action "approve_allow_tool" then Some ApproveAllowTool
  else if String.eqb action "deny_always_tool" then Some DenyAlwaysTool
  else None.

(** One branch of the callback handler: every branch first tests that the
    task is still pending. *)
Definition decide (env : Env) (cfg : Config) (chat : option string)
    (task : Task) (taskId : string) (d : Decision) : M unit :=
  if negb (TaskStatus_eqb (task_status task) pending_approval)
  then reply chat (CallbackAnswer "Task already processed")
  else
    now <- gets clock ;;
    match d with
    | Approve =>
        onTasks (TasksDB.updateStatus taskId approved_queued now) ;;;
        reply chat (CallbackAnswer "Approved") ;;;
        detached (executeApprovedTask env cfg taskId)
    | Deny =>
        onTasks (TasksDB.updateStatus taskId denied now) ;;;
        reply chat (CallbackAnswer "Denied")
    | ApproveGrant10m =>
        createGrant env (task_toolName task) (10 * 60) ;;;
        onTasks (TasksDB.updateStatus taskId approved_queued now) ;;;
        reply chat (CallbackAnswer "Approved + Grant 10m") ;;;
        detached (executeApprovedTask env cfg taskId)
    | ApproveGrant1h =>
        createGrant env (task_toolName task) (60 * 60) ;;;
        onTasks (TasksDB.updateStatus taskId approved_queued now) ;;;
        reply chat (CallbackAnswer "Approved + Grant 1h") ;;;
        detached (executeApprovedTask env cfg taskId)
    | ApproveAllowTool =>
        upsertRule env (task_toolName task) allow ;;;
        onTasks (TasksDB.updateStatus taskId approved_queued now) ;;;
        reply chat (CallbackAnswer "Approved + Always allow tool") ;;;
        detached (executeApprovedTask env cfg taskId)
    | DenyAlwaysTool =>
        upsertRule env (task_toolName task) deny ;;;
        onTasks (TasksDB.updateStatus taskId denied now) ;;;
        reply chat (CallbackAnswer "Denied + Always deny tool")
    end.

(** [change_policy:<action>:<toolName>], from the buttons of a digest. *)
Definition changePolicy (env : Env) (chat : option string) (data : string) : M unit :=
  let rest := afterFirst ":"%char data in
  let '(action, toolName) :=
    match Router.cutAt ":"%char rest with
    | Some (a, t) => (a, t)
    | None => (rest, EmptyString)
    end in
  if String.eqb toolName "" then reply chat (CallbackAnswer "Invalid action")
  else if String.eqb action "require-approval"
  then upsertRule env toolName require_approval ;;;
       reply chat (CallbackAnswer "Require approval")
  else if String.eqb action "deny"
  then upsertRule env toolName deny ;;; reply chat (CallbackAnswer "Denied")
  else reply chat (CallbackAnswer "Invalid action").

(** The [callback_query] handler. *)
Definition onCallbackQuery (env : Env) (cfg : Config) (chat : option string)
    (data : option string) : M unit :=
  tryCatch
    (admin <- isAdmin chat ;;
     if negb admin then ret tt
     else
       match data with
       | None => ret tt
       | Some data =>
           if String.eqb data "" then ret tt
           else if prefix "change_policy:" data then changePolicy env chat data
           else
             (* colonIdx > 0 ? ... : ... *)
             let '(action, taskId) :=
               match Router.cutAt ":"%char data with
               | Some (a, t) =>
                   if String.eqb a "" then (data, EmptyString) else (a, t)
               | None => (data, EmptyString)
               end in
             task <- gets (fun w =>
               if String.eqb taskId "" then None
               else TasksDB.get taskId (tasksJson (disk w))) ;;
             match task with
             | None => reply chat (CallbackAnswer "Task not found")
             | Some task =>
                 match decisionOf action with
                 | Some d => decide env cfg chat task taskId d
                 | None => reply chat (CallbackAnswer "Unknown action")
                 end
             end
       end)
    (fun _ => reply chat (CallbackAnswer "Error processing action")).

(** The decimal digits, [\d]. *)
Definition isDigit (c : ascii) : bool :=
  ((48 <=? nat_of_ascii c) && (nat_of_ascii c <=? 57))%nat.

(** The longest run of digits at the start of a string, and what follows. *)
Fixpoint spanDigits (s : string) : string * string :=
  match s with
  | EmptyString => (EmptyString, EmptyString)
  | String c r =>
      if isDigit c
      then let '(digits, rest) := spanDigits r in (String c digits, rest)
      else (EmptyString, s)
  end.

(** [parseInt(digits, 10)] on a run of digits.  The integer is exact here;
    the number of the code is the nearest double, which is that integer for
    the runs of at most fifteen digits. *)
Fixpoint parseInt_go (acc : Z) (digits : string) : Z :=
  match digits with
  | EmptyString => acc
  | String c r => parseInt_go (acc * 10 + Z.of_nat (nat_of_ascii c - 48)) r
  end.

Definition parseInt (digits : string) : Z := parseInt_go 0 digits.

(** [str.match(/^(?:(\d+)h)?(?:(\d+)m)?$/)]: the two groups, when the whole
    string has that shape.  A run of digits is taken whole (a shorter run
    is followed by a digit), and the group of the hours is taken whenever
    it can be: leaving it out, the string would have to be empty or a run
    of digits and [m], and it starts with digits and [h]. *)
Definition matchDuration (str : string) : option (option string * option string) :=
  let '(d1, r1) := spanDigits str in
  let '(hours, rest) :=
    match d1, r1 with
    | String _ _, String c r =>
        if Ascii.eqb c "h"%char then (Some d1, r) else (None, str)
    | _, _ => (None, str)
    end in
  let '(d2, r2) := spanDigits rest in
  match d2, r2 with
  | EmptyString, EmptyString => Some (hours, None)
  | String _ _, String c EmptyString =>
      if Ascii.eqb c "m"%char then Some (hours, Some d2) else None
  | _, _ => None
  end.

(** [parseDuration].  The sum is exact here; that of the code is rounded
    above 2^53, which no duration of at most thirteen characters reaches. *)
Definition parseDuration (str : string) : option Z :=
  match matchDuration str with
  | None => None
  | Some (h, m) =>
      let hours := parseInt (Js.strOr h "0") in
      let minutes := parseInt (Js.strOr m "0") in
      if ((hours =? 0) && (minutes =? 0))%Z then None
      else Some (hours * 3600 + minutes * 60)%Z
  end.

(** [ctx.message.text.split(' ').slice(1)]. *)
Definition commandArgs (text : string) : list string :=
  tl (JsString.split " "%char text).

(** What a command answers with [ctx.reply]; the answers of [isAdmin] are
    in the outbox. *)
Inductive CommandReply : Type :=
| GrantUsage               (* Usage: /grant <pattern> <duration> ... *)
| InvalidDuration          (* Invalid duration format. Use: 30m, 1h, 2h30m, etc. *)
| GrantCreated (grant : GrantRow) (durationMinutes : Z)
| GrantsRevoked (count : nat)
| AllowUsage               (* Usage: /allow <pattern> ... *)
| RuleAllowed (rule : RuleRow)
| DenyUsage                (* Usage: /deny <pattern> ... *)
| RuleDenied (rule : RuleRow)
| UnruleUsage              (* Usage: /unrule <id> *)
| RuleRemoved (id : string)
| RuleNotFound (id : string).

(** [policyRulesDB.upsert(pattern, action)], with the rule it returns. *)
Definition upsertRuleReturning (env : Env) (pattern : string)
    (action : PolicyAction) : M RuleRow :=
  existing <- gets (fun w =>
    Js.find (PolicyRulesDB.hasPattern pattern) (readJsonFile (rulesJson (disk w)) [])) ;;
  now <- gets clock ;;
  match existing with
  | Some _ =>
      rule <- gets (fun w =>
        PolicyRulesDB.upserted EmptyString now pattern action (rulesJson (disk w))) ;;
      onRules (PolicyRulesDB.upsert EmptyString now pattern action) ;;;
      ret rule
  | None =>
      id <- freshId env ;;
      rule <- gets (fun w =>
        PolicyRulesDB.upserted id now pattern action (rulesJson (disk w))) ;;
      onRules (PolicyRulesDB.upsert id now pattern action) ;;;
      ret rule
  end.

(** The [/grant] command. *)
Definition onGrant (env : Env) (chat : option string) (text : string)
  : M (option CommandReply) :=
  admin <- isAdmin chat ;;
  if negb admin then ret None
  else
    match commandArgs text with
    | pattern :: durationStr :: _ =>
        match parseDuration durationStr with
        | None => ret (Some InvalidDuration)
        | Some durationSeconds =>
            if (durationSeconds =? 0)%Z then ret (Some InvalidDuration)
            else
              grant <- createGrantReturning env pattern durationSeconds ;;
              (* Math.ceil(durationSeconds / 60) *)
              ret (Some (GrantCreated grant (- ((- durationSeconds) / 60))%Z))
        end
    | _ => ret (Some GrantUsage)
    end.

(** The [/revoke] command. *)
Definition onRevoke (chat : option string) : M (option CommandReply) :=
  admin <- isAdmin chat ;;
  if negb admin then ret None
  else
    count <- gets (fun w => snd (GrantsDB.revokeAll (grantsJson (disk w)))) ;;
    onGrants (fun f => fst (GrantsDB.revokeAll f)) ;;;
    ret (Some (GrantsRevoked count)).

(** The [/allow] command. *)
Definition onAllow (env : Env) (chat : option string) (text : string)
  : M (option CommandReply) :=
  admin <- isAdmin chat ;;
  if negb admin then ret None
  else
    match commandArgs text with
    | [] => ret (Some AllowUsage)
    | pattern :: _ =>
        rule <- upsertRuleReturning env pattern allow ;;
        ret (Some (RuleAllowed rule))
    end.

(** The [/deny] command. *)
Definition onDeny (env : Env) (chat : option string) (text : string)
  : M (option CommandReply) :=
  admin <- isAdmin chat ;;
  if negb admin then ret None
  else
    match commandArgs text with
    | [] => ret (Some DenyUsage)
    | pattern :: _ =>
        rule <- upsertRuleReturning env pattern deny ;;
        ret (Some (RuleDenied rule))
    end.

(** The [/unrule] command. *)
Definition onUnrule (chat : option string) (text : string)
  : M (option CommandReply) :=
  admin <- isAdmin chat ;;
  if negb admin then ret None
  else
    match commandArgs text with
    | [] => ret (Some UnruleUsage)
    | id :: _ =>
        ok <- gets (fun w => PolicyRulesDB.removeFound id (rulesJson (disk w))) ;;
        onRules (PolicyRulesDB.remove id) ;;;
        ret (Some (if ok then RuleRemoved id else RuleNotFound id))
    end.

(** The names of the tools of a batch that ran under [allow], each once,
    in the order of their first notice: the [Set] of
    [flushExecutionNotices]. *)
Definition autoAllowed (batch : list Notice.t) : list string :=
  fold_left
    (fun names n =>
       match Notice.status n, Notice.policyAction n with
       | Notice.ok, allow =>
           if existsb (String.eqb (Notice.toolName n)) names then names
           else (names ++ [Notice.toolName n])%list
       | _, _ => names
       end)
    batch [].

(** The callback data of the two buttons offered for a tool. *)
Definition policyButtons (toolName : string) : string * string :=
  ("change_policy:require-approval:" ++ toolName, "change_policy:deny:" ++ toolName).

(** What a flush hands to [sendMessage]: the batch (its text is
    [formatExecutionBatch(batch)]) and the rows of buttons. *)
Record Digest : Type := mkDigest {
  digest_batch : list Notice.t;
  digest_buttons : list (string * string)
}.

(** [flushExecutionNotices]; a failure of [sendMessage] is caught and
    logged, so the state does not depend on it. *)
Definition flushExecutionNotices : M (option Digest) :=
  fun w =>
    let batch := firstn 25 (noticeQueue w) in
    let w := set_notices w (skipn 25 (noticeQueue w)) false in
    match batch with
    | [] => (w, Returned None)
    | _ =>
        if String.eqb (adminChatId w) "" then (w, Returned None)
        else
          let names := autoAllowed batch in
          let buttons :=
            if ((0 <? List.length names) && (List.length names <=? 3))%nat
            then map policyButtons names else [] in
          let w := match noticeQueue w with
                   | [] => w
                   | _ => set_notices w (noticeQueue w) true
                   end in
          (w, Returned (Some (mkDigest batch buttons)))
    end.

End TelegramBot.

(* ===================================================================== *)
(** * Approval gate (middleware/approval.ts) *)
(* ===================================================================== *)

Module ApprovalGate.

Definition requestApproval (env : Env) (toolName : string)
    (realArgs originalArgs : json) (policyAction : PolicyAction) : M string :=
  id <- freshId env ;;
  now <- gets clock ;;
  onTasks (fun f => fst (TasksDB.create id now toolName realArgs originalArgs policyAction f)) ;;;
  tryCatch
    (TelegramBot.sendApprovalRequest env id toolName originalArgs)
    (fun _ =>
       onTasks (TasksDB.setError id "Failed to send Telegram approval request" now)) ;;;
  ret id.

End ApprovalGate.

(* ===================================================================== *)
(** * Request pipeline (gateway/mcp-handler.ts) *)
(* ===================================================================== *)

Module MCPHandler.

Definition textReply (text : string) : json :=
  JObj [("content", JArr [JObj [("type", JStr "text"); ("text", JStr text)]])].

(** The object a parked call is answered with, before [JSON.stringify]. *)
Definition pendingPayload (taskId name : string) : json :=
  JObj [("status", JStr "pending-approval");
        ("taskId", JStr taskId);
        ("toolName", JStr name);
        ("message",
         JStr ("Approval requested via Telegram. Use portero/check_task with task_id="
               ++ Router.dquote ++ taskId ++ Router.dquote ++ " to check the result."))].

Definition deniedMessage (name : string) : string :=
  "Tool " ++ name ++ " is denied by policy".

(** [this.telegramBot?.enqueueExecutionNotice(...)]. *)
Definition notify (cfg : Config) (notice : Z -> Notice.t) : M unit :=
  if hasTelegramBot cfg then TelegramBot.enqueueExecutionNotice notice else ret tt.

(** [executeToolPipeline].  The reads of steps 1 to 3 cannot throw, so the
    initial ['unknown'] of [policyAction] is never seen by the handler. *)
Definition executeToolPipeline (env : Env) (cfg : Config) (name : string)
    (args : json) : M json :=
  (* STEP 1 *)
  let realArgs := Anonymizer.anonymizeRequest (replacements cfg) args in
  (* STEP 2 *)
  policy <- gets (fun w =>
    PolicyEngine.checkPolicyDetailed (policyEngine cfg) (rulesJson (disk w)) name) ;;
  let policyAction := PolicyEngine.action policy in
  (* STEP 3 *)
  hasGrant <- gets (fun w =>
    GrantsDB.hasActiveGrant (clock w) name (grantsJson (disk w))) ;;
  tryCatch
    (if PolicyAction_eqb policyAction deny then throw (deniedMessage name)
     else if PolicyAction_eqb policyAction require_approval && negb hasGrant then
       (* STEP 4 *)
       taskId <- ApprovalGate.requestApproval env name realArgs args policyAction ;;
       ret (textReply (stringify env (pendingPayload taskId name)))
     else
       (* STEP 5 *)
       result <- Router.callTool env name realArgs ;;
       (* STEP 6 *)
       let fakeResult := Anonymizer.deanonymizeResponse (replacements cfg) result in
       AuditDB.log name args (Some fakeResult) (Some policyAction) None None ;;;
       notify cfg (Notice.mkNotice Notice.ok name policyAction
                     (Some (PolicyEngine.source policy)) (PolicyEngine.pattern policy)
                     (PolicyEngine.ruleId policy) hasGrant false args
                     (Some fakeResult) None) ;;;
       ret fakeResult)
    (fun errorMessage =>
       AuditDB.log name args None (Some policyAction) None (Some errorMessage) ;;;
       notify cfg (Notice.mkNotice
                     (if PolicyAction_eqb policyAction deny
                      then Notice.blocked else Notice.failed)
                     name policyAction
                     (Some (PolicyEngine.source policy)) (PolicyEngine.pattern policy)
                     (PolicyEngine.ruleId policy) hasGrant false args
                     None (Some errorMessage)) ;;;
       throw errorMessage).

(** The envelope [handleRequest] answers with: the result, or the error
    [{ code: -32603, message }] made of what the handler threw. *)
Record JSONRPCResponse : Type := mkResponse {
  response_result : option json;
  response_error : option (Z * string)
}.

Definition respond (o : outcome json) : JSONRPCResponse :=
  match o with
  | Returned result => mkResponse (Some result) None
  | Thrown message => mkResponse None (Some ((-32603)%Z, message))
  end.

Definition statusName (s : TaskStatus) : string :=
  match s with
  | pending_approval => "pending-approval"
  | approved_queued => "approved-queued"
  | executing => "executing"
  | completed => "completed"
  | denied => "denied"
  | error => "error"
  end.

Definition optField (key : string) (v : option string) : list (string * json) :=
  match v with
  | Some s => [(key, JStr s)]
  | None => []
  end.

(** [if (task.error)]: a non-empty message. *)
Definition errorOf (task : Task) : option string :=
  match task_error task with
  | Some e => if String.eqb e "" then None else Some e
  | None => None
  end.

Definition statusMessage (task : Task) : option string :=
  match task_status task with
  | pending_approval =>
      Some "Waiting for admin approval via Telegram. Call portero/check_task again later."
  | approved_queued | executing =>
      Some "Task is being executed. Call portero/check_task again shortly."
  | denied => Some "Task was denied by admin."
  | error => Some ("Task failed: " ++ Js.optOr (task_error task) "undefined")
  | completed => None
  end.

(** The status object of [handleCheckTask], before [JSON.stringify]. *)
Definition statusInfo (env : Env) (task : Task) : json :=
  JObj ([("task_id", JStr (task_id task));
         ("status", JStr (statusName (task_status task)));
         ("toolName", JStr (task_toolName task));
         ("createdAt", JStr (toISOString env (task_createdAt task)))]
        ++ optField "approvedAt" (option_map (toISOString env) (task_approvedAt task))
        ++ optField "executedAt" (option_map (toISOString env) (task_executedAt task))
        ++ optField "error" (errorOf task)
        ++ optField "message" (statusMessage task)).

Definition notFoundPayload (task_id : json) : json :=
  JObj [("error", JStr "Task not found"); ("task_id", task_id)].

(** [const { task_id } = args || {}]. *)
Definition taskIdOf (args : option json) : option json :=
  match args with
  | Some (JObj fields) => Js.getField "task_id" fields
  | _ => None
  end.

(** [task.status === 'completed' && task.result]. *)
Definition hasResult (task : Task) : option json :=
  match task_status task, task_result task with
  | completed, Some r => if Js.truthy r then Some r else None
  | _, _ => None
  end.

Definition handleCheckTask (env : Env) (args : option json) : M json :=
  match taskIdOf args with
  | None =>
      throw ("portero/check_task requires a " ++ Router.dquote ++ "task_id"
             ++ Router.dquote ++ " parameter")
  | Some task_id =>
      if negb (Js.truthy task_id)
      then throw ("portero/check_task requires a " ++ Router.dquote ++ "task_id"
                  ++ Router.dquote ++ " parameter")
      else
        match task_id with
        | JStr id =>
            task <- gets (fun w => TasksDB.get id (tasksJson (disk w))) ;;
            match task with
            | None => ret (textReply (stringify env (notFoundPayload task_id)))
            | Some task =>
                now <- gets clock ;;
                onTasks (TasksDB.markChecked id now) ;;;
                match hasResult task with
                | Some result => ret result
                | None => ret (textReply (stringify env (statusInfo env task)))
                end
            end
        | _ =>
            (* no row has an id that is not a string *)
            ret (textReply (stringify env (notFoundPayload task_id)))
        end
  end.

(** The status a string names, if any. *)
Definition statusOfName (name : string) : option TaskStatus :=
  if String.eqb name "pending-approval" then Some pending_approval
  else if String.eqb name "approved-queued" then Some approved_queued
  else if String.eqb name "executing" then Some executing
  else if String.eqb name "completed" then Some completed
  else if String.eqb name "denied" then Some denied
  else if String.eqb name "error" then Some error
  else None.

(** One entry of the list of [handleListTasks], as [JSON.stringify] keeps
    it: a property that is [undefined] is left out. *)
Definition taskSummary (env : Env) (t : Task) : json :=
  JObj ([("task_id", JStr (task_id t));
         ("toolName", JStr (task_toolName t));
         ("status", JStr (statusName (task_status t)));
         ("createdAt", JStr (toISOString env (task_createdAt t)))]
        ++ optField "approvedAt" (option_map (toISOString env) (task_approvedAt t))
        ++ optField "executedAt" (option_map (toISOString env) (task_executedAt t))
        ++ optField "checkedAt" (option_map (toISOString env) (task_checkedAt t))
        ++ [("hasResult", JBool (TaskStatus_eqb (task_status t) completed))]
        ++ optField "error" (task_error t)).

(** [typeof limit === 'number' ? Math.min(limit, 100) : 20]. *)
Definition maxResultsOf (limit : option json) : Z :=
  match limit with
  | Some (JNum n) => Z.min n 100
  | _ => 20%Z
  end.

(** The tasks [handleListTasks] lists.  A [status] that is truthy goes to
    [listByStatus], whose filter [t.status === status] keeps nothing when
    [status] is not the name of a status. *)
Definition listedTasks (status limit : option json) (f : file (list Task))
  : list Task :=
  let maxResults := maxResultsOf limit in
  match status with
  | Some s =>
      if Js.truthy s then
        match s with
        | JStr name =>
            match statusOfName name with
            | Some st => TasksDB.listByStatus st maxResults f
            | None => []
            end
        | _ => []
        end
      else TasksDB.listAll maxResults f
  | None => TasksDB.listAll maxResults f
  end.

(** [const { status, limit } = args || {}]. *)
Definition argField (key : string) (args : option json) : option json :=
  match args with
  | Some (JObj fields) => Js.getField key fields
  | _ => None
  end.

Definition listPayload (env : Env) (tasks : list Task) : json :=
  JObj [("count", JNum (Z.of_nat (List.length tasks)));
        ("tasks", JArr (map (taskSummary env) tasks))].

Definition handleListTasks (env : Env) (args : option json) : M json :=
  tasks <- gets (fun w =>
    listedTasks (argField "status" args) (argField "limit" args)
      (tasksJson (disk w))) ;;
  ret (textReply (stringify env (listPayload env tasks))).

End MCPHandler.

(* ===================================================================== *)
(** * Bearer authentication (gateway/auth.ts) *)
(* ===================================================================== *)

Module Auth.

Inductive Response : Type :=
| Next                         (* [next()] *)
| Status401 (error : string).  (* [res.status(401).json({ error })] *)

(** [authHeader.match(/^Bearer (.+)$/)]: the group. *)
Definition bearerMatch (authHeader : string) : option string :=
  if prefix "Bearer " authHeader && RegExp.dotPlus (JsString.drop 7 authHeader)
  then Some (JsString.drop 7 authHeader)
  else None.

Definition bearerAuthMiddleware (expectedToken : string)
    (authorization : option string) : Response :=
  match authorization with
  | None => Status401 "Unauthorized: Missing Authorization header"
  | Some authHeader =>
      if String.eqb authHeader ""
      then Status401 "Unauthorized: Missing Authorization header"
      else
        match bearerMatch authHeader with
        | None => Status401 "Unauthorized: Invalid Authorization header format"
        | Some token =>
            if negb (String.eqb token expectedToken)
            then Status401 "Unauthorized: Invalid token"
            else Next
        end
  end.

End Auth.

(* ===================================================================== *)
(** * Configuration loader (config/loader.ts) and client manager
      (mcp/client-manager.ts) *)
(* ===================================================================== *)

Module ConfigLoader.

(** A match of [/\$\{([^}]+)\}/] at the start of [s]: the group and what
    follows the match.  The class cannot pass a closing brace, so the match
    ends at the first one, and the group is not empty. *)
Definition placeholderAt (s : string) : option (string * string) :=
  if prefix "${" s then
    match Router.cutAt "}"%char (JsString.drop 2 s) with
    | Some (String c varName, rest) => Some (String c varName, rest)
    | _ => None
    end
  else None.

(** [process.env[varName]], where [env] holds the variables that are set:
    the value of the variable; else, for the names of [Js.prototypeNames],
    the property that [process.env] inherits, which is not [undefined] and
    of which [replace] takes the text; else [undefined]. *)
Definition processEnv (env : string -> option string) (varName : string)
  : option string :=
  match env varName with
  | Some envValue => Some envValue
  | None => if Js.inherited varName then Some (Js.inheritedText varName) else None
  end.

(** [value.replace(/\$\{([^}]+)\}/g, replacer)]; [skip] counts the
    characters of a match that remain to be passed over. *)
Fixpoint substitute_go (env : string -> option string) (skip : nat)
    (s : string) : string :=
  match s with
  | EmptyString => EmptyString
  | String c r =>
      match skip with
      | S k => substitute_go env k r
      | O =>
          match placeholderAt s with
          | Some (varName, _) =>
              match processEnv env varName with
              | Some envValue => envValue
              | None => "${" ++ varName ++ "}"
              end ++ substitute_go env (String.length varName + 2) r
          | None => String c (substitute_go env 0 r)
          end
      end
  end.

Definition substituteEnvVars (env : string -> option string) (value : string)
  : string :=
  substitute_go env 0 value.

(** [result[key] = value] for the entries in turn.  The key [__proto__]
    names the accessor of [Object.prototype]: assigning to it adds no
    property to [result]. *)
Definition assignAll (entries : list (string * json)) : list (string * json) :=
  Js.fromEntries
    (filter (fun kv => negb (String.eqb (fst kv) "__proto__")) entries).

Fixpoint substituteEnvVarsInObject (env : string -> option string) (obj : json)
  : json :=
  match obj with
  | JStr s => JStr (substituteEnvVars env s)
  | JArr items => JArr (map (substituteEnvVarsInObject env) items)
  | JObj fields =>
      JObj (assignAll
              (map (fun kv => (fst kv, substituteEnvVarsInObject env (snd kv)))
                 fields))
  | other => other
  end.

(** [loadTelegramConfig().adminChatId]:
    [process.env.TELEGRAM_ADMIN_CHAT_ID || undefined]. *)
Definition adminChatIdOf (env : string -> option string) : option string :=
  match env "TELEGRAM_ADMIN_CHAT_ID" with
  | Some s => if String.eqb s "" then None else Some s
  | None => None
  end.

End ConfigLoader.

Module ClientManager.

(** [/\$\{[^}]+\}/.test(s)]. *)
Fixpoint hasPlaceholder (s : string) : bool :=
  match s with
  | EmptyString => false
  | String _ r =>
      match ConfigLoader.placeholderAt s with
      | Some _ => true
      | None => hasPlaceholder r
      end
  end.

Fixpoint hasUnresolvedEnvPlaceholders (obj : json) : bool :=
  match obj with
  | JStr s => hasPlaceholder s
  | JArr items => existsb hasUnresolvedEnvPlaceholders items
  | JObj fields =>
      existsb (fun kv => hasUnresolvedEnvPlaceholders (snd kv)) fields
  | _ => false
  end.

(** The configurations [connectAll] tries to connect. *)
Definition eligible (configs : list json) : list json :=
  filter (fun c => negb (hasUnresolvedEnvPlaceholders c)) configs.

End ClientManager.

(* ===================================================================== *)
(** * Start-up (index.ts) *)
(* ===================================================================== *)

Module Main.

(** [telegramConfig.adminChatId || adminState.adminChatId || '']. *)
Definition initialAdminChatId (configured : option string)
    (adminState : AdminState) : string :=
  Js.strOr configured (Js.strOr (admin_adminChatId adminState) EmptyString).

(** The state a process starts in on the data directory an earlier one
    left: [initStorage], then the bot is built with the admin chat read
    from the environment or from admin.json, and an empty queue. *)
Definition start (env : string -> option string) (w : World) : World :=
  let d := initStorage (disk w) in
  mkWorld d (clock w) (uuids w)
    (initialAdminChatId (ConfigLoader.adminChatIdOf env)
       (AdminStore.get (adminJson d)))
    [] false (dispatched w) (outbox w).

End Main.

(* ===================================================================== *)
(** * Vocabulary of the statements *)
(* ===================================================================== *)

(** ** First hits *)

(** [x] is the first element of [l] that satisfies [p]. *)
Definition firstSuch {A} (p : A -> bool) (l : list A) (x : A) : Prop :=
  exists before after,
    l = (before ++ x :: after)%list /\ p x = true /\
    Forall (fun y => p y = false) before.

(** No element of [l] satisfies [p]. *)
Definition noneSuch {A} (p : A -> bool) (l : list A) : Prop :=
  Forall (fun y => p y = false) l.

(** The dynamic rules the resolver sees: the document of rules.json, or
    nothing when the engine was built without the rules store. *)
Definition dynamicRules (engine : PolicyEngine.t) (rules : file (list RuleRow))
  : list RuleRow :=
  if PolicyEngine.hasPolicyRulesDB engine then readJsonFile rules [] else [].

(** ** Files, tasks, replies *)

(** A file that is missing, or whose text [JSON.parse] rejects. *)
Definition unreadable {T} (f : file T) : Prop :=
  target f = None \/ target f = Some Unparsable.

(** The edges of the state machine of the specification. *)
Definition permitted (from to : TaskStatus) : bool :=
  match from, to with
  | pending_approval, approved_queued
  | pending_approval, denied
  | pending_approval, error
  | approved_queued, executing
  | executing, completed
  | executing, error => true
  | _, _ => false
  end.

(** [value[key]] on a structured value. *)
Definition fieldOf (key : string) (v : json) : option json :=
  match v with
  | JObj fields => Js.getField key fields
  | _ => None
  end.

(** The approval request cannot be delivered: no admin chat is paired, or
    the transport fails. *)
Definition sendFails (env : Env) (w : World) (taskId name : string) (args : json)
  : Prop :=
  adminChatId w = EmptyString \/
  exists e, sendMessage env (adminChatId w)
              (formatApprovalMessage env taskId name args) = Thrown e.

Definition SEND_FAILED : string := "Failed to send Telegram approval request".

(** The arguments of a [portero/check_task] call. *)
Definition checkArgs (id : string) : option json :=
  Some (JObj [("task_id", JStr id)]).

(** ** Strings as sequences of chunks

    The chained replacements of [matchesPattern] are followed on a
    decomposition of the string into chunks: single characters, and longer
    chunks that share no character with the needle. *)

Fixpoint allChars (P : ascii -> bool) (s : string) : bool :=
  match s with
  | EmptyString => true
  | String c r => P c && allChars P r
  end.

Fixpoint flat (cs : list string) : string :=
  match cs with
  | [] => EmptyString
  | k :: rest => k ++ flat rest
  end.

(** No character of [k] is one of the needle's. *)
Definition solidFree (solid : ascii -> bool) (k : string) : Prop :=
  allChars (fun c => negb (solid c)) k = true.

Definition wf_chunk (solid : ascii -> bool) (k : string) : Prop :=
  match k with
  | EmptyString => False
  | String _ EmptyString => True
  | _ => solidFree solid k
  end.

(** The kinds of chunks met along the four replacements; the flags say
    which of the transient kinds may occur. *)
Inductive chunk (star ph notSlash dotStar : bool) : string -> Prop :=
| ck_escape c :
    Pattern.isEscaped c = true ->
    chunk star ph notSlash dotStar (String "\"%char (String c EmptyString))
| ck_plain c :
    Pattern.isEscaped c = false -> c <> "*"%char ->
    chunk star ph notSlash dotStar (String c EmptyString)
| ck_star : star = true -> chunk star ph notSlash dotStar "*"
| ck_ph : ph = true -> chunk star ph notSlash dotStar Pattern.DOUBLE_WILDCARD
| ck_notSlash : notSlash = true -> chunk star ph notSlash dotStar "[^/]*"
| ck_dotStar : dotStar = true -> chunk star ph notSlash dotStar ".*".

(** The chunks of an escaped pattern. *)
Fixpoint escapedChunks (p : string) : list string :=
  match p with
  | EmptyString => []
  | String c r =>
      (if Pattern.isEscaped c then String "\"%char (String c EmptyString)
       else String c EmptyString) :: escapedChunks r
  end.

(** Replacement of a one-character needle, character by character. *)
Fixpoint charSubst (a : ascii) (repl s : string) : string :=
  match s with
  | EmptyString => EmptyString
  | String c r =>
      if Ascii.eqb a c then repl ++ charSubst a repl r
      else String c (charSubst a repl r)
  end.

Definition inPlaceholder (c : ascii) : bool :=
  existsb (Ascii.eqb c) (list_ascii_of_string Pattern.DOUBLE_WILDCARD).

Definition singles (s : string) : list string :=
  map (fun c => String c EmptyString) (list_ascii_of_string s).

(** Tokens that come in groups: an atom, or an atom and its star. *)
Inductive groups : list RegExp.token -> Prop :=
| groups_nil : groups []
| groups_one a ts : groups ts -> groups (RegExp.TAtom a :: ts)
| groups_many a ts : groups ts -> groups (RegExp.TAtom a :: RegExp.TStar :: ts).

(** ** The pattern language, as the specification words it *)

Inductive glob : Type :=
| GLit (c : ascii)     (* a character that stands for itself *)
| GStar                (* [*] *)
| GDouble.             (* [**] *)

(** A pattern is read from the left; two stars in a row are a [**]. *)
Fixpoint globOf (p : string) : list glob :=
  match p with
  | EmptyString => []
  | String c r =>
      if Ascii.eqb c "*"%char then
        match r with
        | String d r' =>
            if Ascii.eqb d "*"%char then GDouble :: globOf r'
            else GStar :: globOf r
        | EmptyString => [GStar]
        end
      else GLit c :: globOf r
  end.

Definition notSeparator (c : ascii) : bool := negb (Ascii.eqb c "/"%char).

Definition notLineTerminator (c : ascii) : bool :=
  negb (RegExp.isLineTerminator c).

(** [*] stands for a run without the separator, [**] for any run (of
    characters that [.] accepts), anything else for itself; the whole name
    is consumed. *)
Inductive globMatches : list glob -> string -> Prop :=
| gm_nil : globMatches [] EmptyString
| gm_lit c ts s :
    globMatches ts s -> globMatches (GLit c :: ts) (String c s)
| gm_star ts r s :
    allChars notSeparator r = true -> globMatches ts s ->
    globMatches (GStar :: ts) (r ++ s)
| gm_double ts r s :
    allChars notLineTerminator r = true -> globMatches ts s ->
    globMatches (GDouble :: ts) (r ++ s).

Definition litText (c : ascii) : string :=
  if Pattern.isEscaped c then String "\"%char (String c EmptyString)
  else String c EmptyString.

(** The text of a pattern after each of the four replacements. *)
Definition text1 (g : glob) : string :=
  match g with GLit c => litText c | GStar => "*" | GDouble => "**" end.

Definition text2 (g : glob) : string :=
  match g with
  | GLit c => litText c | GStar => "*" | GDouble => Pattern.DOUBLE_WILDCARD
  end.

Definition text3 (g : glob) : string :=
  match g with
  | GLit c => litText c | GStar => "[^/]*" | GDouble => Pattern.DOUBLE_WILDCARD
  end.

Definition text4 (g : glob) : string :=
  match g with GLit c => litText c | GStar => "[^/]*" | GDouble => ".*" end.

Definition tokensOf (g : glob) : list RegExp.token :=
  match g with
  | GLit c => [RegExp.TAtom (RegExp.CsLit c)]
  | GStar => [RegExp.TAtom RegExp.CsNotSlash; RegExp.TStar]
  | GDouble => [RegExp.TAtom RegExp.CsDot; RegExp.TStar]
  end.

Definition itemOf (g : glob) : RegExp.item :=
  match g with
  | GLit c => RegExp.One (RegExp.CsLit c)
  | GStar => RegExp.Many RegExp.CsNotSlash
  | GDouble => RegExp.Many RegExp.CsDot
  end.

(** What [globOf] yields: no literal star, and no [*] right before a star. *)
Fixpoint wfGlob (ts : list glob) : Prop :=
  match ts with
  | [] => True
  | GLit c :: r => c <> "*"%char /\ wfGlob r
  | GStar :: r =>
      match r with
      | GStar :: _ | GDouble :: _ => False
      | _ => True
      end /\ wfGlob r
  | GDouble :: r => wfGlob r
  end.

(** The literal text [__D], with which the marker of [**] begins, does not
    occur. *)
Fixpoint markerFree (ts : list glob) : Prop :=
  match ts with
  | [] => True
  | g :: r =>
      match g, r with
      | GLit a, GLit b :: GLit c :: _ =>
          ~ (a = "_"%char /\ b = "_"%char /\ c = "D"%char)
      | _, _ => True
      end /\ markerFree r
  end.

(** ** The tasks store and its listings *)

(** The five mutators of the tasks store. *)
Inductive Mutation : Type :=
| SetStatus (status : TaskStatus)
| SetResult (result : json)
| SetError (message : string)
| SetTelegramMessageId (messageId : Z)
| MarkChecked.

Definition applyMutation (m : Mutation) (id : string) (now : Z)
    (f : file (list Task)) : file (list Task) :=
  match m with
  | SetStatus status => TasksDB.updateStatus id status now f
  | SetResult result => TasksDB.setResult id result now f
  | SetError message => TasksDB.setError id message now f
  | SetTelegramMessageId messageId => TasksDB.setTelegramMessageId id messageId f
  | MarkChecked => TasksDB.markChecked id now f
  end.

(** The tasks a [portero/list_tasks] call asks for: all of them when
    [status] is missing or falsy, else those with [t.status === status]. *)
Definition wanted (status : option json) (t : Task) : bool :=
  match status with
  | Some s =>
      if Js.truthy s then
        match s with
        | JStr name =>
            String.eqb
              match task_status t with
              | pending_approval => "pending-approval"
              | approved_queued => "approved-queued"
              | executing => "executing"
              | completed => "completed"
              | denied => "denied"
              | error => "error"
              end
              name
        | _ => false
        end
      else true
  | None => true
  end.

(** ** Strings inside structured values *)

(** [a] and [b] have no character in common. *)
Definition shareNoChar (a b : string) : bool :=
  allChars (fun c => negb (JsString.includes (String c EmptyString) b)) a.

(** Every string of a structured value, the keys of its objects included,
    satisfies [P]. *)
Fixpoint everyString (P : string -> bool) (v : json) : bool :=
  match v with
  | JStr s => P s
  | JArr items => forallb (everyString P) items
  | JObj fields =>
      forallb (fun kv => P (fst kv) && everyString P (snd kv)) fields
  | _ => true
  end.

(** ** Placeholders of the configuration files *)

(** The names that the global expression [/\$\{([^}]+)\}/g] finds in [s],
    from left to right. *)
Fixpoint placeholders_go (skip : nat) (s : string) : list string :=
  match s with
  | EmptyString => []
  | String _ r =>
      match skip with
      | S k => placeholders_go k r
      | O =>
          match ConfigLoader.placeholderAt s with
          | Some (varName, _) =>
              varName :: placeholders_go (String.length varName + 2) r
          | None => placeholders_go 0 r
          end
      end
  end.

Definition placeholders (s : string) : list string := placeholders_go 0 s.

(** The strings that are values of a structured value: elements of its
    arrays and values of its objects, at any depth (keys are not). *)
Fixpoint stringValues (v : json) : list string :=
  match v with
  | JStr s => [s]
  | JArr items => flat_map stringValues items
  | JObj fields => flat_map (fun kv => stringValues (snd kv)) fields
  | _ => []
  end.

Fixpoint noDupStrings (l : list string) : bool :=
  match l with
  | [] => true
  | x :: rest => negb (existsb (String.eqb x) rest) && noDupStrings rest
  end.

(** No object of the value has two properties of the same name: what
    [JSON.parse] yields. *)
Fixpoint uniqueKeys (v : json) : bool :=
  match v with
  | JArr items => forallb uniqueKeys items
  | JObj fields =>
      noDupStrings (map fst fields) &&
      forallb (fun kv => uniqueKeys (snd kv)) fields
  | _ => true
  end.

(** No key of [v] is ["__proto__"]. *)
Fixpoint plainKeys (v : json) : bool :=
  match v with
  | JArr items => forallb plainKeys items
  | JObj fields =>
      forallb (fun kv => negb (String.eqb (fst kv) "__proto__")) fields &&
      forallb (fun kv => plainKeys (snd kv)) fields
  | _ => true
  end.

(** ** The commands of the approval channel that change the stores *)

Inductive AdminCommand : Type :=
| CmdGrant (text : string)
| CmdRevoke
| CmdAllow (text : string)
| CmdDeny (text : string)
| CmdUnrule (text : string)
| CmdCallback (data : option string).

Definition runCommand (env : Env) (cfg : Config) (chat : option string)
    (cmd : AdminCommand) : M unit :=
  match cmd with
  | CmdGrant text => TelegramBot.onGrant env chat text ;;; ret tt
  | CmdRevoke => TelegramBot.onRevoke chat ;;; ret tt
  | CmdAllow text => TelegramBot.onAllow env chat text ;;; ret tt
  | CmdDeny text => TelegramBot.onDeny env chat text ;;; ret tt
  | CmdUnrule text => TelegramBot.onUnrule chat text ;;; ret tt
  | CmdCallback data => TelegramBot.onCallbackQuery env cfg chat data
  end.

(** The invariant of the queue of notices: while a notice waits, an admin
    chat is paired and a flush is scheduled. *)
Definition queueServed (w : World) : Prop :=
  noticeQueue w <> [] ->
  noticeFlushTimer w = true /\ adminChatId w <> EmptyString.

(* ===================================================================== *)
(** * Sample data *)
(* ===================================================================== *)

(** A small outside world: one backend, [filesystem], that echoes its
    arguments; a chat transport that delivers; a compact printer in the
    place of [JSON.stringify]. *)
Fixpoint show (v : json) : string :=
  match v with
  | JNull => "null"
  | JBool true => "true"
  | JBool false => "false"
  | JNum _ => "0"
  | JStr s => Router.dquote ++ s ++ Router.dquote
  | JArr items => "[" ++ String.concat "," (map show items) ++ "]"
  | JObj fields =>
      "{" ++ String.concat ","
               (map (fun kv => Router.dquote ++ fst kv ++ Router.dquote ++ ":"
                               ++ show (snd kv)) fields) ++ "}"
  end.

Definition sampleEnv : Env :=
  mkEnv (fun n => String (ascii_of_nat (65 + n)) "-uuid")
        (fun mcpName =>
           if String.eqb mcpName "filesystem"
           then Some (fun _ args => Returned (JObj [("echo", args)]))
           else None)
        (fun _ _ => Returned 1%Z)
        (fun taskId toolName _ => "Approval Required " ++ toolName ++ " " ++ taskId)
        show
        (fun _ => "1970-01-01T00:00:00.000Z").

Definition emptyDisk : Disk := mkDisk absent absent absent absent absent [].

(** A gateway with nothing on disk, paired with [admin] ([""]: unpaired). *)
Definition pairedWorld (admin : string) : World :=
  mkWorld emptyDisk 0 0 admin [] false [] [].

(** A gateway whose tasks file holds [tasks]. *)
Definition worldWith (tasks : list Task) : World :=
  mkWorld
    (mkDisk absent (mkFile (Some (Parsed tasks)) None) absent absent absent [])
    50 0 "111" [] false [] [].

(** A gateway with one grant on [filesystem/*], active until 600000. *)
Definition grantedWorld : World :=
  mkWorld
    (mkDisk absent absent
       (mkFile (Some (Parsed [mkGrant "g1" "filesystem/*" (Some 0%Z) (Some 600000%Z)]))
          None)
       absent absent [])
    1000 0 "111" [] false [] [].

(** A file whose text does not parse. *)
Definition garbage {T} : file T := mkFile (Some Unparsable) None.

Definition johnDoe : Anonymizer.Replacement :=
  Anonymizer.mkReplacement "John Doe" "Jane Real" true None None.

(** The one-way rule of scenario S5, and the same rule with an empty
    replacement. *)
Definition oneWayStars : Anonymizer.Replacement :=
  Anonymizer.mkReplacement "FAKE_KEY" "sk_secret" false None (Some "***").

Definition oneWayEmpty : Anonymizer.Replacement :=
  Anonymizer.mkReplacement "FAKE_KEY" "sk_secret" false None (Some "").

Definition secretConfig : Config :=
  mkConfig [] (PolicyEngine.mkEngine [] allow true) "s3cret" true.

Definition denyConfig : Config :=
  mkConfig [] (PolicyEngine.mkEngine [("filesystem/delete_file", deny)] allow true)
    "s3cret" true.

(** Everything is denied: by the static pattern, and by default. *)
Definition lockedConfig : Config :=
  mkConfig [] (PolicyEngine.mkEngine [("**", deny)] deny true) "s3cret" true.

Definition approvalConfig : Config :=
  mkConfig [] (PolicyEngine.mkEngine [("github/*", require_approval)] allow true)
    "s3cret" true.

Definition guardedConfig : Config :=
  mkConfig [johnDoe]
    (PolicyEngine.mkEngine [("filesystem/write_file", require_approval)] allow true)
    "s3cret" true.

Definition deniedTask : Task :=
  mkTask "t1" "filesystem/delete_file" JNull JNull denied None None
    require_approval None 0 None None None.

Definition completedTask : Task :=
  mkTask "t7" "github/list_issues" JNull JNull completed
    (Some (JObj [("content", JArr [])])) None
    require_approval None 0 (Some 1%Z) (Some 2%Z) None.

(** A completed task whose stored result is [null]. *)
Definition completedNull : Task :=
  mkTask "t9" "github/list_issues" JNull JNull completed (Some JNull) None
    require_approval None 0 (Some 1%Z) (Some 2%Z) None.

(** Backends that answer a resource read with the URI asked for. *)
Definition sampleReaders (mcpName : string) : option (string -> outcome json) :=
  Some (fun uri => Returned (JStr uri)).

(** An environment in which [HOME] alone is set. *)
Definition homeOnly (name : string) : option string :=
  if String.eqb name "HOME" then Some "/root" else None.

(** A notice of a call that ran under [allow]. *)
Definition ranAllowed (at_ : Z) : Notice.t :=
  Notice.mkNotice Notice.ok "fs/read" allow None None None false false JNull
    None None at_.

(** A task waiting for approval, with its arguments as rewritten by
    [johnDoe]. *)
Definition pendingWrite : Task :=
  mkTask "t5" "filesystem/write_file" (JStr "Jane Real") (JStr "John Doe")
    pending_approval None None require_approval (Some 1%Z) 0 None None None.

(* ===================================================================== *)
(** * Proof automation *)
(* ===================================================================== *)

(** Running the monad: its operations are unfolded and the projections of
    updated records are computed, nothing else. *)
Ltac run :=
  repeat
    (progress
       (cbv beta iota zeta delta
          [bind ret throw tryCatch gets modify liftOutcome MCPHandler.notify
           TelegramBot.enqueueExecutionNotice AuditDB.log onTasks freshId
           PolicyAction_eqb andb negb];
        cbn [disk clock uuids adminChatId noticeQueue noticeFlushTimer
             dispatched outbox set_disk set_uuids set_adminChatId set_notices
             set_dispatched set_outbox approvalsJson tasksJson grantsJson rulesJson
             adminJson auditNdjson set_tasksJson set_grantsJson set_rulesJson
             set_adminJson set_auditNdjson fst snd])).

(* ===================================================================== *)
(** * Facts about the string primitives *)
(* ===================================================================== *)

Section ReplaceAll.

Import JsString.

Lemma replaceAll_go_drop needle repl s :
  forall skip,
    replaceAll_go needle repl skip s = replaceAll needle repl (drop skip s).
Proof.
  induction s as [|c r IH]; intros [|k]; simpl; try reflexivity.
  apply IH.
Qed.

Lemma replaceAll_hit needle repl c r :
  needle <> EmptyString ->
  prefix needle (String c r) = true ->
  replaceAll needle repl (String c r) =
  repl ++ replaceAll needle repl (drop (String.length needle) (String c r)).
Proof.
  intros Hne Hp. unfold replaceAll at 1. cbn [replaceAll_go]. rewrite Hp.
  rewrite replaceAll_go_drop. destruct needle as [|a n]; [congruence|].
  simpl. rewrite Nat.sub_0_r. reflexivity.
Qed.

Lemma replaceAll_miss needle repl c r :
  prefix needle (String c r) = false ->
  replaceAll needle repl (String c r) = String c (replaceAll needle repl r).
Proof.
  intros Hp. unfold replaceAll. cbn [replaceAll_go]. rewrite Hp. reflexivity.
Qed.

End ReplaceAll.

Lemma append_assoc (a b c : string) : (a ++ b) ++ c = a ++ (b ++ c).
Proof. induction a as [|x a IH]; simpl; [reflexivity | now rewrite IH]. Qed.

Lemma append_empty_r (a : string) : a ++ EmptyString = a.
Proof. induction a as [|x a IH]; simpl; [reflexivity | now rewrite IH]. Qed.

Lemma flat_app (xs ys : list string) : flat (xs ++ ys) = flat xs ++ flat ys.
Proof.
  induction xs as [|k xs IH]; simpl; [reflexivity|].
  now rewrite IH, append_assoc.
Qed.

Section Chunks.

Import JsString.

Variable solid : ascii -> bool.
Variables needle repl : string.
Hypothesis needle_nonempty : needle <> EmptyString.
Hypothesis needle_solid : allChars solid needle = true.

Lemma replaceAll_skip_solidFree k t :
  solidFree solid k ->
  replaceAll needle repl (k ++ t) = k ++ replaceAll needle repl t.
Proof.
  unfold solidFree. induction k as [|c k IH]; simpl; intros H; [reflexivity|].
  apply andb_true_iff in H as [Hc Hk].
  rewrite replaceAll_miss; [rewrite IH by assumption; reflexivity|].
  destruct needle as [|a n]; [congruence|]. simpl in needle_solid |- *.
  apply andb_true_iff in needle_solid as [Ha _].
  destruct (ascii_dec a c) as [->|]; [|reflexivity].
  rewrite Ha in Hc. discriminate.
Qed.

Lemma drop_needle_chunks :
  forall n, allChars solid n = true ->
  forall cs, Forall (wf_chunk solid) cs -> prefix n (flat cs) = true ->
  exists cs2,
    drop (String.length n) (flat cs) = flat cs2 /\
    Forall (wf_chunk solid) cs2 /\
    (List.length cs2 + String.length n = List.length cs)%nat /\
    (forall Q : string -> Prop, Forall Q cs -> Forall Q cs2).
Proof.
  induction n as [|a n IH]; intros Hn cs Hwf Hp.
  - exists cs. simpl. repeat split; auto.
  - simpl in Hn. apply andb_true_iff in Hn as [Ha Hn].
    destruct cs as [|k rest]; [discriminate Hp|].
    inversion Hwf as [|? ? Hk Hrest]; subst.
    destruct k as [|c k']; [contradiction|].
    simpl in Hp. destruct (ascii_dec a c) as [->|]; [|discriminate].
    destruct k' as [|c' k''].
    + simpl in Hp. destruct (IH Hn rest Hrest Hp) as (cs2 & E & W & L & HQ).
      exists cs2. simpl. repeat split; auto.
      * lia.
      * intros Q HQs. inversion HQs; subst. auto.
    + simpl in Hk. unfold solidFree in Hk. simpl in Hk. rewrite Ha in Hk.
      discriminate.
Qed.

Lemma replaceAll_chunks (Q : string -> Prop) :
  Q repl ->
  forall m cs, (List.length cs <= m)%nat ->
  Forall (wf_chunk solid) cs -> Forall Q cs ->
  exists cs', replaceAll needle repl (flat cs) = flat cs' /\ Forall Q cs'.
Proof.
  intros Hrepl. induction m as [|m IH]; intros cs Hlen Hwf HQ.
  - destruct cs; [|simpl in Hlen; lia]. exists []. split; [reflexivity|constructor].
  - destruct cs as [|k rest].
    { exists []. split; [reflexivity|constructor]. }
    inversion Hwf as [|? ? Hk Hrest]; subst.
    inversion HQ as [|? ? HQk HQrest]; subst.
    simpl in Hlen.
    destruct k as [|c k']; [contradiction|].
    destruct k' as [|c' k''].
    + (* a single character: the needle may start here *)
      simpl flat.
      destruct (prefix needle (String c (flat rest))) eqn:Hp.
      * destruct (drop_needle_chunks needle needle_solid
                    (String c EmptyString :: rest) Hwf Hp)
          as (cs2 & E & W & L & HQ2).
        simpl flat in E.
        rewrite replaceAll_hit, E by assumption.
        destruct (IH cs2) as (cs' & E' & HQ'); auto.
        { simpl in L. destruct needle; [congruence|]. simpl in L. lia. }
        exists (repl :: cs'). simpl. rewrite E'. split; [reflexivity|].
        constructor; assumption.
      * rewrite replaceAll_miss by assumption.
        destruct (IH rest) as (cs' & E' & HQ'); auto; [lia|].
        exists (String c EmptyString :: cs'). simpl. rewrite E'.
        split; [reflexivity|]. constructor; assumption.
    + (* a longer chunk: the needle cannot start inside it *)
      simpl in Hk. simpl flat.
      change (String c (String c' (k'' ++ flat rest)))
        with (String c (String c' k'') ++ flat rest).
      rewrite replaceAll_skip_solidFree by assumption.
      destruct (IH rest) as (cs' & E' & HQ'); auto; [lia|].
      exists (String c (String c' k'') :: cs'). simpl. rewrite E'.
      split; [reflexivity|]. constructor; assumption.
Qed.

End Chunks.

(* ===================================================================== *)
(** * The regular expression of a pattern always compiles *)
(* ===================================================================== *)

Lemma existsb_eqb_In (c : ascii) (l : list ascii) :
  existsb (Ascii.eqb c) l = true <-> In c l.
Proof.
  rewrite existsb_exists. split.
  - intros (x & Hin & E). apply Ascii.eqb_eq in E. now subst.
  - intros H. exists c. split; [assumption | apply Ascii.eqb_refl].
Qed.

Lemma existsb_eqb_notIn (c : ascii) (l : list ascii) :
  existsb (Ascii.eqb c) l = false <-> ~ In c l.
Proof.
  rewrite <- existsb_eqb_In. destruct (existsb _ l); split; congruence.
Qed.

Section PatternChunks.

Import JsString Pattern.

Lemma escapeClass_flat p :
  escapeClass isEscaped p = flat (escapedChunks p).
Proof.
  induction p as [|c r IH]; simpl; [reflexivity|].
  rewrite IH. destruct (isEscaped c); reflexivity.
Qed.

Lemma escapedChunks_kind p :
  Forall (chunk true false false false) (escapedChunks p).
Proof.
  induction p as [|c r IH]; simpl; constructor; [|assumption].
  destruct (isEscaped c) eqn:E.
  - now apply ck_escape.
  - destruct (ascii_dec c "*"%char) as [->|Hne].
    + now apply ck_star.
    + now apply ck_plain.
Qed.

Lemma escaped_not_star c : isEscaped c = true -> c <> "*"%char.
Proof. intros H ->. discriminate H. Qed.

(** Step 2: [**] becomes the placeholder. *)
Lemma step2_chunks cs :
  Forall (chunk true false false false) cs ->
  exists cs', replaceAll "**" DOUBLE_WILDCARD (flat cs) = flat cs' /\
              Forall (chunk true true false false) cs'.
Proof.
  intros H.
  apply (replaceAll_chunks (fun c => Ascii.eqb c "*"%char) "**" DOUBLE_WILDCARD)
    with (m := List.length cs); try easy.
  - now apply ck_ph.
  - eapply Forall_impl; [|exact H]. intros k Hk.
    destruct Hk as [c Hc|c Hc Hn|_| | |]; try discriminate; simpl; auto.
    unfold solidFree. simpl.
    apply escaped_not_star in Hc. apply Ascii.eqb_neq in Hc. now rewrite Hc.
  - eapply Forall_impl; [|exact H]. intros k Hk.
    destruct Hk; try discriminate;
      [now apply ck_escape | now apply ck_plain | now apply ck_star].
Qed.

Lemma replaceAll_char a repl s :
  replaceAll (String a EmptyString) repl s = charSubst a repl s.
Proof.
  induction s as [|c r IH]; [reflexivity|]. simpl charSubst.
  destruct (Ascii.eqb a c) eqn:E.
  - apply Ascii.eqb_eq in E. subst c.
    rewrite replaceAll_hit; [simpl; now rewrite IH|discriminate|].
    simpl. destruct (ascii_dec a a); [|congruence]. now destruct r.
  - rewrite replaceAll_miss; [now rewrite IH|].
    simpl. destruct (ascii_dec a c) as [->|]; [|reflexivity].
    now rewrite Ascii.eqb_refl in E.
Qed.

Lemma charSubst_app a repl s t :
  charSubst a repl (s ++ t) = charSubst a repl s ++ charSubst a repl t.
Proof.
  induction s as [|c r IH]; simpl; [reflexivity|].
  rewrite IH. destruct (Ascii.eqb a c); [|reflexivity].
  now rewrite append_assoc.
Qed.

Lemma charSubst_free a repl k :
  allChars (fun c => negb (Ascii.eqb a c)) k = true -> charSubst a repl k = k.
Proof.
  induction k as [|c r IH]; cbn [charSubst allChars]; intros H; [reflexivity|].
  apply andb_true_iff in H as [Hc Hr].
  apply negb_true_iff in Hc. rewrite Hc, IH by assumption. reflexivity.
Qed.

Lemma step3_chunks cs :
  Forall (chunk true true false false) cs ->
  exists cs', replaceAll "*" "[^/]*" (flat cs) = flat cs' /\
              Forall (chunk false true true false) cs'.
Proof.
  rewrite replaceAll_char.
  induction cs as [|k rest IH]; intros H.
  - exists []. split; [reflexivity|constructor].
  - inversion H as [|? ? Hk Hrest]; subst.
    destruct (IH Hrest) as (cs' & E & HQ).
    cbn [flat]. rewrite charSubst_app, E.
    destruct Hk as [c Hc|c Hc Hn|_|_| |]; try discriminate.
    + exists (String "\"%char (String c EmptyString) :: cs').
      pose proof (escaped_not_star _ Hc) as Hn.
      rewrite charSubst_free.
      * split; [reflexivity|]. constructor; [|assumption]. now apply ck_escape.
      * cbn [allChars]. apply Ascii.eqb_neq in Hn.
        rewrite Ascii.eqb_sym in Hn. rewrite Hn. reflexivity.
    + exists (String c EmptyString :: cs').
      rewrite charSubst_free.
      * split; [reflexivity|]. constructor; [|assumption]. now apply ck_plain.
      * cbn [allChars]. apply Ascii.eqb_neq in Hn.
        rewrite Ascii.eqb_sym in Hn. rewrite Hn. reflexivity.
    + exists ("[^/]*" :: cs'). split; [reflexivity|].
      constructor; [|assumption]. now apply ck_notSlash.
    + exists (DOUBLE_WILDCARD :: cs'). split; [reflexivity|].
      constructor; [|assumption]. now apply ck_ph.
Qed.

End PatternChunks.

Section PatternCompiles.

Import JsString Pattern RegExp.

Lemma escaped_not_in_placeholder c :
  isEscaped c = true -> inPlaceholder c = false.
Proof.
  intros H. apply existsb_eqb_In in H. simpl in H.
  repeat (destruct H as [<-|H]; [reflexivity|]). contradiction.
Qed.

Lemma escaped_is_syntax c : isEscaped c = true -> isSyntaxChar c = true.
Proof.
  intros H. apply existsb_eqb_In in H. simpl in H.
  repeat (destruct H as [<-|H]; [reflexivity|]). contradiction.
Qed.

(** The placeholder is cut into its characters, which are plain. *)
Lemma rechunk_placeholder cs :
  Forall (chunk false true true false) cs ->
  exists cs', flat cs = flat cs' /\ Forall (chunk false false true false) cs'.
Proof.
  induction cs as [|k rest IH]; intros H.
  - exists []. split; [reflexivity|constructor].
  - inversion H as [|? ? Hk Hrest]; subst.
    destruct (IH Hrest) as (cs' & E & HQ).
    destruct Hk as [c Hc|c Hc Hn| |_|_|]; try discriminate.
    + exists (String "\"%char (String c EmptyString) :: cs'). simpl. rewrite E.
      split; [reflexivity|]. constructor; [now apply ck_escape|assumption].
    + exists (String c EmptyString :: cs'). simpl. rewrite E.
      split; [reflexivity|]. constructor; [now apply ck_plain|assumption].
    + exists (singles DOUBLE_WILDCARD ++ cs')%list. split.
      * rewrite flat_app. cbn [flat]. rewrite E. reflexivity.
      * apply Forall_app. split; [|assumption].
        unfold singles. simpl.
        repeat (constructor; [apply ck_plain; [reflexivity | discriminate] |]).
        constructor.
    + exists ("[^/]*" :: cs'). simpl. rewrite E.
      split; [reflexivity|]. constructor; [now apply ck_notSlash|assumption].
Qed.

(** Step 4: the placeholder becomes [.*]. *)
Lemma step4_chunks cs :
  Forall (chunk false false true false) cs ->
  exists cs', replaceAll DOUBLE_WILDCARD ".*" (flat cs) = flat cs' /\
              Forall (chunk false false true true) cs'.
Proof.
  intros H.
  apply (replaceAll_chunks inPlaceholder DOUBLE_WILDCARD ".*")
    with (m := List.length cs); try easy.
  - now apply ck_dotStar.
  - eapply Forall_impl; [|exact H]. intros k Hk.
    destruct Hk as [c Hc|c Hc Hn| | |_|]; try discriminate; simpl; auto.
    + unfold solidFree. simpl.
      now rewrite (escaped_not_in_placeholder _ Hc).
    + reflexivity.
  - eapply Forall_impl; [|exact H]. intros k Hk.
    destruct Hk; try discriminate;
      [now apply ck_escape | now apply ck_plain | now apply ck_notSlash].
Qed.

(** The four replacements leave a sequence of escapes, plain characters,
    [[^/]*] and [.*]. *)
Lemma regexBody_chunks pattern :
  exists cs, regexBody pattern = flat cs /\
             Forall (chunk false false true true) cs.
Proof.
  unfold regexBody. rewrite escapeClass_flat.
  destruct (step2_chunks _ (escapedChunks_kind pattern)) as (c2 & E2 & H2).
  rewrite E2.
  destruct (step3_chunks _ H2) as (c3 & E3 & H3). rewrite E3.
  destruct (rechunk_placeholder _ H3) as (c3' & E3' & H3'). rewrite E3'.
  destruct (step4_chunks _ H3') as (c4 & E4 & H4). rewrite E4.
  now exists c4.
Qed.

Lemma plain_lex c r :
  isEscaped c = false -> c <> "*"%char ->
  lex (String c r) = option_map (cons (TAtom (CsLit c))) (lex r).
Proof.
  intros He Hs. apply existsb_eqb_notIn in He. simpl in He.
  assert (forall d, In d ["."; "+"; "?"; "^"; "$"; "{"; "}"; "("; ")"; "|";
                          "["; "]"; "\"; "*"]%char -> Ascii.eqb c d = false) as N.
  { intros d Hd. apply Ascii.eqb_neq. intros ->. simpl in Hd.
    repeat (destruct Hd as [<-|Hd]; [tauto|]). contradiction. }
  cbn [lex]. unfold isUnsupported. cbn [existsb].
  rewrite !N by (simpl; tauto). reflexivity.
Qed.

Lemma lex_chunks cs :
  Forall (chunk false false true true) cs ->
  forall t ts, lex t = Some ts ->
  exists ts', lex (flat cs ++ t) = Some (ts' ++ ts)%list /\ groups ts'.
Proof.
  induction cs as [|k rest IH]; intros H t ts Ht.
  - exists []. split; [assumption|constructor].
  - inversion H as [|? ? Hk Hrest]; subst.
    destruct (IH Hrest t ts Ht) as (ts' & E & G).
    cbn [flat]. rewrite append_assoc.
    destruct Hk as [c Hc|c Hc Hn| | |_|_]; try discriminate.
    + exists (TAtom (CsLit c) :: ts'). split; [|now constructor].
      cbn [append lex]. rewrite (escaped_is_syntax _ Hc).
      change (Ascii.eqb "\" "\") with true. cbn iota. rewrite E. reflexivity.
    + exists (TAtom (CsLit c) :: ts'). split; [|now constructor].
      cbn [append]. rewrite plain_lex, E by assumption. reflexivity.
    + exists (TAtom CsNotSlash :: TStar :: ts'). split; [|now constructor].
      simpl. simpl in E. rewrite E. reflexivity.
    + exists (TAtom CsDot :: TStar :: ts'). split; [|now constructor].
      simpl. simpl in E. rewrite E. reflexivity.
Qed.

Lemma quantify_groups ts :
  groups ts ->
  exists its, quantify (ts ++ [TEol])%list = Some (its ++ [Eol])%list.
Proof.
  induction 1 as [|a ts G IH|a ts G IH].
  - exists []. reflexivity.
  - destruct IH as (its & E). exists (One a :: its).
    destruct G; cbn [app quantify] in *; rewrite E; reflexivity.
  - destruct IH as (its & E). exists (Many a :: its).
    cbn [app quantify]. rewrite E. reflexivity.
Qed.

(** [new RegExp(regexPattern)] never throws. *)
Lemma regexPattern_compiles pattern :
  exists its, compile (regexPattern pattern) = Some (Bol :: its ++ [Eol])%list.
Proof.
  destruct (regexBody_chunks pattern) as (cs & E & H).
  destruct (lex_chunks cs H "$" [TEol] eq_refl) as (ts & El & G).
  destruct (quantify_groups ts G) as (its & Eq).
  exists its. unfold compile, regexPattern. rewrite E.
  change ("^" ++ flat cs ++ "$") with (String "^"%char (flat cs ++ "$")).
  cbn [lex]. change (Ascii.eqb "^" "\") with false.
  change (Ascii.eqb "^" "[") with false. change (Ascii.eqb "^" ".") with false.
  change (Ascii.eqb "^" "*") with false. change (Ascii.eqb "^" "^") with true.
  cbn iota. rewrite El. cbn [option_map quantify]. rewrite Eq. reflexivity.
Qed.

End PatternCompiles.

(* ===================================================================== *)
(** * The pattern language on patterns free of the marker *)
(* ===================================================================== *)

Section Globs.

Import JsString Pattern RegExp.

(** Induction on a string, two characters at a time. *)
Lemma string_ind2 (P : string -> Prop) :
  P EmptyString ->
  (forall c, P (String c EmptyString)) ->
  (forall c d r, P r -> P (String d r) -> P (String c (String d r))) ->
  forall p, P p.
Proof.
  intros H0 H1 H2 p.
  assert (H : P p /\ forall c, P (String c p)).
  { induction p as [|d r [IH1 IH2]]; split; auto. }
  apply H.
Qed.

Lemma globOf_double r :
  globOf (String "*" (String "*" r)) = GDouble :: globOf r.
Proof. reflexivity. Qed.

Lemma globOf_star d r :
  d <> "*"%char ->
  globOf (String "*" (String d r)) = GStar :: globOf (String d r).
Proof.
  intros H. apply Ascii.eqb_neq in H. cbn [globOf].
  change (Ascii.eqb "*" "*") with true. cbn iota. rewrite H. reflexivity.
Qed.

Lemma globOf_lit c r :
  c <> "*"%char -> globOf (String c r) = GLit c :: globOf r.
Proof.
  intros H. apply Ascii.eqb_neq in H.
  destruct r; cbn [globOf]; rewrite H; reflexivity.
Qed.

(** The three shapes of a pattern of two characters or more. *)
Lemma globOf_cases c d r :
  (c = "*"%char /\ d = "*"%char /\
   globOf (String c (String d r)) = GDouble :: globOf r) \/
  (c = "*"%char /\ d <> "*"%char /\
   globOf (String c (String d r)) = GStar :: globOf (String d r)) \/
  (c <> "*"%char /\
   globOf (String c (String d r)) = GLit c :: globOf (String d r)).
Proof.
  destruct (ascii_dec c "*"%char) as [->|Hc].
  - destruct (ascii_dec d "*"%char) as [->|Hd].
    + left. auto using globOf_double.
    + right; left. auto using globOf_star.
  - right; right. auto using globOf_lit.
Qed.

Lemma globOf_wf p : wfGlob (globOf p).
Proof.
  induction p as [|c|c d r IHr IHd] using string_ind2.
  - exact I.
  - simpl. destruct (Ascii.eqb c "*") eqn:E; simpl; auto.
    split; [|exact I]. now apply Ascii.eqb_neq.
  - destruct (globOf_cases c d r) as [(-> & -> & E) | [(-> & n & E) | (n & E)]];
      rewrite E.
    + exact IHr.
    + cbn [wfGlob]. split; [|exact IHd].
      rewrite globOf_lit by assumption. exact I.
    + cbn [wfGlob]. split; assumption.
Qed.

Lemma globOf_lit_head r a ts :
  globOf r = GLit a :: ts -> exists r', r = String a r' /\ ts = globOf r'.
Proof.
  destruct r as [|c r]; [discriminate|]. cbn [globOf].
  destruct (Ascii.eqb c "*").
  - destruct r as [|d r]; [discriminate|]. destruct (Ascii.eqb d "*"); discriminate.
  - intros [= -> <-]. now exists r.
Qed.

Lemma includes_tail needle c r :
  includes needle (String c r) = false -> includes needle r = false.
Proof. simpl. intros H. now apply orb_false_iff in H. Qed.

Lemma globOf_markerFree p :
  includes "__D" p = false -> markerFree (globOf p).
Proof.
  induction p as [|c|c d r IHr IHd] using string_ind2; intros H.
  - exact I.
  - simpl. destruct (Ascii.eqb c "*"); simpl; auto.
  - pose proof (includes_tail _ _ _ H) as Hd.
    pose proof (includes_tail _ _ _ Hd) as Hr.
    destruct (globOf_cases c d r) as [(-> & -> & E) | [(-> & n & E) | (n & E)]];
      rewrite E.
    + cbn [markerFree]. split; [exact I | now apply IHr].
    + cbn [markerFree]. split; [exact I | now apply IHd].
    + cbn [markerFree]. split; [|now apply IHd].
      destruct (globOf (String d r)) as [|[b| |] [|[e| |] ts]] eqn:G; try exact I.
      intros (-> & -> & ->).
      apply globOf_lit_head in G as (r1 & [= -> ->] & G).
      symmetry in G. apply globOf_lit_head in G as (r2 & -> & _).
      destruct r2; simpl in H; discriminate.
Qed.

(** Step 1. *)
Lemma escape_globs p :
  escapeClass isEscaped p = flat (map text1 (globOf p)).
Proof.
  induction p as [|c|c d r IHr IHd] using string_ind2.
  - reflexivity.
  - cbn [globOf escapeClass]. destruct (Ascii.eqb c "*") eqn:E.
    + apply Ascii.eqb_eq in E. subst. reflexivity.
    + cbn [map flat text1]. unfold litText. destruct (isEscaped c); reflexivity.
  - destruct (globOf_cases c d r) as [(-> & -> & E) | [(-> & n & E) | (n & E)]];
      rewrite E; cbn [map flat text1]; rewrite <- ?IHr, <- ?IHd.
    + reflexivity.
    + reflexivity.
    + cbn [escapeClass]. unfold litText. destruct (isEscaped c); reflexivity.
Qed.

Lemma prefix_app n t : prefix n (n ++ t) = true.
Proof.
  induction n as [|a n IH]; [now destruct t|].
  simpl. destruct (ascii_dec a a); [exact IH | congruence].
Qed.

Lemma prefix_cons_neq a n c r :
  a <> c -> prefix (String a n) (String c r) = false.
Proof. intros H. simpl. destruct (ascii_dec a c); [contradiction|reflexivity]. Qed.

Lemma escaped_not c d : isEscaped c = true -> isEscaped d = false -> d <> c.
Proof. intros H1 H2 ->. congruence. Qed.

(** Replacing a needle whose first character is neither the backslash nor
    an escaped character passes over the text of a literal. *)
Lemma replaceAll_litText a n repl c t :
  a <> "\"%char -> isEscaped a = false ->
  (isEscaped c = false -> a <> c \/ prefix (String a n) (String c t) = false) ->
  replaceAll (String a n) repl (litText c ++ t) =
  litText c ++ replaceAll (String a n) repl t.
Proof.
  intros Hb Ha Hc. unfold litText. destruct (isEscaped c) eqn:E.
  - cbn [append]. rewrite replaceAll_miss by now apply prefix_cons_neq.
    rewrite replaceAll_miss; [reflexivity|].
    apply prefix_cons_neq. eapply escaped_not; eassumption.
  - cbn [append]. rewrite replaceAll_miss; [reflexivity|].
    destruct (Hc eq_refl) as [H|H]; [now apply prefix_cons_neq | exact H].
Qed.

Lemma litText_head_not_star c t :
  c <> "*"%char -> prefix "*" (litText c ++ t) = false.
Proof.
  intros H. unfold litText. destruct (isEscaped c); cbn [append].
  - reflexivity.
  - apply prefix_cons_neq. congruence.
Qed.

(** Step 2. *)
Lemma step2_globs ts :
  wfGlob ts ->
  replaceAll "**" DOUBLE_WILDCARD (flat (map text1 ts)) = flat (map text2 ts).
Proof.
  induction ts as [|g ts IH]; [reflexivity|]. intros W.
  destruct g as [c| |]; cbn [map flat text1 text2 wfGlob] in *.
  - destruct W as [Hc W].
    rewrite replaceAll_litText, IH; auto; try discriminate;
      try (intros _; left; congruence).
  - destruct W as [Hn W]. cbn [append].
    rewrite replaceAll_miss; [rewrite IH by assumption; reflexivity|].
    cbn [prefix]. destruct (ascii_dec "*" "*"); [|congruence].
    destruct ts as [|[c| |] ts]; try contradiction; [reflexivity|].
    cbn [map flat text1 wfGlob] in *. destruct W as [Hc _].
    now apply litText_head_not_star.
  - change (String "*" (String "*" EmptyString) ++ flat (map text1 ts))
      with (String "*" (String "*" (flat (map text1 ts)))).
    rewrite replaceAll_hit;
      [|discriminate|apply (prefix_app "**" (flat (map text1 ts)))].
    cbn [String.length drop]. rewrite IH by assumption. reflexivity.
Qed.

Lemma litText_star_free c :
  c <> "*"%char ->
  allChars (fun d => negb (Ascii.eqb "*" d)) (litText c) = true.
Proof.
  intros H. assert (Ascii.eqb "*" c = false) as E
    by (apply Ascii.eqb_neq; congruence).
  unfold litText. destruct (isEscaped c); cbn [allChars]; rewrite E; reflexivity.
Qed.

(** Step 3. *)
Lemma step3_globs ts :
  wfGlob ts ->
  replaceAll "*" "[^/]*" (flat (map text2 ts)) = flat (map text3 ts).
Proof.
  rewrite replaceAll_char.
  induction ts as [|g ts IH]; [reflexivity|]. intros W.
  cbn [map flat]. rewrite charSubst_app.
  destruct g as [c| |]; cbn [text2 text3 wfGlob] in *.
  - destruct W as [Hc W]. rewrite IH by assumption.
    rewrite charSubst_free by now apply litText_star_free. reflexivity.
  - destruct W as [_ W]. rewrite IH by assumption. reflexivity.
  - rewrite IH by assumption. reflexivity.
Qed.

Lemma prefix_cons_eq a n r : prefix (String a n) (String a r) = prefix n r.
Proof. simpl. destruct (ascii_dec a a); [reflexivity | congruence]. Qed.

Lemma drop_app n t : drop (String.length n) (n ++ t) = t.
Proof. induction n as [|a n IH]; [reflexivity | exact IH]. Qed.

Lemma replaceAll_hit_app n repl t :
  n <> EmptyString ->
  replaceAll n repl (n ++ t) = repl ++ replaceAll n repl t.
Proof.
  intros Hn. destruct n as [|a n]; [congruence|].
  pose proof (prefix_app (String a n) t) as Hp.
  pose proof (drop_app (String a n) t) as Hd.
  cbn [append] in *. rewrite replaceAll_hit by assumption.
  now rewrite Hd.
Qed.

Lemma litText_head c t :
  exists h r, litText c ++ t = String h r /\
    (isEscaped c = true /\ h = "\"%char \/
     isEscaped c = false /\ h = c /\ r = t).
Proof.
  unfold litText. destruct (isEscaped c); cbn [append]; eauto 8.
Qed.

(** The marker cannot start at a literal underscore. *)
Lemma marker_not_at_underscore ts :
  markerFree (GLit "_" :: ts) ->
  prefix DOUBLE_WILDCARD (String "_" (flat (map text3 ts))) = false.
Proof.
  intros [M _]. unfold DOUBLE_WILDCARD. rewrite prefix_cons_eq.
  destruct ts as [|g2 ts2]; [reflexivity|]. cbn [map flat].
  destruct g2 as [b| |]; cbn [text3].
  - destruct (litText_head b (flat (map text3 ts2)))
      as (h & r & -> & [[_ ->] | (Eb & -> & ->)]); [reflexivity|].
    destruct (ascii_dec "_" b) as [<-|Hb]; [|now apply prefix_cons_neq].
    rewrite prefix_cons_eq.
    destruct ts2 as [|g3 ts3]; [reflexivity|]. cbn [map flat].
    destruct g3 as [e| |]; cbn [text3]; try reflexivity.
    destruct (litText_head e (flat (map text3 ts3)))
      as (h & r & -> & [[_ ->] | (Ee & -> & ->)]); [reflexivity|].
    apply prefix_cons_neq. intros <-. apply M. auto.
  - reflexivity.
  - reflexivity.
Qed.

(** Step 4. *)
Lemma step4_globs ts :
  wfGlob ts -> markerFree ts ->
  replaceAll DOUBLE_WILDCARD ".*" (flat (map text3 ts)) = flat (map text4 ts).
Proof.
  induction ts as [|g ts IH]; [reflexivity|]. intros W M.
  assert (Mts : markerFree ts) by (destruct M as [_ M]; exact M).
  destruct g as [c| |]; cbn [map flat text3 text4 wfGlob] in *.
  - destruct W as [Hc W]. unfold DOUBLE_WILDCARD at 1.
    rewrite replaceAll_litText.
    + fold DOUBLE_WILDCARD. rewrite IH by assumption. reflexivity.
    + discriminate.
    + reflexivity.
    + intros _. destruct (ascii_dec "_" c) as [<-|Hn]; [right|now left].
      now apply marker_not_at_underscore.
  - destruct W as [_ W].
    rewrite (replaceAll_skip_solidFree inPlaceholder); try reflexivity.
    + rewrite IH by assumption. reflexivity.
    + discriminate.
  - rewrite replaceAll_hit_app by discriminate.
    rewrite IH by assumption. reflexivity.
Qed.

(** On a pattern free of the marker the four replacements give, token by
    token, the regular expression one expects. *)
Lemma regexBody_globs p :
  includes "__D" p = false ->
  regexBody p = flat (map text4 (globOf p)).
Proof.
  intros H. unfold regexBody.
  rewrite escape_globs, step2_globs, step3_globs, step4_globs;
    auto using globOf_wf, globOf_markerFree.
Qed.

Lemma lex_globs ts t toks :
  lex t = Some toks -> wfGlob ts ->
  lex (flat (map text4 ts) ++ t) = Some (concat (map tokensOf ts) ++ toks)%list.
Proof.
  intros Ht. induction ts as [|g ts IH]; intros W; [exact Ht|].
  cbn [map flat concat]. rewrite append_assoc.
  destruct g as [c| |]; cbn [text4 tokensOf wfGlob] in *.
  - destruct W as [Hc W]. unfold litText. destruct (isEscaped c) eqn:E.
    + cbn [append lex]. rewrite (escaped_is_syntax _ E).
      change (Ascii.eqb "\" "\") with true. cbn iota.
      rewrite IH by assumption. reflexivity.
    + cbn [append]. rewrite plain_lex, IH by assumption. reflexivity.
  - destruct W as [_ W]. specialize (IH W). simpl. simpl in IH.
    rewrite IH. reflexivity.
  - specialize (IH W). simpl. simpl in IH. rewrite IH. reflexivity.
Qed.

Lemma quantify_globs ts :
  quantify (concat (map tokensOf ts) ++ [TEol])%list =
  Some (map itemOf ts ++ [Eol])%list.
Proof.
  induction ts as [|g ts IH]; [reflexivity|].
  cbn [map concat]. destruct g as [c| |]; cbn [tokensOf itemOf app].
  - destruct ts as [|g2 ts2].
    + reflexivity.
    + cbn [map concat] in *.
      destruct g2; cbn [tokensOf app quantify] in *; rewrite IH; reflexivity.
  - cbn [quantify]. rewrite IH. reflexivity.
  - cbn [quantify]. rewrite IH. reflexivity.
Qed.

Lemma compile_globs p :
  includes "__D" p = false ->
  compile (regexPattern p) = Some (Bol :: map itemOf (globOf p) ++ [Eol])%list.
Proof.
  intros H. unfold compile, regexPattern. rewrite (regexBody_globs _ H).
  change ("^" ++ flat (map text4 (globOf p)) ++ "$")
    with (String "^"%char (flat (map text4 (globOf p)) ++ "$")).
  cbn [lex]. change (Ascii.eqb "^" "\") with false.
  change (Ascii.eqb "^" "[") with false. change (Ascii.eqb "^" ".") with false.
  change (Ascii.eqb "^" "*") with false. change (Ascii.eqb "^" "^") with true.
  cbn iota.
  rewrite (lex_globs _ "$" [TEol] eq_refl (globOf_wf p)).
  cbn [option_map quantify]. rewrite quantify_globs. reflexivity.
Qed.

(** ** What the compiled expression accepts *)

Lemma many_unfold a r b s :
  matchHere (Many a :: r) b s =
  matchHere r b s ||
  match s with
  | String c s' => inSet a c && matchHere (Many a :: r) false s'
  | EmptyString => false
  end.
Proof. destruct s; reflexivity. Qed.

Lemma many_spec a its (P : string -> Prop) :
  (forall b s, matchHere its b s = true <-> P s) ->
  forall s b,
    matchHere (Many a :: its) b s = true <->
    exists r1 s2, s = r1 ++ s2 /\ allChars (inSet a) r1 = true /\ P s2.
Proof.
  intros HP. induction s as [|c s IH]; intros b; rewrite many_unfold.
  - rewrite orb_false_r, HP. split.
    + intros H. exists EmptyString, EmptyString. auto.
    + intros (r1 & s2 & E & _ & H). destruct r1; [|discriminate].
      simpl in E. now subst.
  - rewrite orb_true_iff, andb_true_iff, HP, IH. split.
    + intros [H | (Hc & r1 & s2 & -> & Hr & H)].
      * exists EmptyString, (String c s). auto.
      * exists (String c r1), s2. cbn [allChars append]. rewrite Hc, Hr. auto.
    + intros (r1 & s2 & E & Hr & H). destruct r1 as [|d r1].
      * left. simpl in E. now subst.
      * cbn [append] in E. injection E as <- ->.
        cbn [allChars] in Hr. apply andb_true_iff in Hr as [Hc Hr].
        right. split; [assumption|]. now exists r1, s2.
Qed.

Lemma matchHere_globs ts :
  forall b s, matchHere (map itemOf ts ++ [Eol])%list b s = true <-> globMatches ts s.
Proof.
  induction ts as [|g ts IH]; intros b s.
  - cbn. destruct s; split; intros H; try constructor; try discriminate.
    inversion H.
  - destruct g as [c| |]; cbn [map itemOf app].
    + cbn [matchHere]. destruct s as [|d s].
      * split; [discriminate | intros H; inversion H].
      * rewrite andb_true_iff, IH. cbn [inSet]. split.
        -- intros [E H]. apply Ascii.eqb_eq in E. subst. now constructor.
        -- intros H. inversion H; subst. split; [apply Ascii.eqb_refl|assumption].
    + rewrite (many_spec _ _ (globMatches ts)) by exact IH. split.
      * intros (r1 & s2 & -> & Hr & H). now constructor.
      * intros H. inversion H; subst. eauto.
    + rewrite (many_spec _ _ (globMatches ts)) by exact IH. split.
      * intros (r1 & s2 & -> & Hr & H). now constructor.
      * intros H. inversion H; subst. eauto.
Qed.

Lemma searchFrom_Bol_later its s : searchFrom (Bol :: its) false s = false.
Proof. induction s as [|c s IH]; simpl; [reflexivity | exact IH]. Qed.

Lemma test_anchored its s : test (Bol :: its) s = matchHere its true s.
Proof.
  unfold test. destruct s; cbn [searchFrom matchHere andb].
  - apply orb_false_r.
  - rewrite searchFrom_Bol_later. apply orb_false_r.
Qed.

(** Every pattern accepts its own text. *)
Lemma globOf_self p : globMatches (globOf p) p.
Proof.
  induction p as [|c|c d r IHr IHd] using string_ind2.
  - constructor.
  - cbn [globOf]. destruct (Ascii.eqb c "*") eqn:E.
    + apply Ascii.eqb_eq in E. subst.
      apply (gm_star [] "*" EmptyString); [reflexivity | constructor].
    + repeat constructor.
  - destruct (globOf_cases c d r) as [(-> & -> & E) | [(-> & n & E) | (n & E)]];
      rewrite E.
    + apply (gm_double _ "**" r); [reflexivity | assumption].
    + apply (gm_star _ "*" (String d r)); [reflexivity | assumption].
    + now constructor.
Qed.

(** On a pattern in which the text [__D] does not occur, the matcher is the
    pattern language of the specification: a bare [*] accepts every name;
    otherwise [*] stands for a run without [/], [**] for a run without line
    terminators, every other character for itself, and the whole name has to
    be consumed. *)
Lemma matchesPattern_glob name pattern :
  includes "__D" pattern = false ->
  (matchesPattern name pattern = true <->
   pattern = "*" \/ globMatches (globOf pattern) name).
Proof.
  intros H. unfold matchesPattern.
  destruct (String.eqb pattern "*") eqn:E.
  - apply String.eqb_eq in E. tauto.
  - apply String.eqb_neq in E.
    rewrite (compile_globs _ H), test_anchored, matchHere_globs. tauto.
Qed.

(** A name in which the text [__D] does not occur matches itself. *)
Lemma matchesPattern_self name :
  includes "__D" name = false -> matchesPattern name name = true.
Proof.
  intros H. apply (matchesPattern_glob name name H). right. apply globOf_self.
Qed.

End Globs.

(* ===================================================================== *)
(** * The pattern matcher *)
(* ===================================================================== *)

Section PatternFacts.

Import Pattern.

(** A bare [*] matches every tool name. *)
Lemma matchesPattern_bare_star name : matchesPattern name "*" = true.
Proof. reflexivity. Qed.

(** The three examples of the specification. *)
Lemma matchesPattern_examples :
  matchesPattern "a/b" "a/*" = true /\
  matchesPattern "a/b/c" "a/*" = false /\
  matchesPattern "a/b/c" "a/**" = true.
Proof. repeat split; reflexivity. Qed.

(** Metacharacters of regular expressions are literal in a pattern, and a
    pattern is anchored at both ends. *)
Lemma matchesPattern_literal_examples :
  matchesPattern "a.b" "a.b" = true /\
  matchesPattern "axb" "a.b" = false /\
  matchesPattern "xa/b" "a/*" = false /\
  matchesPattern "a/bx" "a/b" = false.
Proof. repeat split; reflexivity. Qed.

(** C3. The matcher marks [**] with the text [__DOUBLE_WILDCARD__] before it
    rewrites [*], and turns every occurrence of that text into [.*]
    afterwards.  In the name [__DOUBLE_WILDCARD_**_] the marker that replaces
    [**] overlaps an occurrence of the marker's own text, so the pattern
    compiles to [^.*_DOUBLE_WILDCARD___$] and the name does not match
    itself.  Moreover [.] excludes line terminators, so [**] does not match
    a name with a line feed in it. *)
Theorem matchesPattern_placeholder_collision :
  regexPattern "__DOUBLE_WILDCARD_**_" = "^.*_DOUBLE_WILDCARD___$" /\
  matchesPattern "__DOUBLE_WILDCARD_**_" "__DOUBLE_WILDCARD_**_" = false /\
  matchesPattern "x/y" "__DOUBLE_WILDCARD__" = true /\
  matchesPattern (String "a" (String "010" "b")) "a**" = false.
Proof. repeat split; reflexivity. Qed.

End PatternFacts.

(* ===================================================================== *)
(** * The policy resolver *)
(* ===================================================================== *)

Section Resolver.

Import Pattern PolicyEngine.

Lemma find_Some_firstSuch {A} (p : A -> bool) l x :
  List.find p l = Some x -> firstSuch p l x.
Proof.
  induction l as [|y l IH]; simpl; [discriminate|].
  destruct (p y) eqn:E.
  - intros [= ->]. exists [], l. repeat split; auto.
  - intros H. destruct (IH H) as (b & a & -> & Hx & Hb).
    exists (y :: b), a. repeat split; auto.
Qed.

Lemma find_None_noneSuch {A} (p : A -> bool) l :
  List.find p l = None -> noneSuch p l.
Proof.
  induction l as [|y l IH]; simpl; [constructor|].
  destruct (p y) eqn:E; [discriminate|]. intros H. constructor; [exact E | now apply IH].
Qed.

Lemma firstMatching_Some toolName rules r :
  PolicyRulesDB.firstMatching toolName rules = Some r ->
  exists rule,
    firstSuch (fun x => matchesPattern toolName (rule_pattern x)) rules rule /\
    r = PolicyRulesDB.resolvedOf rule.
Proof.
  induction rules as [|y l IH]; simpl; [discriminate|].
  destruct (matchesPattern toolName (rule_pattern y)) eqn:E.
  - intros [= <-]. exists y. split; [|reflexivity].
    exists [], l. repeat split; auto.
  - intros H. destruct (IH H) as (rule & (b & a & -> & Hx & Hb) & ->).
    exists rule. split; [|reflexivity]. exists (y :: b), a. repeat split; auto.
Qed.

Lemma firstMatching_None toolName rules :
  PolicyRulesDB.firstMatching toolName rules = None ->
  noneSuch (fun x => matchesPattern toolName (rule_pattern x)) rules.
Proof.
  induction rules as [|y l IH]; simpl; [constructor|].
  destruct (matchesPattern toolName (rule_pattern y)) eqn:E; [discriminate|].
  intros H. constructor; [exact E | now apply IH].
Qed.

Lemma getField_Some {A} key (fields : list (string * A)) v :
  Js.getField key fields = Some v ->
  firstSuch (fun kv => String.eqb (fst kv) key) fields (key, v).
Proof.
  induction fields as [|[k w] l IH]; simpl; [discriminate|].
  destruct (String.eqb k key) eqn:E.
  - intros [= ->]. apply String.eqb_eq in E. subst k.
    exists [], l. repeat split; auto. simpl. apply String.eqb_refl.
  - intros H. destruct (IH H) as (b & a & -> & Hx & Hb).
    exists ((k, w) :: b), a. repeat split; auto.
Qed.

Lemma getField_None {A} key (fields : list (string * A)) :
  Js.getField key fields = None ->
  noneSuch (fun kv => String.eqb (fst kv) key) fields.
Proof.
  induction fields as [|[k w] l IH]; simpl; [constructor|].
  destruct (String.eqb k key) eqn:E; [discriminate|].
  intros H. constructor; [exact E | now apply IH].
Qed.

Lemma firstPattern_Some toolName entries d :
  firstPattern toolName entries = Some d ->
  exists p a,
    firstSuch (fun kv => matchesPattern toolName (fst kv)) entries (p, a) /\
    d = mkDetailed a config_pattern (Some p) None.
Proof.
  induction entries as [|[k w] l IH]; simpl; [discriminate|].
  destruct (matchesPattern toolName k) eqn:E.
  - intros [= <-]. exists k, w. split; [|reflexivity].
    exists [], l. repeat split; auto.
  - intros H. destruct (IH H) as (p & a & (b & af & -> & Hx & Hb) & ->).
    exists p, a. split; [|reflexivity].
    exists ((k, w) :: b), af. repeat split; auto.
Qed.

Lemma firstPattern_None toolName entries :
  firstPattern toolName entries = None ->
  noneSuch (fun kv => matchesPattern toolName (fst kv)) entries.
Proof.
  induction entries as [|[k w] l IH]; simpl; [constructor|].
  destruct (matchesPattern toolName k) eqn:E; [discriminate|].
  intros H. constructor; [exact E | now apply IH].
Qed.

Lemma lookup_cases toolName (entries : list (string * PolicyAction)) :
  (exists a, Js.getField toolName entries = Some a /\
             lookup toolName entries = Some a)
  \/ (Js.getField toolName entries = None /\ Js.inherited toolName = true /\
      lookup toolName entries = Some not_an_action)
  \/ (Js.getField toolName entries = None /\ Js.inherited toolName = false /\
      lookup toolName entries = None).
Proof.
  unfold lookup. destruct (Js.getField toolName entries) as [a|].
  - left. now exists a.
  - right. destruct (Js.inherited toolName); [left | right]; repeat split.
Qed.

(** The order of the resolver.  For every tool name, every content of the
    rules file and every static configuration, the resolver answers with
    the first hit in this order: the first dynamic rule whose pattern equals
    the tool name; else the first dynamic rule whose pattern matches it;
    else what [this.policies[toolName]] finds, which is the entry of the
    static map under the tool name or, when there is none and the tool name
    is the name of a property of [Object.prototype], that property; else the
    first entry of the static map, in its order, whose pattern matches; else
    the default action.  The answer carries the action, its source, and the
    pattern and rule id that belong to the hit. *)
Theorem checkPolicyDetailed_first_hit
    (engine : PolicyEngine.t) (rules : file (list RuleRow)) (toolName : string) :
  let dyn := dynamicRules engine rules in
  let isExact := fun r : RuleRow => String.eqb (rule_pattern r) toolName in
  let ruleMatches := fun r : RuleRow => matchesPattern toolName (rule_pattern r) in
  let hasKey := fun kv : string * PolicyAction => String.eqb (fst kv) toolName in
  let entryMatches := fun kv : string * PolicyAction => matchesPattern toolName (fst kv) in
  let answer := checkPolicyDetailed engine rules toolName in
  (exists rule, firstSuch isExact dyn rule /\
     answer = mkDetailed (rule_action rule) db_rule
                (Some (rule_pattern rule)) (Some (rule_id rule)))
  \/ (noneSuch isExact dyn /\
      exists rule, firstSuch ruleMatches dyn rule /\
        answer = mkDetailed (rule_action rule) db_rule
                   (Some (rule_pattern rule)) (Some (rule_id rule)))
  \/ (noneSuch isExact dyn /\ noneSuch ruleMatches dyn /\
      exists a, firstSuch hasKey (policies engine) (toolName, a) /\
        answer = mkDetailed a config_exact (Some toolName) None)
  \/ (noneSuch isExact dyn /\ noneSuch ruleMatches dyn /\
      noneSuch hasKey (policies engine) /\
      Js.inherited toolName = true /\
      answer = mkDetailed not_an_action config_exact (Some toolName) None)
  \/ (noneSuch isExact dyn /\ noneSuch ruleMatches dyn /\
      noneSuch hasKey (policies engine) /\
      Js.inherited toolName = false /\
      exists p a, firstSuch entryMatches (policies engine) (p, a) /\
        answer = mkDetailed a config_pattern (Some p) None)
  \/ (noneSuch isExact dyn /\ noneSuch ruleMatches dyn /\
      noneSuch hasKey (policies engine) /\
      Js.inherited toolName = false /\
      noneSuch entryMatches (policies engine) /\
      answer = mkDetailed (defaultPolicy engine) default None None).
Proof.
  cbv zeta. unfold checkPolicyDetailed, dynamicRules, PolicyRulesDB.resolveDetailed.
  set (static := match lookup toolName (policies engine) with
                 | Some action => mkDetailed action config_exact (Some toolName) None
                 | None =>
                     match firstPattern toolName (policies engine) with
                     | Some hit => hit
                     | None => mkDetailed (defaultPolicy engine) default None None
                     end
                 end).
  assert (Static :
    (exists a,
       firstSuch (fun kv : string * PolicyAction => String.eqb (fst kv) toolName)
         (policies engine) (toolName, a) /\
       static = mkDetailed a config_exact (Some toolName) None)
    \/ (noneSuch (fun kv : string * PolicyAction => String.eqb (fst kv) toolName)
          (policies engine) /\
        Js.inherited toolName = true /\
        static = mkDetailed not_an_action config_exact (Some toolName) None)
    \/ (noneSuch (fun kv : string * PolicyAction => String.eqb (fst kv) toolName)
          (policies engine) /\
        Js.inherited toolName = false /\
        exists p a,
          firstSuch (fun kv : string * PolicyAction => matchesPattern toolName (fst kv))
            (policies engine) (p, a) /\
          static = mkDetailed a config_pattern (Some p) None)
    \/ (noneSuch (fun kv : string * PolicyAction => String.eqb (fst kv) toolName)
          (policies engine) /\
        Js.inherited toolName = false /\
        noneSuch (fun kv : string * PolicyAction => matchesPattern toolName (fst kv))
          (policies engine) /\
        static = mkDetailed (defaultPolicy engine) default None None)).
  { subst static.
    destruct (lookup_cases toolName (policies engine))
      as [(a & G & ->) | [(G & I & ->) | (G & I & ->)]].
    - left. exists a. split; [now apply getField_Some | reflexivity].
    - right; left. apply getField_None in G. now repeat split.
    - apply getField_None in G.
      destruct (firstPattern toolName (policies engine)) as [hit|] eqn:F.
      + right; right; left. split; [assumption|]. split; [assumption|].
        destruct (firstPattern_Some _ _ _ F) as (p & a & Hf & ->).
        now exists p, a.
      + right; right; right. apply firstPattern_None in F. now repeat split. }
  assert (Lift :
    forall dyn,
      noneSuch (fun r : RuleRow => String.eqb (rule_pattern r) toolName) dyn ->
      noneSuch (fun r : RuleRow => matchesPattern toolName (rule_pattern r)) dyn ->
      (noneSuch (fun r : RuleRow => String.eqb (rule_pattern r) toolName) dyn /\
       noneSuch (fun r : RuleRow => matchesPattern toolName (rule_pattern r)) dyn /\
       exists a,
         firstSuch (fun kv : string * PolicyAction => String.eqb (fst kv) toolName)
           (policies engine) (toolName, a) /\
         static = mkDetailed a config_exact (Some toolName) None)
      \/ (noneSuch (fun r : RuleRow => String.eqb (rule_pattern r) toolName) dyn /\
          noneSuch (fun r : RuleRow => matchesPattern toolName (rule_pattern r)) dyn /\
          noneSuch (fun kv : string * PolicyAction => String.eqb (fst kv) toolName)
            (policies engine) /\
          Js.inherited toolName = true /\
          static = mkDetailed not_an_action config_exact (Some toolName) None)
      \/ (noneSuch (fun r : RuleRow => String.eqb (rule_pattern r) toolName) dyn /\
          noneSuch (fun r : RuleRow => matchesPattern toolName (rule_pattern r)) dyn /\
          noneSuch (fun kv : string * PolicyAction => String.eqb (fst kv) toolName)
            (policies engine) /\
          Js.inherited toolName = false /\
          exists p a,
            firstSuch (fun kv : string * PolicyAction => matchesPattern toolName (fst kv))
              (policies engine) (p, a) /\
            static = mkDetailed a config_pattern (Some p) None)
      \/ (noneSuch (fun r : RuleRow => String.eqb (rule_pattern r) toolName) dyn /\
          noneSuch (fun r : RuleRow => matchesPattern toolName (rule_pattern r)) dyn /\
          noneSuch (fun kv : string * PolicyAction => String.eqb (fst kv) toolName)
            (policies engine) /\
          Js.inherited toolName = false /\
          noneSuch (fun kv : string * PolicyAction => matchesPattern toolName (fst kv))
            (policies engine) /\
          static = mkDetailed (defaultPolicy engine) default None None)).
  { intros dyn N1 N2.
    destruct Static as [S | [(K & I & S) | [(K & I & S) | (K & I & P & S)]]].
    - left. now repeat split.
    - right; left. now repeat split.
    - right; right; left. now repeat split.
    - right; right; right. now repeat split. }
  clearbody static.
  destruct (hasPolicyRulesDB engine).
  - unfold Js.find, PolicyRulesDB.hasPattern.
    destruct (List.find _ (readJsonFile rules [])) as [exact|] eqn:F.
    + left. exists exact. split; [|reflexivity].
      now apply find_Some_firstSuch in F.
    + apply find_None_noneSuch in F.
      destruct (PolicyRulesDB.firstMatching toolName (readJsonFile rules []))
        as [r|] eqn:FM.
      * right; left. split; [assumption|].
        destruct (firstMatching_Some _ _ _ FM) as (rule & Hf & ->).
        exists rule. split; [assumption|reflexivity].
      * right; right. apply firstMatching_None in FM.
        now apply Lift.
  - right; right. apply Lift; constructor.
Qed.

(** C1.  The claimed order fails for the tool names that are names of
    properties of [Object.prototype].  With no dynamic rule and the static
    map [{ "**": "deny" }], the first hit for the tool [constructor] is, by
    the claimed order, the static pattern [**] with the action [deny]: no
    entry of the static map is keyed by [constructor].  The lookup
    [this.policies[toolName]] of the resolver finds the inherited property
    instead, and the resolver answers with the source [config-exact], the
    pattern [constructor] and an action that is none of the three.  The
    pipeline, which compares the action with [deny], then does not refuse
    the call as denied by policy: it hands it to the router, which rejects
    the name, and the notice says [error], not [blocked]. *)
Theorem inherited_name_counts_as_static_entry :
  let engine := policyEngine lockedConfig in
  let rules : file (list RuleRow) := rulesJson (disk (pairedWorld "111")) in
  let answer := checkPolicyDetailed engine rules "constructor" in
  let r := MCPHandler.executeToolPipeline sampleEnv lockedConfig "constructor"
             JNull (pairedWorld "111") in
  dynamicRules engine rules = [] /\
  policies engine = [("**", deny)] /\
  defaultPolicy engine = deny /\
  matchesPattern "constructor" "**" = true /\
  answer = mkDetailed not_an_action config_exact (Some "constructor") None /\
  answer <> mkDetailed deny config_pattern (Some "**") None /\
  (exists message,
     snd r = Thrown message /\
     JsString.includes "denied by policy" message = false /\
     JsString.includes "Invalid namespaced tool name" message = true) /\
  map Notice.status (noticeQueue (fst r)) = [Notice.failed] /\
  map Notice.policyAction (noticeQueue (fst r)) = [not_an_action].
Proof.
  cbv zeta. repeat split; try reflexivity; try discriminate.
  eexists. split; [reflexivity|]. split; reflexivity.
Qed.

(** Scenario S6: a dynamic rule on [x/*] wins over the static entry for
    [x/y]; without it the static entry decides. *)
Lemma pattern_precedence_example :
  let engine := mkEngine [("x/y", deny)] allow true in
  let dynamic := mkFile (Some (Parsed [mkRule "r1" "x/*" allow 0])) None in
  checkPolicyDetailed engine dynamic "x/y" =
    mkDetailed allow db_rule (Some "x/*") (Some "r1") /\
  checkPolicyDetailed engine (PolicyRulesDB.remove "r1" dynamic) "x/y" =
    mkDetailed deny config_exact (Some "x/y") None.
Proof. split; reflexivity. Qed.

End Resolver.

(* ===================================================================== *)
(** * The file store *)
(* ===================================================================== *)

Section FileStoreFacts.

Lemma readJsonFile_unreadable {T} (f : file T) (fallback : T) :
  unreadable f -> readJsonFile f fallback = fallback.
Proof. unfold readJsonFile. intros [-> | ->]; reflexivity. Qed.

Lemma readJsonFile_written {T} (f : file T) (data fallback : T) :
  readJsonFile (writeJsonFileAtomic f data) fallback = data.
Proof. reflexivity. Qed.

(** Until the rename, readers see the old content. *)
Lemma writeJsonFileAtomic_steps {T} (f : file T) (data : T) :
  target (writeTmp f data) = target f /\
  writeJsonFileAtomic f data = mkFile (Some (Parsed data)) None.
Proof. split; reflexivity. Qed.

(** C10, as stated, fails: a read-modify-write that looks a row up before
    it changes it finds none in the empty shape and returns without
    writing, so the corrupted file is still there after it; and a [create]
    of a grant whose expiry is not a date throws before it writes. *)
Lemma mutator_leaves_the_corrupt_file :
  TasksDB.setError "t1" "boom" 5 garbage = garbage /\
  TasksDB.updateStatus "t1" denied 5 garbage = garbage /\
  unreadable (TasksDB.setError "t1" "boom" 5 (@garbage (list Task))) /\
  GrantsDB.create "g1" 0 "fs/*" 8640000000001 garbage =
    Thrown "Invalid time value".
Proof. repeat split; try reflexivity. right. reflexivity. Qed.

(** C10, amended. Every read of a collection is a [readJsonFile], which
    answers with the empty fallback when the file is missing and also when
    its text does not parse.  So a corrupted tasks, grants, rules, approvals
    or admin file reads as empty and no operation reports it.  The next
    operation that writes replaces the file, by a write to the sibling and
    a rename, with a document built from the empty shape: the creation of a
    task, of a grant or of an approval (for the last two when their dates
    are dates: otherwise [toISOString] throws and nothing is written), the
    upsert or removal of a rule, a revocation, and, for approvals, grants
    and rules, the next start-up.  The operations on a task that look the
    row up first ([updateStatus], [setResult], [setError],
    [setTelegramMessageId], [markChecked]) find no row and leave the
    corrupted file as it is. *)
Theorem corrupt_file_reads_empty_and_is_replaced
    (tasks : file (list Task)) (grants : file (list GrantRow))
    (rules : file (list RuleRow)) (approvals : file (list ApprovalRow))
    (admin : file AdminState)
    (id toolName pattern : string) (now seconds : Z) (args originalArgs : json)
    (action : PolicyAction) :
  unreadable tasks -> unreadable grants -> unreadable rules ->
  unreadable approvals -> unreadable admin ->
  (* reads *)
  readJsonFile tasks [] = [] /\
  TasksDB.get id tasks = None /\
  TasksDB.listPending tasks = [] /\
  GrantsDB.hasActiveGrant now toolName grants = false /\
  PolicyRulesDB.resolveDetailed toolName rules = None /\
  ApprovalsDB.get id approvals = None /\
  ApprovalsDB.getPending approvals = [] /\
  AdminStore.get admin = mkAdminState None /\
  (* the operations that write *)
  (let row := mkTask id toolName args originalArgs pending_approval None None
                action None now None None None in
   target (writeTmp tasks [row]) = target tasks /\
   TasksDB.create id now toolName args originalArgs action tasks =
     (mkFile (Some (Parsed [row])) None, row)) /\
  (Js.timeClip now = Some now ->
   Js.timeClip (now + seconds * 1000)%Z = Some (now + seconds * 1000)%Z ->
   GrantsDB.create id now pattern seconds grants =
     Returned
       (mkFile (Some (Parsed [mkGrant id pattern (Some now)
                                (Some (now + seconds * 1000)%Z)])) None,
        mkGrant id pattern (Some now) (Some (now + seconds * 1000)%Z)) /\
   ApprovalsDB.create id now toolName args seconds approvals =
     Returned
       (mkFile (Some (Parsed [mkApproval id toolName args approval_pending None
                                now (now + seconds * 1000)%Z None])) None,
        mkApproval id toolName args approval_pending None
          now (now + seconds * 1000)%Z None)) /\
  (Js.timeClip now = None \/ Js.timeClip (now + seconds * 1000)%Z = None ->
   GrantsDB.create id now pattern seconds grants = Thrown "Invalid time value" /\
   ApprovalsDB.create id now toolName args seconds approvals =
     Thrown "Invalid time value") /\
  PolicyRulesDB.upsert id now pattern action rules =
    mkFile (Some (Parsed [mkRule id pattern action now])) None /\
  PolicyRulesDB.remove id rules = mkFile (Some (Parsed [])) None /\
  GrantsDB.revoke id grants = (mkFile (Some (Parsed [])) None, false) /\
  GrantsDB.revokeAll grants = (mkFile (Some (Parsed [])) None, 0%nat) /\
  (* start-up writes the empty documents over the three files it checks *)
  (forall d, approvalsJson d = approvals -> grantsJson d = grants ->
             rulesJson d = rules ->
     approvalsJson (initStorage d) = mkFile (Some (Parsed [])) None /\
     grantsJson (initStorage d) = mkFile (Some (Parsed [])) None /\
     rulesJson (initStorage d) = mkFile (Some (Parsed [])) None) /\
  (* the operations that look a task up first leave the file *)
  (forall status message result messageId,
     TasksDB.updateStatus id status now tasks = tasks /\
     TasksDB.setResult id result now tasks = tasks /\
     TasksDB.setError id message now tasks = tasks /\
     TasksDB.setTelegramMessageId id messageId tasks = tasks /\
     TasksDB.markChecked id now tasks = tasks).
Proof.
  intros Ht Hg Hr Hp Ha.
  unfold TasksDB.get, TasksDB.listPending, GrantsDB.hasActiveGrant,
    PolicyRulesDB.resolveDetailed, AdminStore.get, TasksDB.create,
    GrantsDB.create, PolicyRulesDB.upsert, PolicyRulesDB.remove,
    GrantsDB.revoke, GrantsDB.revokeAll,
    TasksDB.updateStatus, TasksDB.setResult, TasksDB.setError,
    TasksDB.setTelegramMessageId, TasksDB.markChecked, TasksDB.mutate,
    ApprovalsDB.get, ApprovalsDB.getPending, ApprovalsDB.create.
  rewrite !(readJsonFile_unreadable tasks) by assumption.
  rewrite !(readJsonFile_unreadable grants) by assumption.
  rewrite !(readJsonFile_unreadable rules) by assumption.
  rewrite !(readJsonFile_unreadable approvals) by assumption.
  rewrite !(readJsonFile_unreadable admin) by assumption.
  do 8 (split; [reflexivity|]).
  split; [split; reflexivity|].
  split; [intros -> ->; split; reflexivity|].
  split.
  { intros [-> | E]; [split; reflexivity|].
    rewrite E. destruct (Js.timeClip now); split; reflexivity. }
  do 4 (split; [reflexivity|]).
  split.
  - intros d E1 E2 E3. unfold initStorage.
    cbn [approvalsJson grantsJson rulesJson
         set_approvalsJson set_grantsJson set_rulesJson].
    rewrite E1, E2, E3, !readJsonFile_unreadable by assumption.
    repeat split; reflexivity.
  - intros. repeat split; reflexivity.
Qed.

Lemma corrupt_file_reads_empty_and_is_replaced_witness :
  TasksDB.create "id-1" 7 "fs/read" JNull JNull require_approval garbage =
    (mkFile (Some (Parsed [mkTask "id-1" "fs/read" JNull JNull pending_approval
                             None None require_approval None 7 None None None]))
       None,
     mkTask "id-1" "fs/read" JNull JNull pending_approval
       None None require_approval None 7 None None None) /\
  GrantsDB.create "id-1" 7 "fs/*" 60 garbage =
    Returned
      (mkFile (Some (Parsed [mkGrant "id-1" "fs/*" (Some 7%Z) (Some 60007%Z)]))
         None,
       mkGrant "id-1" "fs/*" (Some 7%Z) (Some 60007%Z)) /\
  TasksDB.setError "id-1" "boom" 7 garbage = garbage.
Proof.
  pose proof (corrupt_file_reads_empty_and_is_replaced
                garbage garbage garbage garbage garbage
                "id-1" "fs/read" "fs/*" 7 60 JNull JNull require_approval
                (or_intror eq_refl) (or_intror eq_refl) (or_intror eq_refl)
                (or_intror eq_refl) (or_intror eq_refl))
    as (_ & _ & _ & _ & _ & _ & _ & _ & (_ & C) & G & _ & _ & _ & _ & _ & _ & M).
  split; [exact C|]. split.
  - exact (proj1 (G eq_refl eq_refl)).
  - exact (proj1 (proj2 (proj2 (M error "boom" JNull 0%Z)))).
Defined.

End FileStoreFacts.

(* ===================================================================== *)
(** * The tasks store and the state machine *)
(* ===================================================================== *)

(** The router does not touch the disk. *)
Lemma callTool_frame_disk env name args w :
  disk (fst (Router.callTool env name args w)) = disk w.
Proof.
  unfold Router.callTool. run.
  destruct (Router.parseNamespace name) as [[mcp tool]|e]; [|reflexivity].
  destruct (getClient env mcp) as [client|]; [|reflexivity].
  run. destruct (client tool args); reflexivity.
Qed.

Section TaskTransitions.

Import TasksDB.

Lemma TaskStatus_eqb_eq a b : TaskStatus_eqb a b = true <-> a = b.
Proof. destruct a, b; simpl; split; congruence. Qed.

Lemma TaskStatus_eqb_neq a b : TaskStatus_eqb a b = false <-> a <> b.
Proof. destruct a, b; simpl; split; congruence. Qed.

Lemma find_mutateFirst {A} (p : A -> bool) (g : A -> A) l x :
  List.find p l = Some x -> p (g x) = true ->
  List.find p (Js.mutateFirst p g l) = Some (g x).
Proof.
  induction l as [|y l IH]; simpl; [discriminate|].
  destruct (p y) eqn:E.
  - intros [= ->] Hg. simpl. now rewrite Hg.
  - intros H Hg. simpl. rewrite E. now apply IH.
Qed.

Lemma find_hasId id l t : List.find (hasId id) l = Some t -> task_id t = id.
Proof.
  intros H. apply find_some in H as [_ H]. now apply String.eqb_eq in H.
Qed.

(** A mutator that keeps the id is seen by the next [get]. *)
Lemma get_mutate id change f t :
  get id f = Some t -> task_id (change t) = task_id t ->
  get id (mutate id change f) = Some (change t).
Proof.
  unfold get, mutate, Js.find. intros H Hid. rewrite H.
  rewrite readJsonFile_written. apply find_mutateFirst; [assumption|].
  unfold hasId. rewrite Hid. apply String.eqb_eq. eapply find_hasId; eauto.
Qed.

Lemma mutate_unknown id change f : get id f = None -> mutate id change f = f.
Proof. unfold get, mutate, Js.find. now intros ->. Qed.

(** C2, as stated, fails: the store applies a transition that the state
    machine does not permit, and raises nothing.  A denied task is completed
    by [setResult], reopened by [updateStatus], and failed by [setError]. *)
Lemma tasks_store_accepts_disallowed_transition :
  let f := mkFile (Some (Parsed [deniedTask])) None in
  permitted denied completed = false /\
  option_map task_status (get "t1" (setResult "t1" (JStr "done") 5 f))
    = Some completed /\
  permitted denied pending_approval = false /\
  option_map task_status (get "t1" (updateStatus "t1" pending_approval 5 f))
    = Some pending_approval /\
  permitted denied error = false /\
  option_map task_status (get "t1" (setError "t1" "late" 5 f)) = Some error.
Proof. repeat split; reflexivity. Qed.

(** C2, amended. The tasks store checks no transition.  On a task that
    exists, [updateStatus] stores the status it is given, [setResult] stores
    [completed] with the result and [setError] stores [error] with the
    message, whatever the status was; on an unknown id the three leave the
    file as it is.  Nothing is raised in either case.  The state machine is
    kept by the caller: the decision handler of the approval channel writes
    to the disk only for a task whose status is [pending-approval]. *)
Theorem tasks_store_applies_every_transition
    (f : file (list Task)) (id : string) :
  (forall t, get id f = Some t ->
     (forall s now,
        option_map task_status (get id (updateStatus id s now f)) = Some s) /\
     (forall r now,
        exists t', get id (setResult id r now f) = Some t' /\
          task_status t' = completed /\ task_result t' = Some r /\
          task_executedAt t' = Some now) /\
     (forall e now,
        exists t', get id (setError id e now f) = Some t' /\
          task_status t' = error /\ task_error t' = Some e /\
          task_executedAt t' = Some now) /\
     (forall env cfg chat d w,
        task_status t <> pending_approval ->
        TelegramBot.decide env cfg chat t id d w =
          (set_outbox w
             (outbox w ++ [(chat, CallbackAnswer "Task already processed")]),
           Returned tt))) /\
  (get id f = None ->
     forall now,
       (forall s, updateStatus id s now f = f) /\
       (forall r, setResult id r now f = f) /\
       (forall e, setError id e now f = f)).
Proof.
  split.
  - intros t Ht. repeat split.
    + intros s now. unfold updateStatus.
      erewrite get_mutate; [|eassumption|].
      * simpl. destruct (TaskStatus_eqb s approved_queued),
          (TaskStatus_eqb s executing); reflexivity.
      * destruct (TaskStatus_eqb s approved_queued),
          (TaskStatus_eqb s executing); reflexivity.
    + intros r now. eexists. unfold setResult.
      erewrite get_mutate; [|eassumption|reflexivity].
      repeat split; reflexivity.
    + intros e now. eexists. unfold setError.
      erewrite get_mutate; [|eassumption|reflexivity].
      repeat split; reflexivity.
    + intros env cfg chat d w H. unfold TelegramBot.decide.
      apply TaskStatus_eqb_neq in H. rewrite H. reflexivity.
  - intros Hn now. repeat split; intros;
      unfold updateStatus, setResult, setError; now apply mutate_unknown.
Qed.

Lemma tasks_store_applies_every_transition_witness :
  option_map task_status
    (get "t1" (updateStatus "t1" executing 9
                 (mkFile (Some (Parsed [deniedTask])) None)))
  = Some executing.
Proof.
  exact (proj1 (proj1 (tasks_store_applies_every_transition
                         (mkFile (Some (Parsed [deniedTask])) None) "t1")
                  deniedTask eq_refl) executing 9%Z).
Defined.

(** What the decision handler does with a task that is pending: a denial
    leaves it [denied]; an approval takes it through [approved-queued] and
    [executing] to [completed] or [error]. *)
Lemma decision_on_pending_task env cfg chat t id w :
  get id (tasksJson (disk w)) = Some t ->
  task_status t = pending_approval ->
  option_map task_status
    (get id (tasksJson (disk (fst (TelegramBot.decide env cfg chat t id
                                     TelegramBot.Deny w))))) = Some denied /\
  exists s,
    option_map task_status
      (get id (tasksJson (disk (fst (TelegramBot.decide env cfg chat t id
                                       TelegramBot.Approve w))))) = Some s /\
    (s = completed \/ s = error).
Proof.
  intros Hget Hs. unfold TelegramBot.decide. rewrite Hs.
  cbn [TaskStatus_eqb negb]. split.
  - unfold reply. run. unfold updateStatus.
    erewrite get_mutate; [reflexivity|eassumption|reflexivity].
  - unfold reply, TelegramBot.detached, TelegramBot.executeApprovedTask. run.
    set (f1 := updateStatus id approved_queued (clock w) (tasksJson (disk w))).
    assert (H1 : exists t1, get id f1 = Some t1) by
      (eexists; unfold f1, updateStatus;
       erewrite get_mutate; [reflexivity|eassumption|reflexivity]).
    destruct H1 as (t1 & H1). rewrite H1. run.
    set (f2 := updateStatus id executing (clock w) f1).
    assert (H2 : exists t2, get id f2 = Some t2) by
      (eexists; unfold f2, updateStatus;
       erewrite get_mutate; [reflexivity|eassumption|reflexivity]).
    destruct H2 as (t2 & H2).
    match goal with
    | |- context [Router.callTool ?e ?n ?a ?w0] =>
        pose proof (callTool_frame_disk e n a w0) as Hd;
        destruct (Router.callTool e n a w0) as [w3 [result|message]]
    end; cbn [fst] in Hd; run; unfold TelegramBot.notifyAdmin, reply; run.
    + exists completed. split; [|now left].
      destruct (String.eqb (adminChatId w3) ""); run; rewrite Hd; run;
        unfold setResult; erewrite get_mutate;
          [reflexivity|eassumption|reflexivity
          |reflexivity|eassumption|reflexivity].
    + exists error. split; [|now right].
      destruct (String.eqb (adminChatId w3) ""); run; rewrite Hd; run;
        unfold setError; erewrite get_mutate;
          [reflexivity|eassumption|reflexivity
          |reflexivity|eassumption|reflexivity].
Qed.

End TaskTransitions.

(* ===================================================================== *)
(** * Admin pairing *)
(* ===================================================================== *)

Section Pairing.

Import TelegramBot.

(** C9, as stated, fails: after chat 111 has paired, a [/pair] with the right
    secret from chat 222 makes 222 the admin, and 111 is turned away. *)
Lemma pair_again_replaces_admin :
  let w := fst (onPair secretConfig (Some "111") "/pair s3cret" (pairedWorld "")) in
  let w' := fst (onPair secretConfig (Some "222") "/pair s3cret" w) in
  adminChatId w = "111" /\
  adminChatId w' = "222" /\
  AdminStore.get (adminJson (disk w')) = mkAdminState (Some "222") /\
  snd (isAdmin (Some "111") w') = Returned false /\
  snd (isAdmin (Some "222") w') = Returned true.
Proof. repeat split; reflexivity. Qed.

Lemma isAdmin_iff chat w :
  snd (isAdmin chat w) = Returned true <->
  adminChatId w <> EmptyString /\ chat = Some (adminChatId w).
Proof.
  unfold isAdmin, bind, gets. simpl.
  destruct (String.eqb (adminChatId w) "") eqn:E.
  - apply String.eqb_eq in E. simpl. split; [discriminate|]. intros [H _]. congruence.
  - apply String.eqb_neq in E. destruct chat as [c|]; simpl.
    + destruct (String.eqb c (adminChatId w)) eqn:E2; simpl.
      * apply String.eqb_eq in E2. subst. split; auto.
      * apply String.eqb_neq in E2. split; [discriminate|].
        intros [_ [= ->]]. congruence.
    + split; [discriminate|]. intros [_ H]. discriminate.
Qed.

(** C9, amended. Pairing is gated by the shared secret alone, and is not
    limited to one time: a [/pair] that presents the configured, non-empty
    secret from a chat whose id can be read makes that chat the admin, in
    memory and in admin.json, whatever was paired before; any other [/pair]
    leaves the pairing as it is.  Authorization is bound to the chat that is
    paired at the moment: [isAdmin] holds exactly for it. *)
Theorem pair_follows_the_secret (cfg : Config) (chat : option string)
    (text : string) (w : World) :
  let code := trim (afterFirst " "%char text) in
  let w' := fst (onPair cfg chat text w) in
  (forall c,
     pairingCode cfg <> EmptyString -> code = pairingCode cfg ->
     readable chat = Some c ->
     adminChatId w' = c /\
     adminJson (disk w') = mkFile (Some (Parsed (mkAdminState (Some c)))) None /\
     (forall other, snd (isAdmin other w') = Returned true <-> other = Some c)) /\
  (pairingCode cfg = EmptyString \/ code <> pairingCode cfg \/ readable chat = None ->
     adminChatId w' = adminChatId w /\ disk w' = disk w).
Proof.
  cbv zeta. unfold onPair. split.
  - intros c Hne Hcode Hc.
    apply String.eqb_neq in Hne. rewrite Hne.
    rewrite Hcode, Hne, String.eqb_refl, Hc. simpl.
    repeat split; try reflexivity.
    + intros H. apply isAdmin_iff in H. simpl in H. tauto.
    + intros ->. apply isAdmin_iff. simpl. split; [|reflexivity].
      unfold readable in Hc. destruct chat as [x|]; [|discriminate].
      destruct (String.eqb x "") eqn:E; [discriminate|].
      injection Hc as ->. now apply String.eqb_neq.
  - intros H.
    destruct (String.eqb (pairingCode cfg) "") eqn:E1; [split; reflexivity|].
    destruct (String.eqb (trim (afterFirst " " text)) "") eqn:E2;
      [split; reflexivity|].
    destruct (String.eqb (trim (afterFirst " " text)) (pairingCode cfg)) eqn:E3;
      [|split; reflexivity].
    simpl. destruct (readable chat) eqn:E4; [|split; reflexivity].
    exfalso. apply String.eqb_neq in E1. apply String.eqb_eq in E3.
    destruct H as [H | [H | H]]; congruence.
Qed.

Lemma pair_follows_the_secret_witness :
  adminChatId (fst (onPair secretConfig (Some "222") "/pair s3cret"
                      (pairedWorld "111"))) = "222" /\
  adminChatId (fst (onPair secretConfig (Some "222") "/pair guess"
                      (pairedWorld "111"))) = "111".
Proof.
  split.
  - refine (proj1 (proj1 (pair_follows_the_secret secretConfig (Some "222")
                            "/pair s3cret" (pairedWorld "111"))
                     "222" _ eq_refl eq_refl)).
    discriminate.
  - refine (proj1 (proj2 (pair_follows_the_secret secretConfig (Some "222")
                            "/pair guess" (pairedWorld "111")) _)).
    right; left. discriminate.
Defined.

End Pairing.

(* ===================================================================== *)
(** * The request pipeline *)
(* ===================================================================== *)

Section Pipeline.

Import MCPHandler.

Lemma PolicyAction_eqb_eq a b : PolicyAction_eqb a b = true <-> a = b.
Proof. destruct a, b; simpl; split; congruence. Qed.

Lemma includes_app needle a b :
  JsString.includes needle b = true -> JsString.includes needle (a ++ b) = true.
Proof.
  intros H. induction a as [|c a IH]; [assumption|].
  simpl. rewrite IH. apply orb_true_r.
Qed.

Lemma deniedMessage_says_denied name :
  JsString.includes "denied by policy" (deniedMessage name) = true.
Proof.
  unfold deniedMessage. apply includes_app. apply includes_app. reflexivity.
Qed.

(** C5, as stated, fails: while no admin chat is paired the bot drops the
    notice, so a denied call is audited and refused but no notification is
    enqueued. *)
Lemma deny_unpaired_enqueues_nothing :
  let r := executeToolPipeline sampleEnv denyConfig "filesystem/delete_file"
             JNull (pairedWorld "") in
  respond (snd r) =
    mkResponse None
      (Some ((-32603)%Z, "Tool filesystem/delete_file is denied by policy")) /\
  List.length (auditNdjson (disk (fst r))) = 1%nat /\
  noticeQueue (fst r) = [].
Proof. repeat split; reflexivity. Qed.

(** C5, amended. For every call whose resolved action is [deny] the pipeline
    dispatches nothing to a backend and creates no task, throws an error
    whose message contains "denied by policy", and appends exactly one audit
    record, with the error set and no approval status.  If the handler has a
    bot and an admin chat is paired, exactly one notice with status
    [blocked] is enqueued; otherwise none is. *)
Theorem deny_path (env : Env) (cfg : Config) (name : string) (args : json)
    (w : World) :
  let policy := PolicyEngine.checkPolicyDetailed (policyEngine cfg)
                  (rulesJson (disk w)) name in
  let hasGrant := GrantsDB.hasActiveGrant (clock w) name (grantsJson (disk w)) in
  let w' := fst (executeToolPipeline env cfg name args w) in
  PolicyEngine.action policy = deny ->
  respond (snd (executeToolPipeline env cfg name args w)) =
    mkResponse None (Some ((-32603)%Z, deniedMessage name)) /\
  JsString.includes "denied by policy" (deniedMessage name) = true /\
  dispatched w' = dispatched w /\
  tasksJson (disk w') = tasksJson (disk w) /\
  auditNdjson (disk w') =
    (auditNdjson (disk w) ++
     [mkAudit (clock w) name args None (Some deny) None
        (Some (deniedMessage name))])%list /\
  noticeQueue w' =
    if hasTelegramBot cfg && negb (String.eqb (adminChatId w) "")
    then (noticeQueue w ++
          [Notice.mkNotice Notice.blocked name deny
             (Some (PolicyEngine.source policy)) (PolicyEngine.pattern policy)
             (PolicyEngine.ruleId policy) hasGrant false args None
             (Some (deniedMessage name)) (clock w)])%list
    else noticeQueue w.
Proof.
  intros policy hasGrant w' H. subst w'. unfold executeToolPipeline.
  fold policy. run. fold policy. rewrite H. run.
  split; [|split; [apply deniedMessage_says_denied|]].
  - destruct (hasTelegramBot cfg); [|reflexivity]. run.
    destruct (String.eqb (adminChatId w) ""); reflexivity.
  - destruct (hasTelegramBot cfg); [|repeat split; reflexivity]. run.
    destruct (String.eqb (adminChatId w) ""); repeat split; reflexivity.
Qed.

Lemma deny_path_witness :
  noticeQueue (fst (executeToolPipeline sampleEnv denyConfig
                      "filesystem/delete_file" JNull (pairedWorld "111"))) =
  [Notice.mkNotice Notice.blocked "filesystem/delete_file" deny
     (Some PolicyEngine.config_exact) (Some "filesystem/delete_file") None
     false false JNull None
     (Some "Tool filesystem/delete_file is denied by policy") 0].
Proof.
  exact (proj2 (proj2 (proj2 (proj2 (proj2
           (deny_path sampleEnv denyConfig "filesystem/delete_file" JNull
              (pairedWorld "111") eq_refl)))))).
Defined.

(** C4. When a call is parked for approval (the action is
    [require-approval] and no grant is active) and the approval request
    cannot be sent, the task that was created is moved to [error], nothing
    is dispatched, and the caller still gets, as a result and not as an
    error, the pending reply: the one text whose object has the status
    [pending-approval], the task id, the tool name and the message that
    names the task id.  Polling [portero/check_task] with that id then
    answers with the status object of the task: its id, the status
    [error], the tool name, the times, and the error. *)
Theorem approval_send_failure (env : Env) (cfg : Config) (name : string)
    (args : json) (w : World) :
  let policy := PolicyEngine.checkPolicyDetailed (policyEngine cfg)
                  (rulesJson (disk w)) name in
  let id := uuidv4 env (uuids w) in
  let realArgs := Anonymizer.anonymizeRequest (replacements cfg) args in
  let failed := mkTask id name realArgs args error None
                  (Some "Failed to send Telegram approval request")
                  require_approval None (clock w) None (Some (clock w)) None in
  let r := executeToolPipeline env cfg name args w in
  let quote := String (ascii_of_nat 34) EmptyString in
  let oneText := fun text : string =>
    JObj [("content", JArr [JObj [("type", JStr "text"); ("text", JStr text)]])] in
  PolicyEngine.action policy = require_approval ->
  GrantsDB.hasActiveGrant (clock w) name (grantsJson (disk w)) = false ->
  sendFails env w id name args ->
  id <> EmptyString ->
  respond (snd r) =
    mkResponse
      (Some (oneText (stringify env
         (JObj [("status", JStr "pending-approval");
                ("taskId", JStr id);
                ("toolName", JStr name);
                ("message",
                 JStr ("Approval requested via Telegram. Use portero/check_task with task_id="
                       ++ quote ++ id ++ quote ++ " to check the result."))]))))
      None /\
  TasksDB.get id (tasksJson (disk (fst r))) = Some failed /\
  dispatched (fst r) = dispatched w /\
  snd (handleCheckTask env (Some (JObj [("task_id", JStr id)])) (fst r)) =
    Returned
      (oneText (stringify env
         (JObj [("task_id", JStr id);
                ("status", JStr "error");
                ("toolName", JStr name);
                ("createdAt", JStr (toISOString env (clock w)));
                ("executedAt", JStr (toISOString env (clock w)));
                ("error", JStr "Failed to send Telegram approval request");
                ("message",
                 JStr "Task failed: Failed to send Telegram approval request")]))).
Proof.
  intros policy id realArgs failed r quote oneText Hact Hgrant Hsend Hid.
  assert (Hrun :
    r = (set_disk (set_uuids w (S (uuids w)))
           (set_tasksJson (disk w)
              (TasksDB.setError id SEND_FAILED (clock w)
                 (fst (TasksDB.create id (clock w) name realArgs args
                         require_approval (tasksJson (disk w)))))),
         Returned (textReply (stringify env (pendingPayload id name))))).
  { subst r. unfold executeToolPipeline. fold policy. run. fold policy.
    rewrite Hact, Hgrant. run.
    unfold ApprovalGate.requestApproval, TelegramBot.sendApprovalRequest. run.
    fold id. fold realArgs.
    destruct (String.eqb (adminChatId w) "") eqn:E.
    - run. reflexivity.
    - destruct Hsend as [Hs | (e & Hs)].
      + rewrite Hs in E. discriminate.
      + run. fold id. rewrite Hs. run. reflexivity. }
  assert (Hget : TasksDB.get id (tasksJson (disk (fst r))) = Some failed).
  { rewrite Hrun. run. unfold TasksDB.setError, TasksDB.create.
    cbn [fst].
    rewrite (get_mutate id _ _
               (mkTask id name realArgs args pending_approval None None
                  require_approval None (clock w) None None None)).
    - reflexivity.
    - unfold TasksDB.get, Js.find. rewrite readJsonFile_written.
      simpl. unfold TasksDB.hasId at 1. simpl. rewrite String.eqb_refl. reflexivity.
    - reflexivity. }
  split; [|split; [|split]].
  - rewrite Hrun. reflexivity.
  - exact Hget.
  - rewrite Hrun. reflexivity.
  - unfold handleCheckTask. cbn [taskIdOf Js.getField String.eqb Ascii.eqb Bool.eqb].
    cbn [Js.truthy]. apply String.eqb_neq in Hid. rewrite Hid. run.
    rewrite Hget. run. reflexivity.
Qed.

Lemma approval_send_failure_witness :
  respond (snd (executeToolPipeline sampleEnv approvalConfig
                  "github/create_pull_request" JNull (pairedWorld ""))) =
  mkResponse
    (Some (JObj [("content",
                  JArr [JObj [("type", JStr "text");
                              ("text",
                               JStr (show
                                 (JObj [("status", JStr "pending-approval");
                                        ("taskId", JStr "A-uuid");
                                        ("toolName", JStr "github/create_pull_request");
                                        ("message",
                                         JStr ("Approval requested via Telegram. Use portero/check_task with task_id="
                                               ++ String (ascii_of_nat 34) "A-uuid"
                                               ++ String (ascii_of_nat 34)
                                                    " to check the result."))])))]])]))
    None.
Proof.
  refine (proj1 (approval_send_failure sampleEnv approvalConfig
                   "github/create_pull_request" JNull (pairedWorld "")
                   eq_refl eq_refl (or_introl eq_refl) _)).
  discriminate.
Defined.

Lemma anyGrant_In now name grants g :
  In g grants -> GrantsDB.grantCovers now name g = true ->
  GrantsDB.anyGrant now name grants = true.
Proof.
  induction grants as [|h rest IH]; simpl; [contradiction|].
  intros [-> | Hin] Hc.
  - now rewrite Hc.
  - destruct (GrantsDB.grantCovers now name h); [reflexivity | now apply IH].
Qed.

(** A grant is used exactly when it is active ([now < expiresAt]) and its
    pattern matches. *)
Lemma hasActiveGrant_iff now name f :
  GrantsDB.hasActiveGrant now name f = true <->
  exists g expiresAt,
    In g (readJsonFile f []) /\ grant_expiresAt g = Some expiresAt /\
    (now < expiresAt)%Z /\ Pattern.matchesPattern name (grant_pattern g) = true.
Proof.
  unfold GrantsDB.hasActiveGrant. split.
  - induction (readJsonFile f []) as [|h rest IH]; simpl; [discriminate|].
    destruct (GrantsDB.grantCovers now name h) eqn:E.
    + intros _. unfold GrantsDB.grantCovers in E.
      destruct (grant_expiresAt h) as [e|] eqn:Ee; [|discriminate].
      apply andb_true_iff in E as [E1 E2]. apply Z.ltb_lt in E1.
      exists h, e. auto.
    + intros H. destruct (IH H) as (g & e & Hin & He & Hlt & Hm).
      exists g, e. auto.
  - intros (g & e & Hin & He & Hlt & Hm). eapply anyGrant_In; [exact Hin|].
    unfold GrantsDB.grantCovers. rewrite He, Hm.
    apply Z.ltb_lt in Hlt. now rewrite Hlt.
Qed.

(** The router touches nothing but the log of dispatches. *)
Lemma callTool_frame env name args w :
  let w1 := fst (Router.callTool env name args w) in
  disk w1 = disk w /\ adminChatId w1 = adminChatId w /\ uuids w1 = uuids w /\
  noticeQueue w1 = noticeQueue w /\ clock w1 = clock w.
Proof.
  unfold Router.callTool. run.
  destruct (Router.parseNamespace name) as [[mcp tool]|e]; [|repeat split].
  destruct (getClient env mcp) as [client|]; [|repeat split].
  run. destruct (client tool args); repeat split.
Qed.

Lemma callTool_connected env name args w mcp tool client :
  Router.parseNamespace name = Returned (mcp, tool) ->
  getClient env mcp = Some client ->
  Router.callTool env name args w =
    (set_dispatched w (dispatched w ++ [mkDispatch mcp tool args]),
     client tool args).
Proof.
  intros Hp Hc. unfold Router.callTool. run. rewrite Hp, Hc. run.
  destruct (client tool args); reflexivity.
Qed.

(** C6. When the resolved action is [require-approval] and some grant whose
    pattern matches the tool name expires strictly after now, no task is
    created: the call goes to the router with the anonymized arguments, and
    the reply is the backend's result, deanonymized (or the router's error,
    as for an allowed call). *)
Theorem active_grant_skips_approval (env : Env) (cfg : Config) (name : string)
    (args : json) (w : World) (g : GrantRow) (expiresAt : Z) :
  let policy := PolicyEngine.checkPolicyDetailed (policyEngine cfg)
                  (rulesJson (disk w)) name in
  let realArgs := Anonymizer.anonymizeRequest (replacements cfg) args in
  let routed := Router.callTool env name realArgs w in
  let r := executeToolPipeline env cfg name args w in
  PolicyEngine.action policy = require_approval ->
  In g (readJsonFile (grantsJson (disk w)) []) ->
  grant_expiresAt g = Some expiresAt ->
  (clock w < expiresAt)%Z ->
  Pattern.matchesPattern name (grant_pattern g) = true ->
  snd r = match snd routed with
          | Returned result =>
              Returned (Anonymizer.deanonymizeResponse (replacements cfg) result)
          | Thrown e => Thrown e
          end /\
  dispatched (fst r) = dispatched (fst routed) /\
  tasksJson (disk (fst r)) = tasksJson (disk w) /\
  uuids (fst r) = uuids w /\
  (forall mcp tool client,
     Router.parseNamespace name = Returned (mcp, tool) ->
     getClient env mcp = Some client ->
     dispatched (fst r) = (dispatched w ++ [mkDispatch mcp tool realArgs])%list /\
     snd routed = client tool realArgs).
Proof.
  intros policy realArgs routed r Hact Hin Hexp Hlt Hm.
  assert (Hgrant : GrantsDB.hasActiveGrant (clock w) name (grantsJson (disk w)) = true).
  { unfold GrantsDB.hasActiveGrant. eapply anyGrant_In; [exact Hin|].
    unfold GrantsDB.grantCovers. rewrite Hexp, Hm.
    apply Z.ltb_lt in Hlt. now rewrite Hlt. }
  pose proof (callTool_frame env name realArgs w) as Hframe. cbv zeta in Hframe.
  fold routed in Hframe. destruct Hframe as (Hd & Ha & Hu & Hq & Hc).
  assert (Hmain :
    snd r = match snd routed with
            | Returned result =>
                Returned (Anonymizer.deanonymizeResponse (replacements cfg) result)
            | Thrown e => Thrown e
            end /\
    dispatched (fst r) = dispatched (fst routed) /\
    tasksJson (disk (fst r)) = tasksJson (disk w) /\
    uuids (fst r) = uuids w).
  { subst r. unfold executeToolPipeline. fold policy. run. fold policy.
    rewrite Hact, Hgrant. run. fold realArgs. fold routed.
    destruct routed as [w1 [result|e]]; cbn [fst snd] in *; run.
    - destruct (hasTelegramBot cfg); run.
      + destruct (String.eqb (adminChatId w1) ""); run;
          rewrite ?Hd, ?Hu; repeat split; reflexivity.
      + rewrite ?Hd, ?Hu; repeat split; reflexivity.
    - destruct (hasTelegramBot cfg); run.
      + destruct (String.eqb (adminChatId w1) ""); run;
          rewrite ?Hd, ?Hu; repeat split; reflexivity.
      + rewrite ?Hd, ?Hu; repeat split; reflexivity. }
  destruct Hmain as (H1 & H2 & H3 & H4).
  repeat split; try assumption.
  - rewrite H2. subst routed. now rewrite (callTool_connected _ _ _ _ _ _ _ H H0).
  - subst routed. now rewrite (callTool_connected _ _ _ _ _ _ _ H H0).
Qed.

Lemma active_grant_skips_approval_witness :
  let r := executeToolPipeline sampleEnv guardedConfig "filesystem/write_file"
             (JStr "John Doe") grantedWorld in
  snd r = Returned (JObj [("echo", JStr "John Doe")]) /\
  dispatched (fst r) = [mkDispatch "filesystem" "write_file" (JStr "Jane Real")] /\
  tasksJson (disk (fst r)) = absent.
Proof.
  pose proof (active_grant_skips_approval sampleEnv guardedConfig
                "filesystem/write_file" (JStr "John Doe") grantedWorld
                (mkGrant "g1" "filesystem/*" (Some 0%Z) (Some 600000%Z)) 600000
                eq_refl (or_introl eq_refl) eq_refl eq_refl eq_refl)
    as (H1 & H2 & H3 & _).
  intros r. exact (conj H1 (conj H2 H3)).
Defined.

(** C8, as stated, fails: for a completed task whose stored result is falsy
    (here [null], the reply of a backend that answered [null]) the call
    answers with the status object, not with the stored result; and an empty
    task id is refused with an error, not with "Task not found". *)
Lemma check_task_completed_falsy_result :
  snd (handleCheckTask sampleEnv (checkArgs "t9") (worldWith [completedNull])) =
    Returned
      (JObj [("content",
              JArr [JObj [("type", JStr "text");
                          ("text",
                           JStr (show
                             (JObj [("task_id", JStr "t9");
                                    ("status", JStr "completed");
                                    ("toolName", JStr "github/list_issues");
                                    ("createdAt", JStr "1970-01-01T00:00:00.000Z");
                                    ("approvedAt", JStr "1970-01-01T00:00:00.000Z");
                                    ("executedAt", JStr "1970-01-01T00:00:00.000Z")])))]])]) /\
  task_status completedNull = completed /\
  task_result completedNull = Some JNull /\
  snd (handleCheckTask sampleEnv (checkArgs "t9") (worldWith [completedNull])) <>
    Returned JNull /\
  snd (handleCheckTask sampleEnv (checkArgs "") (worldWith [completedNull])) =
    Thrown ("portero/check_task requires a " ++ String (ascii_of_nat 34) "task_id"
            ++ String (ascii_of_nat 34) " parameter").
Proof. repeat split; try reflexivity. discriminate. Qed.

(** C8, amended. For a task id that is a non-empty string: if a task with
    that id exists, [portero/check_task] answers with the stored result,
    verbatim, when the status is [completed] and the result is truthy, and
    otherwise with one text, the status object holding the task id, the
    status, the tool name and the creation time (and the approval and
    execution times when they are set, the error when there is one, and a
    message that goes with the status); in both cases [checkedAt] is
    recorded.  If no task has that id the answer is one text, the object
    with the error "Task not found" and the id asked for, not an error, and
    nothing is written. *)
Theorem check_task_reply (env : Env) (id : string) (w : World) :
  let r := handleCheckTask env (checkArgs id) w in
  let oneText := fun text : string =>
    JObj [("content", JArr [JObj [("type", JStr "text"); ("text", JStr text)]])] in
  let optional := fun (key : string) (v : option string) =>
    match v with Some text => [(key, JStr text)] | None => [] end in
  let statusText := fun s : TaskStatus =>
    match s with
    | pending_approval => "pending-approval"
    | approved_queued => "approved-queued"
    | executing => "executing"
    | completed => "completed"
    | denied => "denied"
    | error => "error"
    end in
  let envelope := fun t : Task =>
    JObj ([("task_id", JStr (task_id t));
           ("status", JStr (statusText (task_status t)));
           ("toolName", JStr (task_toolName t));
           ("createdAt", JStr (toISOString env (task_createdAt t)))]
          ++ optional "approvedAt" (option_map (toISOString env) (task_approvedAt t))
          ++ optional "executedAt" (option_map (toISOString env) (task_executedAt t))
          ++ optional "error"
               (match task_error t with
                | Some e => if String.eqb e "" then None else Some e
                | None => None
                end)
          ++ optional "message"
               (match task_status t with
                | pending_approval =>
                    Some "Waiting for admin approval via Telegram. Call portero/check_task again later."
                | approved_queued | executing =>
                    Some "Task is being executed. Call portero/check_task again shortly."
                | denied => Some "Task was denied by admin."
                | error =>
                    Some ("Task failed: " ++
                          match task_error t with Some e => e | None => "undefined" end)
                | completed => None
                end)) in
  id <> EmptyString ->
  (forall t, TasksDB.get id (tasksJson (disk w)) = Some t ->
     (forall result,
        task_status t = completed -> task_result t = Some result ->
        Js.truthy result = true -> snd r = Returned result) /\
     (task_status t <> completed \/ task_result t = None \/
      (exists v, task_result t = Some v /\ Js.truthy v = false) ->
      snd r = Returned (oneText (stringify env (envelope t)))) /\
     fieldOf "task_id" (envelope t) = Some (JStr (task_id t)) /\
     fieldOf "status" (envelope t) = Some (JStr (statusText (task_status t))) /\
     fieldOf "toolName" (envelope t) = Some (JStr (task_toolName t)) /\
     fieldOf "createdAt" (envelope t) =
       Some (JStr (toISOString env (task_createdAt t))) /\
     fieldOf "approvedAt" (envelope t) =
       option_map (fun d => JStr (toISOString env d)) (task_approvedAt t) /\
     fieldOf "executedAt" (envelope t) =
       option_map (fun d => JStr (toISOString env d)) (task_executedAt t) /\
     TasksDB.get id (tasksJson (disk (fst r))) =
       Some (TasksDB.with_checkedAt (clock w) t)) /\
  (TasksDB.get id (tasksJson (disk w)) = None ->
     snd r = Returned (oneText (stringify env
               (JObj [("error", JStr "Task not found"); ("task_id", JStr id)]))) /\
     fst r = w).
Proof.
  intros r oneText optional statusText envelope Hid.
  subst r. unfold handleCheckTask, checkArgs.
  cbn [taskIdOf Js.getField String.eqb Ascii.eqb Bool.eqb Js.truthy].
  apply String.eqb_neq in Hid. rewrite Hid. run. split.
  - intros t Ht. rewrite Ht. run. repeat split.
    + intros result Hs Hr Htr. unfold hasResult. now rewrite Hs, Hr, Htr.
    + intros H. unfold hasResult.
      destruct (task_status t); try reflexivity.
      destruct H as [H | [H | (v & Hv & Hf)]];
        [congruence | now rewrite H | now rewrite Hv, Hf].
    + subst envelope optional. unfold fieldOf. cbv beta.
      destruct (task_approvedAt t), (task_executedAt t), (task_error t) as [e|];
        try destruct (String.eqb e ""); destruct (task_status t); reflexivity.
    + subst envelope optional. unfold fieldOf. cbv beta.
      destruct (task_approvedAt t), (task_executedAt t), (task_error t) as [e|];
        try destruct (String.eqb e ""); destruct (task_status t); reflexivity.
    + destruct (hasResult t); run;
        unfold TasksDB.markChecked; now apply get_mutate.
  - intros Hn. rewrite Hn. run. split; reflexivity.
Qed.

Lemma check_task_reply_witness :
  snd (handleCheckTask sampleEnv (checkArgs "t7") (worldWith [completedTask])) =
    Returned (JObj [("content", JArr [])]) /\
  snd (handleCheckTask sampleEnv (checkArgs "zz") (worldWith [completedTask])) =
    Returned
      (JObj [("content",
              JArr [JObj [("type", JStr "text");
                          ("text",
                           JStr (show (JObj [("error", JStr "Task not found");
                                             ("task_id", JStr "zz")])))]])]).
Proof.
  split.
  - refine (proj1 (proj1 (check_task_reply sampleEnv "t7"
                            (worldWith [completedTask]) _)
                     completedTask eq_refl)
              (JObj [("content", JArr [])]) eq_refl eq_refl eq_refl).
    discriminate.
  - refine (proj1 (proj2 (check_task_reply sampleEnv "zz"
                            (worldWith [completedTask]) _) eq_refl)).
    discriminate.
Defined.

End Pipeline.

(* ===================================================================== *)
(** * The anonymizer *)
(* ===================================================================== *)

Section AnonymizerFacts.

Import Anonymizer.

Lemma special_is_syntax c :
  isRegExpSpecial c = true -> RegExp.isSyntaxChar c = true.
Proof.
  intros H. apply existsb_eqb_In in H. simpl in H.
  repeat (destruct H as [<-|H]; [reflexivity|]). contradiction.
Qed.

Lemma ordinary_lex c r :
  isRegExpSpecial c = false ->
  RegExp.lex (String c r) =
  option_map (cons (RegExp.TAtom (RegExp.CsLit c))) (RegExp.lex r).
Proof.
  intros He. apply existsb_eqb_notIn in He. simpl in He.
  assert (forall d, In d ["."; "*"; "+"; "?"; "^"; "$"; "{"; "}"; "("; ")"; "|";
                          "["; "]"; "\"]%char -> Ascii.eqb c d = false) as N.
  { intros d Hd. apply Ascii.eqb_neq. intros ->. simpl in Hd.
    repeat (destruct Hd as [<-|Hd]; [tauto|]). contradiction. }
  cbn [RegExp.lex]. unfold RegExp.isUnsupported. cbn [existsb].
  rewrite !N by (simpl; tauto). reflexivity.
Qed.

Lemma quantify_atoms (l : list ascii) :
  RegExp.quantify (map (fun c => RegExp.TAtom (RegExp.CsLit c)) l) =
  Some (map (fun c => RegExp.One (RegExp.CsLit c)) l).
Proof.
  induction l as [|c l IH]; [reflexivity|].
  cbn [map RegExp.quantify]. destruct l as [|d l]; [reflexivity|].
  cbn [map] in *. rewrite IH. reflexivity.
Qed.

(** The regular expression built from an escaped source is the literal
    source, character by character. *)
Lemma escapeRegExp_literal source :
  RegExp.compile (escapeRegExp source) =
  Some (map (fun c => RegExp.One (RegExp.CsLit c)) (list_ascii_of_string source)).
Proof.
  unfold RegExp.compile.
  assert (L : RegExp.lex (escapeRegExp source) =
              Some (map (fun c => RegExp.TAtom (RegExp.CsLit c))
                      (list_ascii_of_string source))).
  { unfold escapeRegExp. induction source as [|c r IH]; [reflexivity|].
    cbn [JsString.escapeClass list_ascii_of_string map].
    destruct (isRegExpSpecial c) eqn:E.
    - cbn [RegExp.lex]. rewrite (special_is_syntax _ E).
      change (Ascii.eqb "\" "\") with true. cbn iota. rewrite IH. reflexivity.
    - rewrite ordinary_lex, IH by assumption. reflexivity. }
  rewrite L. apply quantify_atoms.
Qed.

(** Scenario S5: both directions of a bidirectional rule, and a one-way rule
    with a non-empty replacement; keys are rewritten like values, other
    scalars pass through. *)
Lemma anonymizer_examples :
  anonymizeRequest [johnDoe; oneWayStars]
    (JObj [("name", JStr "John Doe"); ("key", JStr "FAKE_KEY"); ("n", JNum 3)]) =
    JObj [("name", JStr "Jane Real"); ("key", JStr "sk_secret"); ("n", JNum 3)] /\
  deanonymizeResponse [johnDoe; oneWayStars]
    (JObj [("Jane Real", JArr [JStr "sk_secret"; JBool true; JNull])]) =
    JObj [("John Doe", JArr [JStr "***"; JBool true; JNull])].
Proof. split; reflexivity. Qed.

(** C7. The replacement of a one-way rule is chosen with [||], so an empty
    [responseReplacement] counts as missing: the secret is replaced by the
    redaction token, not by the empty string the rule sets. *)
Theorem empty_responseReplacement_is_redacted :
  deanonymizeResponse [oneWayEmpty] (JObj [("key", JStr "id=sk_secret;")]) =
    JObj [("key", JStr "id=***REDACTED***;")] /\
  replaceInValue [oneWayEmpty] "id=sk_secret;" toFake <> "id=;".
Proof. split; [reflexivity | discriminate]. Qed.

End AnonymizerFacts.

(* ===================================================================== *)
(** * Name spaces: aggregator and router *)
(* ===================================================================== *)

Section Namespaces.

Lemma includes_char_cons sep c r :
  JsString.includes (String sep EmptyString) (String c r) =
  Ascii.eqb c sep || JsString.includes (String sep EmptyString) r.
Proof.
  cbn [JsString.includes]. f_equal.
  destruct (Ascii.eqb_spec c sep) as [->|N].
  - rewrite prefix_cons_eq. now destruct r.
  - apply prefix_cons_neq. congruence.
Qed.

Lemma cutAt_app sep a b :
  JsString.includes (String sep EmptyString) a = false ->
  Router.cutAt sep (a ++ String sep b) = Some (a, b).
Proof.
  induction a as [|c a IH]; intros H.
  - simpl. now rewrite Ascii.eqb_refl.
  - rewrite includes_char_cons in H. apply orb_false_iff in H as [H1 H2].
    simpl. rewrite H1, (IH H2). reflexivity.
Qed.

Lemma cutAt_Some sep s a b :
  Router.cutAt sep s = Some (a, b) ->
  s = a ++ String sep b /\ JsString.includes (String sep EmptyString) a = false.
Proof.
  revert a b. induction s as [|c s IH]; intros a b H; [discriminate|].
  simpl in H. destruct (Ascii.eqb_spec c sep) as [->|N].
  - injection H as <- <-. split; reflexivity.
  - destruct (Router.cutAt sep s) as [[a' b']|] eqn:E; [|discriminate].
    injection H as <- <-. destruct (IH _ _ eq_refl) as [-> F]. split; [reflexivity|].
    rewrite includes_char_cons, F.
    destruct (Ascii.eqb_spec c sep); [contradiction|reflexivity].
Qed.

Lemma cutAt_None sep s :
  Router.cutAt sep s = None <-> JsString.includes (String sep EmptyString) s = false.
Proof.
  induction s as [|c s IH].
  - split; reflexivity.
  - rewrite includes_char_cons. simpl.
    destruct (Ascii.eqb c sep); simpl.
    + split; discriminate.
    + rewrite <- IH. destruct (Router.cutAt sep s) as [[? ?]|]; split; congruence.
Qed.

Lemma parseNamespace_join mcp tool :
  JsString.includes "/" mcp = false ->
  Router.parseNamespace (mcp ++ "/" ++ tool) = Returned (mcp, tool).
Proof.
  intros F. unfold Router.parseNamespace.
  change (mcp ++ "/" ++ tool) with (mcp ++ String "/" tool).
  now rewrite (cutAt_app _ _ _ F).
Qed.

(** X1.  [parseNamespace] cuts a name at its first slash: it returns
    [(mcp, tool)] exactly for the names [mcp/tool] in which [mcp] holds no
    slash ([tool] may hold some, and either part may be empty), and it
    throws exactly for the names without a slash. *)
Theorem parseNamespace_first_slash name :
  (forall mcp tool,
     Router.parseNamespace name = Returned (mcp, tool) <->
     name = mcp ++ "/" ++ tool /\ JsString.includes "/" mcp = false) /\
  ((exists e, Router.parseNamespace name = Thrown e) <->
   JsString.includes "/" name = false).
Proof.
  unfold Router.parseNamespace. split.
  - intros mcp tool. split.
    + destruct (Router.cutAt "/" name) as [[a b]|] eqn:E; [|discriminate].
      intros H. injection H as -> ->. now apply cutAt_Some.
    + intros [-> F]. now apply parseNamespace_join.
  - rewrite <- cutAt_None. destruct (Router.cutAt "/" name); split.
    + intros [e H]. discriminate.
    + discriminate.
    + reflexivity.
    + intros _. eexists. reflexivity.
Qed.

Lemma in_aggregateTools t clients :
  In t (Aggregator.aggregateTools clients) <->
  exists mcpName tools tool,
    In (mcpName, Returned (Some tools)) clients /\ In tool tools /\
    t = Aggregator.namespacedTool mcpName tool.
Proof.
  unfold Aggregator.aggregateTools. rewrite in_flat_map. split.
  - intros [[mcpName [[tools|]|e]] [I H]]; simpl in H; try contradiction.
    apply in_map_iff in H as [tool [<- J]]. now exists mcpName, tools, tool.
  - intros (mcpName & tools & tool & I & J & ->).
    exists (mcpName, Returned (Some tools)). split; [exact I|].
    simpl. now apply in_map.
Qed.

(** X2.  Every tool of the aggregated list was listed by a connected
    backend, under the name [backend/tool]; when the backend's name holds
    no slash, a call of that name is dispatched to that backend, under the
    tool's own name, with the arguments given. *)
Theorem aggregated_tool_routes_to_its_backend env clients t args w :
  In t (Aggregator.aggregateTools clients) ->
  exists mcpName tools tool,
    In (mcpName, Returned (Some tools)) clients /\ In tool tools /\
    Aggregator.tool_name t = mcpName ++ "/" ++ Aggregator.tool_name tool /\
    (JsString.includes "/" mcpName = false ->
     forall client, getClient env mcpName = Some client ->
       Router.callTool env (Aggregator.tool_name t) args w =
         (set_dispatched w
            (dispatched w ++ [mkDispatch mcpName (Aggregator.tool_name tool) args]),
          client (Aggregator.tool_name tool) args)).
Proof.
  intros H. apply in_aggregateTools in H as (mcpName & tools & tool & I & J & ->).
  exists mcpName, tools, tool. repeat split; try assumption.
  intros F client C. apply callTool_connected; [|exact C].
  now apply parseNamespace_join.
Qed.

Lemma aggregated_tool_routes_to_its_backend_witness :
  exists mcpName tools tool,
    In (mcpName, Returned (Some tools))
      [("github", Thrown "closed");
       ("filesystem", Returned (Some [Aggregator.mkTool "read/file" None JNull]))] /\
    In tool tools /\
    "filesystem/read/file" = mcpName ++ "/" ++ Aggregator.tool_name tool /\
    (JsString.includes "/" mcpName = false ->
     forall client, getClient sampleEnv mcpName = Some client ->
       Router.callTool sampleEnv "filesystem/read/file" (JStr "a") (pairedWorld "111") =
         (set_dispatched (pairedWorld "111")
            (dispatched (pairedWorld "111") ++
             [mkDispatch mcpName (Aggregator.tool_name tool) (JStr "a")]),
          client (Aggregator.tool_name tool) (JStr "a"))).
Proof.
  exact (aggregated_tool_routes_to_its_backend sampleEnv
           [("github", Thrown "closed");
            ("filesystem", Returned (Some [Aggregator.mkTool "read/file" None JNull]))]
           (Aggregator.namespacedTool "filesystem"
              (Aggregator.mkTool "read/file" None JNull))
           (JStr "a") (pairedWorld "111") (or_introl eq_refl)).
Defined.

Lemma in_aggregateResources r clients :
  In r (Aggregator.aggregateResources clients) <->
  exists mcpName resources resource,
    In (mcpName, Returned (Some resources)) clients /\ In resource resources /\
    r = Aggregator.namespacedResource mcpName resource.
Proof.
  unfold Aggregator.aggregateResources. rewrite in_flat_map. split.
  - intros [[mcpName [[resources|]|e]] [I H]]; simpl in H; try contradiction.
    apply in_map_iff in H as [resource [<- J]]. now exists mcpName, resources, resource.
  - intros (mcpName & resources & resource & I & J & ->).
    exists (mcpName, Returned (Some resources)). split; [exact I|].
    simpl. now apply in_map.
Qed.

Lemma matchResourceUri_join mcpName uri :
  mcpName <> EmptyString -> JsString.includes ":" mcpName = false ->
  RegExp.dotPlus uri = true ->
  Router.matchResourceUri (mcpName ++ "://" ++ uri) = Some (mcpName, uri).
Proof.
  intros N F D. unfold Router.matchResourceUri.
  change (mcpName ++ "://" ++ uri) with (mcpName ++ String ":" ("//" ++ uri)).
  rewrite (cutAt_app _ _ _ F). destruct mcpName as [|c name]; [congruence|].
  change (JsString.drop 2 ("//" ++ uri)) with uri. rewrite D.
  replace (prefix "//" ("//" ++ uri)) with true; [reflexivity|].
  symmetry. apply (prefix_app "//").
Qed.

(** X3.  Every resource of the aggregated list was listed by a connected
    backend, under the URI [backend://uri]; when the backend's name is not
    empty and holds no colon, and the resource's own URI is not empty and
    holds no line terminator, reading the listed URI asks that backend for
    the resource's own URI. *)
Theorem aggregated_resource_reads_from_its_backend readers clients r :
  In r (Aggregator.aggregateResources clients) ->
  exists mcpName resources resource,
    In (mcpName, Returned (Some resources)) clients /\ In resource resources /\
    Aggregator.resource_uri r = mcpName ++ "://" ++ Aggregator.resource_uri resource /\
    (mcpName <> EmptyString -> JsString.includes ":" mcpName = false ->
     RegExp.dotPlus (Aggregator.resource_uri resource) = true ->
     forall client, readers mcpName = Some client ->
       Router.readResource readers (Aggregator.resource_uri r) =
         client (Aggregator.resource_uri resource)).
Proof.
  intros H. apply in_aggregateResources in H as (mcpName & rs & resource & I & J & ->).
  exists mcpName, rs, resource. repeat split; try assumption.
  intros N F D client C. unfold Router.readResource, Aggregator.namespacedResource.
  cbn [Aggregator.resource_uri].
  now rewrite (matchResourceUri_join _ _ N F D), C.
Qed.

Lemma aggregated_resource_reads_from_its_backend_witness :
  exists mcpName resources resource,
    In (mcpName, Returned (Some resources))
      [("notes", Returned (Some [Aggregator.mkResource "file:///a.txt" "a" None None]))] /\
    In resource resources /\
    "notes://file:///a.txt" = mcpName ++ "://" ++ Aggregator.resource_uri resource /\
    (mcpName <> EmptyString -> JsString.includes ":" mcpName = false ->
     RegExp.dotPlus (Aggregator.resource_uri resource) = true ->
     forall client, sampleReaders mcpName = Some client ->
       Router.readResource sampleReaders "notes://file:///a.txt" =
         client (Aggregator.resource_uri resource)).
Proof.
  exact (aggregated_resource_reads_from_its_backend sampleReaders
           [("notes", Returned (Some [Aggregator.mkResource "file:///a.txt" "a" None None]))]
           (Aggregator.namespacedResource "notes"
              (Aggregator.mkResource "file:///a.txt" "a" None None))
           (or_introl eq_refl)).
Defined.

Lemma existsb_string_In (x : string) l :
  existsb (String.eqb x) l = true <-> In x l.
Proof.
  rewrite existsb_exists. split.
  - intros [y [I E]]. apply String.eqb_eq in E. now subst.
  - intros I. exists x. split; [exact I | apply String.eqb_refl].
Qed.

Lemma unfiltered_frame refresh now clients a :
  let r := Aggregator.listAllToolsUnfiltered refresh now clients a in
  Aggregator.pinnedToolsByMCP (fst r) = Aggregator.pinnedToolsByMCP a /\
  Aggregator.recentlyUsed (fst r) = Aggregator.recentlyUsed a.
Proof.
  unfold Aggregator.listAllToolsUnfiltered.
  destruct (Aggregator.toolsCache a); [|now split].
  destruct (negb refresh && _); now split.
Qed.

Lemma unfiltered_markUsed refresh now clients name a :
  snd (Aggregator.listAllToolsUnfiltered refresh now clients (Aggregator.markUsed name a)) =
  snd (Aggregator.listAllToolsUnfiltered refresh now clients a).
Proof.
  unfold Aggregator.listAllToolsUnfiltered, Aggregator.markUsed.
  cbn [Aggregator.toolsCache Aggregator.cacheTimestamp].
  destruct (Aggregator.toolsCache a); [|reflexivity].
  now destruct (negb refresh && _).
Qed.

Lemma visible_ext a b t :
  Aggregator.pinnedToolsByMCP a = Aggregator.pinnedToolsByMCP b ->
  Aggregator.recentlyUsed a = Aggregator.recentlyUsed b ->
  Aggregator.visible a t = Aggregator.visible b t.
Proof. unfold Aggregator.visible. now intros -> ->. Qed.

Lemma hasPinning_ext a b :
  Aggregator.pinnedToolsByMCP a = Aggregator.pinnedToolsByMCP b ->
  Aggregator.hasPinning a = Aggregator.hasPinning b.
Proof. unfold Aggregator.hasPinning. now intros ->. Qed.

Lemma in_listAllTools refresh now clients a t :
  In t (snd (Aggregator.listAllTools refresh now clients a)) <->
  In t (snd (Aggregator.listAllToolsUnfiltered refresh now clients a)) /\
  (Aggregator.hasPinning a = false \/ Aggregator.visible a t = true).
Proof.
  unfold Aggregator.listAllTools.
  destruct (unfiltered_frame refresh now clients a) as [P U].
  destruct (Aggregator.listAllToolsUnfiltered refresh now clients a) as [a' allTools].
  cbn [fst snd] in *.
  rewrite (hasPinning_ext _ _ P).
  destruct (Aggregator.hasPinning a); cbn [negb snd].
  - rewrite filter_In, (visible_ext a' a t P U). intuition congruence.
  - intuition.
Qed.

Lemma visible_namespaced a mcpName tool :
  JsString.includes "/" mcpName = false ->
  Aggregator.visible a (Aggregator.namespacedTool mcpName tool) =
  match Js.getField mcpName (Aggregator.pinnedToolsByMCP a) with
  | Some (Some pinnedTools) =>
      existsb (String.eqb (Aggregator.tool_name tool)) pinnedTools ||
      existsb (String.eqb (mcpName ++ "/" ++ Aggregator.tool_name tool))
        (Aggregator.recentlyUsed a)
  | _ => true
  end.
Proof.
  intros F. unfold Aggregator.visible, Aggregator.namespacedTool.
  cbn [Aggregator.tool_name].
  change (mcpName ++ "/" ++ Aggregator.tool_name tool)
    with (mcpName ++ String "/" (Aggregator.tool_name tool)).
  rewrite (cutAt_app _ _ _ F).
  destruct (Js.getField mcpName (Aggregator.pinnedToolsByMCP a)) as [[pins|]|];
    try reflexivity.
  destruct (existsb _ pins); [reflexivity|]. simpl.
  now destruct (existsb _ (Aggregator.recentlyUsed a)).
Qed.

(** X4.  [tools/list] shows a part of the aggregated list, and all of it
    when no backend has [pinnedTools].  When some backend has, a tool of a
    backend (whose name holds no slash) is shown exactly if that backend has
    no [pinnedTools], or the tool's own name is pinned, or its full name was
    marked as recently used. *)
Theorem listAllTools_pinning refresh now clients a :
  let allTools := snd (Aggregator.listAllToolsUnfiltered refresh now clients a) in
  let listed := snd (Aggregator.listAllTools refresh now clients a) in
  (forall t, In t listed -> In t allTools) /\
  (Aggregator.hasPinning a = false -> listed = allTools) /\
  (forall mcpName tool,
     Aggregator.hasPinning a = true ->
     JsString.includes "/" mcpName = false ->
     In (Aggregator.namespacedTool mcpName tool) allTools ->
     (In (Aggregator.namespacedTool mcpName tool) listed <->
      match Js.getField mcpName (Aggregator.pinnedToolsByMCP a) with
      | Some (Some pinnedTools) =>
          In (Aggregator.tool_name tool) pinnedTools \/
          In (mcpName ++ "/" ++ Aggregator.tool_name tool) (Aggregator.recentlyUsed a)
      | _ => True
      end)).
Proof.
  intros allTools listed. split; [|split].
  - intros t H. now apply in_listAllTools in H.
  - intros H. subst listed allTools. unfold Aggregator.listAllTools.
    destruct (unfiltered_frame refresh now clients a) as [P _].
    destruct (Aggregator.listAllToolsUnfiltered refresh now clients a) as [a' l].
    cbn [fst snd] in *. now rewrite (hasPinning_ext _ _ P), H.
  - intros mcpName tool P F I. subst listed. rewrite in_listAllTools.
    rewrite (visible_namespaced _ _ _ F), P.
    destruct (Js.getField mcpName (Aggregator.pinnedToolsByMCP a)) as [[pins|]|].
    + rewrite orb_true_iff, !existsb_string_In. intuition congruence.
    + intuition.
    + intuition.
Qed.

Lemma visible_markUsed name a t :
  (Aggregator.visible a t = true ->
   Aggregator.visible (Aggregator.markUsed name a) t = true) /\
  (Aggregator.tool_name t = name ->
   Aggregator.visible (Aggregator.markUsed name a) t = true).
Proof.
  unfold Aggregator.visible, Aggregator.markUsed.
  cbn [Aggregator.pinnedToolsByMCP Aggregator.recentlyUsed].
  destruct (Router.cutAt "/" (Aggregator.tool_name t)) as [[m l]|]; [|now split].
  destruct (Js.getField m (Aggregator.pinnedToolsByMCP a)) as [[pins|]|];
    [|now split|now split].
  destruct (existsb (String.eqb l) pins); [now split|].
  assert (U : forall x, In x (Aggregator.recentlyUsed a) \/ x = name ->
                existsb (String.eqb x)
                  (if existsb (String.eqb name) (Aggregator.recentlyUsed a)
                   then Aggregator.recentlyUsed a
                   else (Aggregator.recentlyUsed a ++ [name])%list) = true).
  { intros x H. apply existsb_string_In.
    destruct (existsb (String.eqb name) (Aggregator.recentlyUsed a)) eqn:E.
    - destruct H as [H| ->]; [exact H | now apply existsb_string_In].
    - apply in_or_app. destruct H as [H| ->]; [now left | right; now left]. }
  split.
  - destruct (existsb (String.eqb (Aggregator.tool_name t)) (Aggregator.recentlyUsed a))
      eqn:E; [|discriminate].
    intros _. rewrite U; [reflexivity|]. left. now apply existsb_string_In.
  - intros H. rewrite U; [reflexivity|]. now right.
Qed.

(** X5.  Marking a tool as recently used hides nothing that [tools/list]
    showed, and makes it show every tool of the aggregated list that has
    the marked name. *)
Theorem markUsed_reveals refresh now clients a name :
  let listed := snd (Aggregator.listAllTools refresh now clients a) in
  let listed' :=
    snd (Aggregator.listAllTools refresh now clients (Aggregator.markUsed name a)) in
  (forall t, In t listed -> In t listed') /\
  (forall t, In t (snd (Aggregator.listAllToolsUnfiltered refresh now clients a)) ->
             Aggregator.tool_name t = name -> In t listed').
Proof.
  intros listed listed'. subst listed listed'.
  split; intros t; rewrite !in_listAllTools, unfiltered_markUsed.
  - intros [I [H|H]]; (split; [exact I|]).
    + left. exact H.
    + right. now apply (proj1 (visible_markUsed name a t)).
  - intros I E. split; [exact I|]. right.
    now apply (proj2 (visible_markUsed name a t)).
Qed.

End Namespaces.

(* ===================================================================== *)
(** * The stores: rules, grants, clean-up *)
(* ===================================================================== *)

Section Stores.

Lemma filter_length_lt {A} (p : A -> bool) l :
  (List.length (filter p l) <= List.length l)%nat /\
  (List.length (filter p l) = List.length l <-> Forall (fun x => p x = true) l).
Proof.
  induction l as [|x l [IH1 IH2]]; simpl.
  - split; [lia|]. split; [constructor | reflexivity].
  - destruct (p x) eqn:E; simpl.
    + split; [lia|]. split.
      * intros H. constructor; [exact E | apply IH2; lia].
      * intros H. inversion H; subst. f_equal. now apply IH2.
    + split; [lia|]. split.
      * intros H. lia.
      * intros H. inversion H; subst. congruence.
Qed.

Lemma removed_iff {A} (p : A -> bool) l :
  negb (Nat.eqb (List.length l) (List.length (filter p l))) = true <->
  exists x, In x l /\ p x = false.
Proof.
  rewrite negb_true_iff, Nat.eqb_neq.
  destruct (filter_length_lt p l) as [_ H]. split.
  - intros N. assert (E : ~ Forall (fun x => p x = true) l) by (rewrite <- H; congruence).
    apply neg_Forall_Exists_neg in E.
    + apply Exists_exists in E as [x [I F]]. exists x. split; [exact I|].
      now destruct (p x).
    + intros x. destruct (p x); [now left | now right].
  - intros [x [I F]] E. symmetry in E. apply H in E.
    rewrite Forall_forall in E. specialize (E x I). congruence.
Qed.

Lemma find_hasPattern pattern l r :
  List.find (PolicyRulesDB.hasPattern pattern) l = Some r -> rule_pattern r = pattern.
Proof.
  intros H. apply find_some in H as [_ H]. now apply String.eqb_eq in H.
Qed.

Lemma find_mutateFirst_other {A} (p q : A -> bool) (g : A -> A) l :
  (forall x, q (g x) = q x) ->
  (forall x, p x = true -> q x = false) ->
  List.find q (Js.mutateFirst p g l) = List.find q l.
Proof.
  intros G D. induction l as [|x l IH]; [reflexivity|].
  simpl. destruct (p x) eqn:E; simpl.
  - now rewrite G, (D x E).
  - now rewrite IH.
Qed.

Lemma upsert_read id now pattern action f :
  readJsonFile (PolicyRulesDB.upsert id now pattern action f) [] =
  match List.find (PolicyRulesDB.hasPattern pattern) (readJsonFile f []) with
  | Some _ =>
      Js.mutateFirst (PolicyRulesDB.hasPattern pattern)
        (PolicyRulesDB.with_action action) (readJsonFile f [])
  | None => mkRule id pattern action now :: readJsonFile f []
  end.
Proof.
  unfold PolicyRulesDB.upsert, Js.find.
  now destruct (List.find _ (readJsonFile f [])).
Qed.

Lemma upsert_find id now pattern action f :
  List.find (PolicyRulesDB.hasPattern pattern)
    (readJsonFile (PolicyRulesDB.upsert id now pattern action f) []) =
  Some (PolicyRulesDB.upserted id now pattern action f).
Proof.
  rewrite upsert_read. unfold PolicyRulesDB.upserted, Js.find.
  destruct (List.find _ (readJsonFile f [])) as [existing|] eqn:E.
  - pose proof (find_hasPattern _ _ _ E) as P.
    rewrite (find_mutateFirst _ _ _ _ E).
    + unfold PolicyRulesDB.with_action. now rewrite P.
    + unfold PolicyRulesDB.hasPattern, PolicyRulesDB.with_action. simpl.
      rewrite P. apply String.eqb_refl.
  - simpl. unfold PolicyRulesDB.hasPattern at 1. simpl.
    now rewrite String.eqb_refl.
Qed.

(** X6.  After [upsert(pattern, action)] the rules store answers, for the
    tool named [pattern], with the rule that [upsert] returned, and so the
    policy engine resolves that tool to [action], from the rule, whatever
    the static policies and the default say.  An earlier rule for the
    pattern keeps its id; a new rule gets the fresh one. *)
Theorem upsert_decides_its_tool engine id now pattern action f :
  let f' := PolicyRulesDB.upsert id now pattern action f in
  let rule := PolicyRulesDB.upserted id now pattern action f in
  rule_pattern rule = pattern /\ rule_action rule = action /\
  (rule_id rule = id \/
   exists old, In old (readJsonFile f []) /\ rule_pattern old = pattern /\
               rule_id rule = rule_id old) /\
  PolicyRulesDB.resolveDetailed pattern f' = Some (PolicyRulesDB.resolvedOf rule) /\
  (PolicyEngine.hasPolicyRulesDB engine = true ->
   PolicyEngine.checkPolicyDetailed engine f' pattern =
     PolicyEngine.mkDetailed action PolicyEngine.db_rule (Some pattern)
       (Some (rule_id rule))).
Proof.
  intros f' rule.
  assert (R : PolicyRulesDB.resolveDetailed pattern f' =
              Some (PolicyRulesDB.resolvedOf rule)).
  { unfold PolicyRulesDB.resolveDetailed, Js.find. subst f'.
    now rewrite upsert_find. }
  assert (P : rule_pattern rule = pattern /\ rule_action rule = action).
  { subst rule. unfold PolicyRulesDB.upserted.
    destruct (Js.find _ _); now split. }
  destruct P as [P1 P2]. repeat split; try assumption.
  - subst rule. unfold PolicyRulesDB.upserted, Js.find.
    destruct (List.find _ (readJsonFile f [])) as [old|] eqn:E; [right | now left].
    exists old. pose proof (find_some _ _ E) as [I _].
    repeat split; [exact I | now apply (find_hasPattern _ _ _ E)].
  - intros H. unfold PolicyEngine.checkPolicyDetailed. rewrite H, R.
    unfold PolicyRulesDB.resolvedOf. cbn. now rewrite P1, P2.
Qed.

Lemma mutateFirst_map {A B} (p : A -> bool) (g : A -> A) (h : A -> B) l :
  (forall x, h (g x) = h x) -> map h (Js.mutateFirst p g l) = map h l.
Proof.
  intros G. induction l as [|x l IH]; [reflexivity|].
  simpl. destruct (p x); simpl; [now rewrite G | now rewrite IH].
Qed.

(** X7.  [upsert] keeps at most one rule per pattern: if the patterns of
    the stored rules are pairwise distinct, they still are afterwards; and
    the rule stored for any other pattern is the same as before. *)
Theorem upsert_keeps_one_rule_per_pattern id now pattern action f :
  NoDup (map rule_pattern (readJsonFile f [])) ->
  let f' := PolicyRulesDB.upsert id now pattern action f in
  NoDup (map rule_pattern (readJsonFile f' [])) /\
  forall other, other <> pattern ->
    List.find (PolicyRulesDB.hasPattern other) (readJsonFile f' []) =
    List.find (PolicyRulesDB.hasPattern other) (readJsonFile f []).
Proof.
  intros N f'. subst f'. rewrite upsert_read.
  destruct (List.find _ (readJsonFile f [])) as [existing|] eqn:E.
  - split.
    + now rewrite mutateFirst_map.
    + intros other D. apply find_mutateFirst_other; [reflexivity|].
      intros x H. unfold PolicyRulesDB.hasPattern in *.
      apply String.eqb_eq in H. rewrite H. now apply String.eqb_neq.
  - split.
    + simpl. constructor; [|exact N].
      intros I. apply in_map_iff in I as [r [P I]].
      pose proof (find_none _ _ E r I) as F.
      unfold PolicyRulesDB.hasPattern in F. rewrite P, String.eqb_refl in F.
      discriminate.
    + intros other D. simpl. unfold PolicyRulesDB.hasPattern at 1. simpl.
      destruct (String.eqb_spec pattern other); [congruence | reflexivity].
Qed.

Lemma upsert_keeps_one_rule_per_pattern_witness :
  let f := mkFile (Some (Parsed [mkRule "r1" "github/*" deny 1;
                                 mkRule "r2" "fs/read" allow 2])) None in
  let f' := PolicyRulesDB.upsert "r3" 9 "github/*" allow f in
  NoDup (map rule_pattern (readJsonFile f' [])) /\
  forall other, other <> "github/*" ->
    List.find (PolicyRulesDB.hasPattern other) (readJsonFile f' []) =
    List.find (PolicyRulesDB.hasPattern other) (readJsonFile f []).
Proof.
  intros f.
  apply (upsert_keeps_one_rule_per_pattern "r3" 9 "github/*" allow f).
  simpl. constructor.
  - simpl. intros [H|[]]. discriminate.
  - constructor; [intros [] | constructor].
Defined.

Lemma firstMatching_In toolName rules r :
  PolicyRulesDB.firstMatching toolName rules = Some r ->
  exists rule, In rule rules /\ r = PolicyRulesDB.resolvedOf rule.
Proof.
  induction rules as [|x l IH]; [discriminate|]. simpl.
  destruct (Pattern.matchesPattern toolName (rule_pattern x)).
  - intros H. injection H as <-. exists x. split; [now left | reflexivity].
  - intros H. destruct (IH H) as [rule [I ->]]. exists rule. split; [now right | reflexivity].
Qed.

(** X8.  [remove(id)] deletes exactly the rules with that id, keeping the
    others in their order; it returns [true] exactly if there was such a
    rule; afterwards no tool is resolved to a rule with that id. *)
Theorem remove_deletes_by_id id f :
  let f' := PolicyRulesDB.remove id f in
  readJsonFile f' [] =
    filter (fun r => negb (String.eqb (rule_id r) id)) (readJsonFile f []) /\
  (PolicyRulesDB.removeFound id f = true <->
   exists r, In r (readJsonFile f []) /\ rule_id r = id) /\
  (forall toolName r,
     PolicyRulesDB.resolveDetailed toolName f' = Some r ->
     PolicyRulesDB.resolved_id r <> id).
Proof.
  intros f'. split; [reflexivity|]. split.
  - unfold PolicyRulesDB.removeFound. rewrite removed_iff. split.
    + intros [r [I H]]. exists r. split; [exact I|].
      apply negb_false_iff in H. now apply String.eqb_eq.
    + intros [r [I H]]. exists r. split; [exact I|].
      apply negb_false_iff. now apply String.eqb_eq.
  - intros toolName r. unfold PolicyRulesDB.resolveDetailed, Js.find.
    subst f'. unfold PolicyRulesDB.remove. rewrite readJsonFile_written.
    set (kept := filter _ _).
    assert (K : forall rule, In rule kept -> rule_id rule <> id).
    { intros rule I. apply filter_In in I as [_ H].
      apply negb_true_iff in H. now apply String.eqb_neq. }
    destruct (List.find (PolicyRulesDB.hasPattern toolName) kept) as [exact|] eqn:E.
    + intros H. injection H as <-. apply find_some in E as [I _]. now apply K.
    + intros H. apply firstMatching_In in H as [rule [I ->]]. now apply K.
Qed.

End Stores.

Section Grants.

Lemma anyGrant_existsb now name grants :
  GrantsDB.anyGrant now name grants = existsb (GrantsDB.grantCovers now name) grants.
Proof.
  induction grants as [|g l IH]; [reflexivity|]. simpl.
  now destruct (GrantsDB.grantCovers now name g).
Qed.

Lemma timeClip_None_create id now pattern durationSeconds f :
  Js.timeClip now = None \/
  Js.timeClip (now + durationSeconds * 1000)%Z = None ->
  GrantsDB.create id now pattern durationSeconds f = Thrown "Invalid time value".
Proof.
  unfold GrantsDB.create. intros [-> | ->]; [reflexivity|].
  now destruct (Js.timeClip now).
Qed.

Lemma timeClip_Some_create id now pattern durationSeconds f :
  Js.timeClip now = Some now ->
  Js.timeClip (now + durationSeconds * 1000)%Z =
    Some (now + durationSeconds * 1000)%Z ->
  GrantsDB.create id now pattern durationSeconds f =
    Returned
      (writeJsonFileAtomic f
         (mkGrant id pattern (Some now) (Some (now + durationSeconds * 1000)%Z)
          :: readJsonFile f []),
       mkGrant id pattern (Some now) (Some (now + durationSeconds * 1000)%Z)).
Proof. unfold GrantsDB.create. now intros -> ->. Qed.

(** X9.  [create(pattern, durationSeconds)] at time [now] writes the grant
    when [now] and [now + 1000 * durationSeconds] are dates; a tool then has
    an active grant at a time [t] exactly if it had one before, or [t] is
    before [now + 1000 * durationSeconds] and the pattern matches its name:
    the new grant covers the matching tools until it expires, and never
    when the duration is not positive.  When one of the two is not a date
    (the sum is more than 8.64e15 ms from the epoch), [create] throws the
    [RangeError] of [toISOString] and writes nothing. *)
Theorem created_grant_window id now pattern durationSeconds f t name :
  let expires := (now + durationSeconds * 1000)%Z in
  let created := GrantsDB.create id now pattern durationSeconds f in
  ((Z.abs now <= 8640000000000000)%Z /\ (Z.abs expires <= 8640000000000000)%Z ->
   exists written,
     created = Returned (written, mkGrant id pattern (Some now) (Some expires)) /\
     readJsonFile written [] =
       mkGrant id pattern (Some now) (Some expires) :: readJsonFile f [] /\
     (GrantsDB.hasActiveGrant t name written = true <->
      ((t < expires)%Z /\ Pattern.matchesPattern name pattern = true) \/
      GrantsDB.hasActiveGrant t name f = true) /\
     ((durationSeconds <= 0)%Z -> (now <= t)%Z ->
      GrantsDB.hasActiveGrant t name written = GrantsDB.hasActiveGrant t name f)) /\
  ((8640000000000000 < Z.abs now)%Z \/ (8640000000000000 < Z.abs expires)%Z ->
   created = Thrown "Invalid time value").
Proof.
  intros expires created. subst created expires. split.
  - intros [N E].
    assert (CN : Js.timeClip now = Some now).
    { unfold Js.timeClip. now apply Z.leb_le in N as ->. }
    assert (CE : Js.timeClip (now + durationSeconds * 1000)%Z =
                 Some (now + durationSeconds * 1000)%Z).
    { unfold Js.timeClip. now apply Z.leb_le in E as ->. }
    rewrite (timeClip_Some_create _ _ _ _ _ CN CE).
    eexists. split; [reflexivity|]. rewrite readJsonFile_written.
    split; [reflexivity|].
    unfold GrantsDB.hasActiveGrant. rewrite readJsonFile_written.
    cbn [GrantsDB.anyGrant]. unfold GrantsDB.grantCovers.
    cbn [grant_expiresAt grant_pattern]. split.
    + destruct (t <? now + durationSeconds * 1000)%Z eqn:L;
        destruct (Pattern.matchesPattern name pattern); simpl;
        try apply Z.ltb_lt in L; try apply Z.ltb_ge in L;
        intuition (try lia; try congruence).
    + intros D T.
      replace (t <? now + durationSeconds * 1000)%Z with false; [reflexivity|].
      symmetry. apply Z.ltb_ge. lia.
  - intros H. apply timeClip_None_create. unfold Js.timeClip.
    destruct H as [H | H]; [left | right];
      apply Z.leb_gt in H; now rewrite H.
Qed.

(** X10.  [getActive] and [hasActiveGrant] agree: a tool has an active
    grant exactly if the pattern of one of the grants that [getActive]
    lists matches its name; a grant whose expiry cannot be read is neither
    listed nor honoured. *)
Theorem active_grants_agree now name f :
  GrantsDB.hasActiveGrant now name f =
  existsb (fun g => Pattern.matchesPattern name (grant_pattern g))
    (GrantsDB.getActive now f) /\
  forall g, In g (GrantsDB.getActive now f) <->
            In g (readJsonFile f []) /\
            exists expiresAt, grant_expiresAt g = Some expiresAt /\ (now < expiresAt)%Z.
Proof.
  unfold GrantsDB.hasActiveGrant, GrantsDB.getActive. split.
  - induction (readJsonFile f []) as [|g l IH]; [reflexivity|].
    cbn [GrantsDB.anyGrant filter]. unfold GrantsDB.grantCovers at 1.
    destruct (grant_expiresAt g) as [exp|]; [|exact IH].
    destruct (now <? exp)%Z; simpl; [|exact IH].
    destruct (Pattern.matchesPattern name (grant_pattern g)); [reflexivity | exact IH].
  - intros g. rewrite filter_In. split; intros [I H]; (split; [exact I|]).
    + destruct (grant_expiresAt g) as [exp|]; [|discriminate].
      exists exp. split; [reflexivity | now apply Z.ltb_lt].
    + destruct H as [exp [-> L]]. now apply Z.ltb_lt.
Qed.

Lemma anyGrant_filter now name (p : GrantRow -> bool) grants :
  GrantsDB.anyGrant now name (filter p grants) = true <->
  exists g, In g grants /\ p g = true /\ GrantsDB.grantCovers now name g = true.
Proof.
  rewrite anyGrant_existsb, existsb_exists. split.
  - intros [g [I C]]. apply filter_In in I as [I P]. now exists g.
  - intros [g (I & P & C)]. exists g. split; [|exact C]. now apply filter_In.
Qed.

(** X11.  [revoke(id)] deletes exactly the grants with that id and returns
    [true] exactly if there was one: afterwards a tool has an active grant
    exactly if a grant with another id covers it.  [revokeAll] returns the
    number of grants there were and leaves no tool with an active grant. *)
Theorem revocation id now name f :
  let revoked := GrantsDB.revoke id f in
  let all := GrantsDB.revokeAll f in
  (snd revoked = true <-> exists g, In g (readJsonFile f []) /\ grant_id g = id) /\
  (GrantsDB.hasActiveGrant now name (fst revoked) = true <->
   exists g, In g (readJsonFile f []) /\ grant_id g <> id /\
             GrantsDB.grantCovers now name g = true) /\
  snd all = List.length (readJsonFile f []) /\
  GrantsDB.hasActiveGrant now name (fst all) = false /\
  GrantsDB.getActive now (fst all) = [].
Proof.
  intros revoked all. subst revoked all.
  unfold GrantsDB.revoke, GrantsDB.revokeAll, GrantsDB.hasActiveGrant, GrantsDB.getActive.
  cbn [fst snd]. rewrite !readJsonFile_written.
  split; [|split; [|repeat split]].
  - rewrite Nat.eqb_sym, removed_iff. split; intros [g [I H]]; exists g; (split; [exact I|]).
    + apply negb_false_iff in H. now apply String.eqb_eq.
    + apply negb_false_iff. now apply String.eqb_eq.
  - rewrite anyGrant_filter. split; intros [g (I & P & C)]; exists g; repeat split; trivial.
    + apply negb_true_iff in P. now apply String.eqb_neq.
    + apply negb_true_iff. now apply String.eqb_neq.
Qed.

End Grants.

Section Cleanup.

Lemma kept_or_written {T} (p : T -> bool) (f : file (list T)) :
  let l := readJsonFile f [] in
  readJsonFile
    (if (0 <? List.length l - List.length (filter p l))%nat
     then writeJsonFileAtomic f (filter p l) else f) [] = filter p l /\
  (filter p l = l ->
   (if (0 <? List.length l - List.length (filter p l))%nat
    then writeJsonFileAtomic f (filter p l) else f) = f).
Proof.
  intros l. destruct (filter_length_lt p l) as [LE EQ]. split.
  - destruct (0 <? _)%nat eqn:E; [apply readJsonFile_written|].
    apply Nat.ltb_ge in E. symmetry. apply forallb_filter_id.
    apply forallb_forall. apply Forall_forall. apply EQ. lia.
  - intros ->. now rewrite Nat.sub_diag.
Qed.

Lemma cleanup_unfold now d :
  cleanupExpired now d =
  mkDisk
    (let l := readJsonFile (approvalsJson d) [] in
     if (0 <? List.length l - List.length (filter (approvalKept now) l))%nat
     then writeJsonFileAtomic (approvalsJson d) (filter (approvalKept now) l)
     else approvalsJson d)
    (tasksJson d)
    (let l := readJsonFile (grantsJson d) [] in
     if (0 <? List.length l - List.length (filter (grantKept now) l))%nat
     then writeJsonFileAtomic (grantsJson d) (filter (grantKept now) l)
     else grantsJson d)
    (rulesJson d) (adminJson d) (auditNdjson d).
Proof.
  unfold cleanupExpired, set_approvalsJson, set_grantsJson.
  destruct d as [a t g r ad au].
  cbv zeta.
  cbn [approvalsJson tasksJson grantsJson rulesJson adminJson auditNdjson].
  destruct (0 <? List.length (readJsonFile a []) -
                 List.length (filter (approvalKept now) (readJsonFile a [])))%nat;
    cbn [approvalsJson tasksJson grantsJson rulesJson adminJson auditNdjson];
    destruct (0 <? List.length (readJsonFile g []) -
                   List.length (filter (grantKept now) (readJsonFile g [])))%nat;
    reflexivity.
Qed.

Lemma cleanup_grants now d :
  readJsonFile (grantsJson (cleanupExpired now d)) [] =
  filter (grantKept now) (readJsonFile (grantsJson d) []).
Proof. rewrite cleanup_unfold. cbn [grantsJson]. apply kept_or_written. Qed.

Lemma cleanup_approvals now d :
  readJsonFile (approvalsJson (cleanupExpired now d)) [] =
  filter (approvalKept now) (readJsonFile (approvalsJson d) []).
Proof. rewrite cleanup_unfold. cbn [approvalsJson]. apply kept_or_written. Qed.

(** X12.  The clean-up run at time [now] drops exactly the grants whose
    expiry is a date not after [now] and the pending approvals whose expiry
    is not after [now]; grants with an unreadable expiry and approvals that
    are resolved stay, in their order, and the tasks, the rules, the admin
    pairing and the audit log are not touched.  A file from which nothing
    is dropped is not written: one that is missing stays missing. *)
Theorem cleanupExpired_drops_the_expired now d :
  let d' := cleanupExpired now d in
  readJsonFile (grantsJson d') [] =
    filter (fun g => match grant_expiresAt g with
                     | Some exp => (now <? exp)%Z
                     | None => true
                     end) (readJsonFile (grantsJson d) []) /\
  readJsonFile (approvalsJson d') [] =
    filter (fun a => match approval_status a with
                     | approval_pending => (now <? approval_expiresAt a)%Z
                     | _ => true
                     end) (readJsonFile (approvalsJson d) []) /\
  tasksJson d' = tasksJson d /\ rulesJson d' = rulesJson d /\
  adminJson d' = adminJson d /\ auditNdjson d' = auditNdjson d /\
  (readJsonFile (grantsJson d') [] = readJsonFile (grantsJson d) [] ->
   grantsJson d' = grantsJson d) /\
  (readJsonFile (approvalsJson d') [] = readJsonFile (approvalsJson d) [] ->
   approvalsJson d' = approvalsJson d).
Proof.
  intros d'. subst d'.
  split; [apply cleanup_grants|]. split; [apply cleanup_approvals|].
  rewrite cleanup_unfold. cbn [tasksJson rulesJson adminJson auditNdjson grantsJson approvalsJson].
  repeat (split; [reflexivity|]).
  split; intros E; apply kept_or_written;
    rewrite (proj1 (kept_or_written _ _)) in E; exact E.
Qed.

(** X13.  The clean-up never changes what the grants store answers from
    then on: at every time not before the clean-up, [hasActiveGrant] and
    [getActive] give what they would have given without it. *)
Theorem cleanupExpired_keeps_every_active_grant now d t name :
  (now <= t)%Z ->
  GrantsDB.hasActiveGrant t name (grantsJson (cleanupExpired now d)) =
    GrantsDB.hasActiveGrant t name (grantsJson d) /\
  GrantsDB.getActive t (grantsJson (cleanupExpired now d)) =
    GrantsDB.getActive t (grantsJson d).
Proof.
  intros T. unfold GrantsDB.hasActiveGrant, GrantsDB.getActive.
  rewrite cleanup_grants.
  induction (readJsonFile (grantsJson d) []) as [|g l [IH1 IH2]]; [now split|].
  cbn [filter].
  change (grantKept now g)
    with (match grant_expiresAt g with
          | Some exp => (now <? exp)%Z
          | None => true
          end).
  destruct (grant_expiresAt g) as [exp|] eqn:E.
  - destruct (now <? exp)%Z eqn:L.
    + cbn [filter GrantsDB.anyGrant]. rewrite IH1, IH2, ?E. now split.
    + apply Z.ltb_ge in L. cbn [GrantsDB.anyGrant]. unfold GrantsDB.grantCovers.
      rewrite E. replace (t <? exp)%Z with false by (symmetry; apply Z.ltb_ge; lia).
      cbn. now split.
  - cbn [filter GrantsDB.anyGrant]. rewrite IH1, IH2, ?E. now split.
Qed.

Lemma cleanupExpired_keeps_every_active_grant_witness :
  let d := mkDisk absent absent
             (mkFile (Some (Parsed [mkGrant "g1" "fs/*" (Some 0%Z) (Some 500%Z);
                                    mkGrant "g2" "git/*" (Some 0%Z) (Some 2000%Z);
                                    mkGrant "g3" "x" None None])) None)
             absent absent [] in
  GrantsDB.hasActiveGrant 1500 "git/push" (grantsJson (cleanupExpired 1000 d)) =
    GrantsDB.hasActiveGrant 1500 "git/push" (grantsJson d) /\
  GrantsDB.getActive 1500 (grantsJson (cleanupExpired 1000 d)) =
    GrantsDB.getActive 1500 (grantsJson d).
Proof.
  intros d.
  apply (cleanupExpired_keeps_every_active_grant 1000 d 1500 "git/push").
  lia.
Defined.

End Cleanup.

(* ===================================================================== *)
(** * The tasks store: what the mutators leave alone, and the listings *)
(* ===================================================================== *)

Section TasksStore.

Lemma mutate_ids id change f :
  (forall t, task_id (change t) = task_id t) ->
  map task_id (readJsonFile (TasksDB.mutate id change f) []) =
  map task_id (readJsonFile f []).
Proof.
  intros H. unfold TasksDB.mutate.
  destruct (Js.find _ _); [|reflexivity].
  rewrite readJsonFile_written. now apply mutateFirst_map.
Qed.

Lemma mutate_other id id' change f :
  (forall t, task_id (change t) = task_id t) ->
  id' <> id ->
  TasksDB.get id' (TasksDB.mutate id change f) = TasksDB.get id' f.
Proof.
  intros H D. unfold TasksDB.get, TasksDB.mutate, Js.find.
  destruct (List.find (TasksDB.hasId id) (readJsonFile f [])); [|reflexivity].
  rewrite readJsonFile_written. apply find_mutateFirst_other.
  - intros x. unfold TasksDB.hasId. now rewrite H.
  - intros x E. unfold TasksDB.hasId in *. apply String.eqb_eq in E.
    rewrite E. apply String.eqb_neq. congruence.
Qed.

Lemma mutate_same id change f t :
  (forall t, task_id (change t) = task_id t) ->
  TasksDB.get id f = Some t ->
  TasksDB.get id (TasksDB.mutate id change f) = Some (change t).
Proof. intros H G. apply get_mutate; [exact G | apply H]. Qed.

(** The change a mutation makes to the row it finds. *)
Lemma applyMutation_mutate m id now f :
  exists change,
    applyMutation m id now f = TasksDB.mutate id change f /\
    (forall t, task_id (change t) = task_id t /\
               task_toolName (change t) = task_toolName t /\
               task_args (change t) = task_args t /\
               task_originalArgs (change t) = task_originalArgs t /\
               task_policyAction (change t) = task_policyAction t /\
               task_createdAt (change t) = task_createdAt t) /\
    (forall t, (m = MarkChecked \/ exists i, m = SetTelegramMessageId i) ->
               task_status (change t) = task_status t /\
               task_result (change t) = task_result t /\
               task_error (change t) = task_error t).
Proof.
  destruct m as [s|r|e|i|]; eexists; (split; [reflexivity|]); split;
    try (intros t; destruct s; cbn; repeat split; reflexivity);
    try (intros t; cbn; repeat split; reflexivity);
    intros t [H|[j H]]; try discriminate; cbn; repeat split; reflexivity.
Qed.

(** X14.  No mutator of the tasks store ([updateStatus], [setResult],
    [setError], [setTelegramMessageId], [markChecked]) adds, removes or
    reorders tasks, or touches a task with another id; and on the task it
    changes, the tool name, the arguments that will be sent to the backend,
    the caller's arguments, the policy action and the creation time stay as
    they were created. *)
Theorem mutators_touch_one_task m id now f :
  let f' := applyMutation m id now f in
  map task_id (readJsonFile f' []) = map task_id (readJsonFile f []) /\
  (forall id', id' <> id -> TasksDB.get id' f' = TasksDB.get id' f) /\
  (forall t, TasksDB.get id f = Some t ->
     exists t', TasksDB.get id f' = Some t' /\
       task_id t' = task_id t /\ task_toolName t' = task_toolName t /\
       task_args t' = task_args t /\ task_originalArgs t' = task_originalArgs t /\
       task_policyAction t' = task_policyAction t /\
       task_createdAt t' = task_createdAt t) /\
  (TasksDB.get id f = None -> f' = f).
Proof.
  intros f'. subst f'.
  destruct (applyMutation_mutate m id now f) as (change & -> & K & _).
  assert (I : forall t, task_id (change t) = task_id t) by (intros t; apply K).
  split; [now apply mutate_ids|]. split; [|split].
  - intros id' D. now apply mutate_other.
  - intros t G. exists (change t). split; [now apply mutate_same | apply K].
  - apply mutate_unknown.
Qed.

(** X15.  [markChecked] and [setTelegramMessageId] are book-keeping only:
    the status, the result and the error of every task are what they were,
    so polling a task or sending its approval request never moves it in
    the state machine. *)
Theorem bookkeeping_keeps_the_state m id now f id' :
  m = MarkChecked \/ (exists messageId, m = SetTelegramMessageId messageId) ->
  let f' := applyMutation m id now f in
  option_map task_status (TasksDB.get id' f') =
    option_map task_status (TasksDB.get id' f) /\
  option_map task_result (TasksDB.get id' f') =
    option_map task_result (TasksDB.get id' f) /\
  option_map task_error (TasksDB.get id' f') =
    option_map task_error (TasksDB.get id' f).
Proof.
  intros M f'. subst f'.
  destruct (applyMutation_mutate m id now f) as (change & -> & K & B).
  assert (I : forall t, task_id (change t) = task_id t) by (intros t; apply K).
  destruct (String.eqb_spec id' id) as [->|D].
  - destruct (TasksDB.get id f) as [t|] eqn:G.
    + rewrite (mutate_same _ _ _ _ I G). cbn.
      destruct (B t M) as (-> & -> & ->). now repeat split.
    + now rewrite (mutate_unknown _ _ _ G), G.
  - now rewrite (mutate_other _ _ _ _ I D).
Qed.

Lemma bookkeeping_keeps_the_state_witness :
  let f := mkFile (Some (Parsed [completedTask; deniedTask])) None in
  let f' := applyMutation MarkChecked "t1" 77 f in
  option_map task_status (TasksDB.get "t1" f') =
    option_map task_status (TasksDB.get "t1" f) /\
  option_map task_result (TasksDB.get "t1" f') =
    option_map task_result (TasksDB.get "t1" f) /\
  option_map task_error (TasksDB.get "t1" f') =
    option_map task_error (TasksDB.get "t1" f).
Proof.
  intros f.
  exact (bookkeeping_keeps_the_state MarkChecked "t1" 77 f "t1" (or_introl eq_refl)).
Defined.

(** X16.  [create] stores the new task in front, pending, with the
    arguments given: [get] finds it under its id (also when an older task
    has the same id), every task with another id is found as before, and
    the new task heads the list of the pending ones. *)
Theorem created_task_is_pending_and_found id now toolName args originalArgs
    policyAction f :
  let created := TasksDB.create id now toolName args originalArgs policyAction f in
  snd created =
    mkTask id toolName args originalArgs pending_approval None None policyAction
      None now None None None /\
  TasksDB.get id (fst created) = Some (snd created) /\
  (forall id', id' <> id -> TasksDB.get id' (fst created) = TasksDB.get id' f) /\
  TasksDB.listPending (fst created) = snd created :: TasksDB.listPending f /\
  readJsonFile (fst created) [] = snd created :: readJsonFile f [].
Proof.
  intros created. subst created.
  unfold TasksDB.create, TasksDB.get, TasksDB.listPending, Js.find.
  cbn [fst snd]. rewrite !readJsonFile_written.
  split; [reflexivity|]. split; [|split; [|split; reflexivity]].
  - simpl. unfold TasksDB.hasId at 1. simpl. now rewrite String.eqb_refl.
  - intros id' D. simpl. unfold TasksDB.hasId at 1. simpl.
    destruct (String.eqb_spec id id'); [congruence | reflexivity].
Qed.

Lemma slice0_nonneg {A} (n : Z) (l : list A) :
  (0 <= n)%Z -> Js.slice0 n l = firstn (Z.to_nat n) l.
Proof.
  intros H. unfold Js.slice0.
  replace (n <? 0)%Z with false by (symmetry; apply Z.ltb_ge; lia).
  destruct (Z.le_ge_cases n (Z.of_nat (List.length l))) as [L|L].
  - now rewrite Z.min_l.
  - rewrite Z.min_r, Nat2Z.id by lia.
    rewrite !firstn_all2; trivial; lia.
Qed.

Lemma slice0_neg {A} (n : Z) (l : list A) :
  (n < 0)%Z -> Js.slice0 n l = firstn (List.length l - Z.to_nat (- n)) l.
Proof.
  intros H. unfold Js.slice0.
  replace (n <? 0)%Z with true by (symmetry; apply Z.ltb_lt; lia).
  f_equal. lia.
Qed.

Lemma statusOfName_spec name st :
  MCPHandler.statusOfName name = Some st <-> MCPHandler.statusName st = name.
Proof.
  unfold MCPHandler.statusOfName. split.
  - repeat (match goal with
            | |- context [String.eqb ?a ?b] => destruct (String.eqb_spec a b)
            end; [intros H; injection H as <-; subst; reflexivity|]).
    discriminate.
  - intros <-. now destruct st.
Qed.

Lemma filter_none {A} (p : A -> bool) l :
  (forall x, p x = false) -> filter p l = [].
Proof.
  intros H. induction l as [|x l IH]; [reflexivity|]. simpl. now rewrite H.
Qed.

Lemma listedTasks_wanted status limit f :
  MCPHandler.listedTasks status limit f =
  Js.slice0 (MCPHandler.maxResultsOf limit) (filter (wanted status) (readJsonFile f [])).
Proof.
  unfold MCPHandler.listedTasks, wanted, TasksDB.listAll, TasksDB.listByStatus.
  assert (ALL : forall l : list Task, filter (fun _ => true) l = l).
  { intros l. induction l as [|x l IH]; [reflexivity|]. simpl. now rewrite IH. }
  destruct status as [s|]; [|now rewrite ALL].
  destruct (Js.truthy s) eqn:T; [|now rewrite ALL].
  destruct s as [|b|n|name|items|fields];
    try (rewrite filter_none by reflexivity; now destruct (MCPHandler.maxResultsOf limit)).
  destruct (MCPHandler.statusOfName name) as [st|] eqn:E.
  - apply statusOfName_spec in E. f_equal. apply filter_ext. intros t.
    subst name. destruct (task_status t), st; reflexivity.
  - rewrite filter_none; [now destruct (MCPHandler.maxResultsOf limit)|].
    intros t. apply String.eqb_neq. intros H.
    apply statusOfName_spec in H. congruence.
Qed.

(** X17.  [portero/list_tasks] reads and never writes.  It answers with
    one text, the object that holds the number of the tasks listed and, for
    each of them, its id, tool name, status and times, whether it has
    completed, and its error.  The tasks listed are those asked for (all,
    or those whose status is the string given; none for a string that is no
    status) from the newest on: the first 20 when [limit] is not a number,
    the first [min(limit, 100)] when it is a number that is not negative.
    The cap of 100 holds for those limits only: a negative [limit] goes to
    [slice(0, limit)], which drops that many tasks from the end of the list
    and keeps all the others. *)
Theorem list_tasks_window env args w :
  let limit := match args with Some a => fieldOf "limit" a | None => None end in
  let status := match args with Some a => fieldOf "status" a | None => None end in
  let candidates :=
    filter (wanted status) (readJsonFile (tasksJson (disk w)) []) in
  let oneText := fun text : string =>
    JObj [("content", JArr [JObj [("type", JStr "text"); ("text", JStr text)]])] in
  let optional := fun (key : string) (v : option string) =>
    match v with Some text => [(key, JStr text)] | None => [] end in
  let summary := fun t : Task =>
    JObj ([("task_id", JStr (task_id t));
           ("toolName", JStr (task_toolName t));
           ("status",
            JStr match task_status t with
                 | pending_approval => "pending-approval"
                 | approved_queued => "approved-queued"
                 | executing => "executing"
                 | completed => "completed"
                 | denied => "denied"
                 | error => "error"
                 end);
           ("createdAt", JStr (toISOString env (task_createdAt t)))]
          ++ optional "approvedAt" (option_map (toISOString env) (task_approvedAt t))
          ++ optional "executedAt" (option_map (toISOString env) (task_executedAt t))
          ++ optional "checkedAt" (option_map (toISOString env) (task_checkedAt t))
          ++ [("hasResult",
               JBool match task_status t with completed => true | _ => false end)]
          ++ optional "error" (task_error t)) in
  exists tasks,
    MCPHandler.handleListTasks env args w =
      (w, Returned (oneText (stringify env
                      (JObj [("count", JNum (Z.of_nat (List.length tasks)));
                             ("tasks", JArr (map summary tasks))])))) /\
    ((forall n, limit <> Some (JNum n)) -> tasks = firstn 20 candidates) /\
    (forall n, limit = Some (JNum n) -> (0 <= n)%Z ->
               tasks = firstn (Z.to_nat (Z.min n 100)) candidates /\
               (List.length tasks <= 100)%nat) /\
    (forall n, limit = Some (JNum n) -> (n < 0)%Z ->
               tasks = firstn (List.length candidates - Z.to_nat (- n)) candidates).
Proof.
  intros limit status candidates oneText optional summary.
  assert (L : limit = MCPHandler.argField "limit" args)
    by (destruct args as [[]|]; reflexivity).
  assert (S : status = MCPHandler.argField "status" args)
    by (destruct args as [[]|]; reflexivity).
  exists (MCPHandler.listedTasks status limit (tasksJson (disk w))).
  split.
  { unfold MCPHandler.handleListTasks. run. rewrite <- L, <- S.
    unfold MCPHandler.listPayload, MCPHandler.textReply.
    replace (map (MCPHandler.taskSummary env)
               (MCPHandler.listedTasks status limit (tasksJson (disk w))))
      with (map summary (MCPHandler.listedTasks status limit (tasksJson (disk w))));
      [reflexivity|].
    apply map_ext. intros t. subst summary optional. cbv beta.
    unfold MCPHandler.taskSummary, MCPHandler.statusName.
    now destruct (task_status t). }
  rewrite listedTasks_wanted. fold candidates. clearbody limit.
  split; [|split].
  - intros H. unfold MCPHandler.maxResultsOf.
    destruct limit as [[|b|n|s|i|o]|]; try apply (slice0_nonneg 20); try lia.
    now specialize (H n).
  - intros n -> N. cbn [MCPHandler.maxResultsOf].
    rewrite slice0_nonneg by lia. split; [reflexivity|].
    rewrite length_firstn. lia.
  - intros n -> N. cbn [MCPHandler.maxResultsOf].
    rewrite Z.min_l by lia. now apply slice0_neg.
Qed.

End TasksStore.

(* ===================================================================== *)
(** * The anonymizer: what a rewrite leaves behind *)
(* ===================================================================== *)

Lemma allChars_forall P s :
  allChars P s = true <->
  (forall c, JsString.includes (String c EmptyString) s = true -> P c = true).
Proof.
  induction s as [|x s IH].
  - split; [|reflexivity]. intros _ c H. discriminate.
  - cbn [allChars]. rewrite andb_true_iff, IH. split.
    + intros [H1 H2] c H. rewrite includes_char_cons in H.
      apply orb_true_iff in H as [H|H]; [|now apply H2].
      apply Ascii.eqb_eq in H. now subst.
    + intros H. split.
      * apply H. now rewrite includes_char_cons, Ascii.eqb_refl.
      * intros c I. apply H. rewrite includes_char_cons, I. apply orb_true_r.
Qed.

Section NoLeak.

Variables needle repl : string.
Hypothesis needle_not_empty : needle <> EmptyString.
Hypothesis repl_not_empty : repl <> EmptyString.
Hypothesis disjoint : shareNoChar needle repl = true.

Lemma occurs_head c s : JsString.includes (String c EmptyString) (String c s) = true.
Proof. now rewrite includes_char_cons, Ascii.eqb_refl. Qed.

Lemma occurs_in_app c a b :
  JsString.includes (String c EmptyString) (a ++ b) =
  JsString.includes (String c EmptyString) a || JsString.includes (String c EmptyString) b.
Proof.
  induction a as [|x a IH].
  - simpl. now destruct b.
  - cbn [append]. rewrite !includes_char_cons, IH. now rewrite orb_assoc.
Qed.

(** A prefix made of characters of the needle survives the replacement
    only where it stood before. *)
Lemma prefix_through_replaceAll n :
  allChars (fun c => negb (JsString.includes (String c EmptyString) repl)) n = true ->
  forall s, prefix n (JsString.replaceAll needle repl s) = true -> prefix n s = true.
Proof.
  induction n as [|a n IH]; intros A s H.
  - now destruct s.
  - cbn [allChars] in A. apply andb_true_iff in A as [A1 A2].
    destruct s as [|c r]; [discriminate|].
    destruct (prefix needle (String c r)) eqn:P.
    + rewrite (replaceAll_hit _ _ _ _ needle_not_empty P) in H.
      destruct repl as [|t0 t]; [congruence|]. cbn [append] in H.
      destruct (ascii_dec a t0) as [->|N].
      * rewrite occurs_head in A1. discriminate.
      * now rewrite prefix_cons_neq in H.
    + rewrite (replaceAll_miss _ _ _ _ P) in H.
      destruct (ascii_dec a c) as [->|N].
      * rewrite prefix_cons_eq in *. now apply IH.
      * now rewrite prefix_cons_neq in H.
Qed.

Lemma includes_past_repl t s :
  allChars (fun c => negb (JsString.includes (String c EmptyString) needle)) t = true ->
  JsString.includes needle (t ++ s) = JsString.includes needle s.
Proof.
  induction t as [|c t IH]; intros A; [reflexivity|].
  cbn [allChars] in A. apply andb_true_iff in A as [A1 A2].
  cbn [append JsString.includes]. rewrite (IH A2).
  destruct needle as [|a n]; [congruence|].
  destruct (ascii_dec a c) as [->|N].
  - rewrite occurs_head in A1. discriminate.
  - now rewrite prefix_cons_neq.
Qed.

Lemma shareNoChar_sym_repl :
  allChars (fun c => negb (JsString.includes (String c EmptyString) needle)) repl = true.
Proof.
  apply allChars_forall. intros c H. apply negb_true_iff.
  destruct (JsString.includes (String c EmptyString) needle) eqn:E; [|reflexivity].
  unfold shareNoChar in disjoint.
  apply (proj1 (allChars_forall _ _) disjoint) in E. now rewrite H in E.
Qed.

Lemma drop_length_le k s : (String.length (JsString.drop k s) <= String.length s)%nat.
Proof.
  revert s. induction k as [|k IH]; intros s; [simpl; lia|].
  destruct s as [|c r]; simpl; [lia|]. specialize (IH r). lia.
Qed.

Lemma needle_gone s :
  JsString.includes needle (JsString.replaceAll needle repl s) = false.
Proof.
  remember (String.length s) as n eqn:L.
  assert (B : (String.length s <= n)%nat) by lia. clear L.
  revert s B. induction n as [|n IH]; intros s B.
  - destruct s; [|simpl in B; lia].
    cbn. destruct needle; [congruence | reflexivity].
  - destruct s as [|c r].
    + cbn. destruct needle; [congruence | reflexivity].
    + destruct (prefix needle (String c r)) eqn:P.
      * rewrite (replaceAll_hit _ _ _ _ needle_not_empty P).
        rewrite (includes_past_repl _ _ shareNoChar_sym_repl).
        apply IH. destruct needle as [|a m]; [congruence|].
        cbn [String.length JsString.drop]. pose proof (drop_length_le (String.length m) r).
        simpl in B. lia.
      * pose proof (prefix_through_replaceAll needle disjoint (String c r)) as T.
        rewrite (replaceAll_miss _ _ _ _ P) in *.
        cbn [JsString.includes]. rewrite IH by (simpl in B; lia).
        rewrite orb_false_r.
        destruct (prefix needle (String c (JsString.replaceAll needle repl r))) eqn:Q;
          [|reflexivity].
        rewrite (T eq_refl) in P. discriminate.
Qed.

End NoLeak.

Section Traversal.

Lemma setField_In {A} k (v : A) fields kv :
  In kv (Js.setField k v fields) -> kv = (k, v) \/ In kv fields.
Proof.
  induction fields as [|[k' w] rest IH]; simpl.
  - intros [<-|[]]. now left.
  - destruct (String.eqb_spec k' k) as [->|N]; simpl.
    + intros [<-|H]; [now left | right; now right].
    + intros [<-|H]; [right; now left|].
      destruct (IH H) as [->|I]; [now left | right; now right].
Qed.

Lemma fromEntries_In {A} (entries : list (string * A)) kv :
  In kv (Js.fromEntries entries) -> In kv entries.
Proof.
  unfold Js.fromEntries.
  assert (G : forall acc, In kv (fold_left
                (fun acc kv => Js.setField (fst kv) (snd kv) acc) entries acc) ->
              In kv acc \/ In kv entries).
  { induction entries as [|[k v] rest IH]; intros acc H; [now left|].
    simpl in H. destruct (IH _ H) as [I|I].
    - apply setField_In in I as [->|I]; [right; now left | now left].
    - right. now right. }
  intros H. destruct (G [] H) as [[]|I]. exact I.
Qed.

Lemma json_induction (P : json -> Prop) :
  P JNull -> (forall b, P (JBool b)) -> (forall n, P (JNum n)) ->
  (forall s, P (JStr s)) ->
  (forall items, Forall P items -> P (JArr items)) ->
  (forall fields, Forall (fun kv => P (snd kv)) fields -> P (JObj fields)) ->
  forall v, P v.
Proof.
  intros HN HB HZ HS HA HO. fix IH 1. intros [|b|n|s|items|fields].
  - exact HN.
  - apply HB.
  - apply HZ.
  - apply HS.
  - apply HA. induction items as [|x l IHl]; constructor; [apply IH | exact IHl].
  - apply HO. induction fields as [|[k x] l IHl]; constructor; [apply IH | exact IHl].
Qed.

Lemma deepTraverse_everyString (P : string -> bool) replacer :
  (forall s, P (replacer s) = true) ->
  forall v, everyString P (Anonymizer.deepTraverse v replacer) = true.
Proof.
  intros H. apply json_induction; try reflexivity.
  - intros s. apply H.
  - intros items F. cbn [Anonymizer.deepTraverse everyString].
    apply forallb_forall. intros x I. apply in_map_iff in I as [y [<- J]].
    rewrite Forall_forall in F. now apply F.
  - intros fields F. cbn [Anonymizer.deepTraverse everyString].
    apply forallb_forall. intros kv I. apply fromEntries_In in I.
    apply in_map_iff in I as [[k x] [<- J]]. cbn [fst snd].
    rewrite H. rewrite Forall_forall in F. exact (F _ J).
Qed.

Lemma strOr_not_empty a b : b <> EmptyString -> Js.strOr a b <> EmptyString.
Proof.
  intros N. unfold Js.strOr. destruct a as [s|]; [|exact N].
  destruct (String.eqb_spec s ""); [exact N | assumption].
Qed.

Lemma splitJoin_replaceAll sep t s :
  sep <> EmptyString -> JsString.splitJoin sep t s = JsString.replaceAll sep t s.
Proof. intros N. destruct sep; [congruence | reflexivity]. Qed.

(** X18.  A secret under a one-way, case-sensitive rule never comes back:
    when the text put in its place (the [responseReplacement], or
    ["***REDACTED***"] when that is missing or empty) shares no character
    with the secret, no string of the rewritten response, key or value,
    contains the secret. *)
Theorem one_way_secret_never_returns r data :
  Anonymizer.bidirectional r = false ->
  Anonymizer.caseSensitive r <> Some false ->
  Anonymizer.real r <> EmptyString ->
  shareNoChar (Anonymizer.real r)
    (Js.strOr (Anonymizer.responseReplacement r) Anonymizer.REDACTED) = true ->
  everyString (fun s => negb (JsString.includes (Anonymizer.real r) s))
    (Anonymizer.deanonymizeResponse [r] data) = true.
Proof.
  intros B C N D. unfold Anonymizer.deanonymizeResponse.
  apply deepTraverse_everyString. intros s. apply negb_true_iff.
  unfold Anonymizer.replaceInValue. cbn [fold_left].
  unfold Anonymizer.replaceStep. rewrite B. cbn [negb].
  assert (E : match Anonymizer.caseSensitive r with
              | Some false =>
                  JsString.replaceCI (Anonymizer.real r)
                    (Js.strOr (Anonymizer.responseReplacement r) Anonymizer.REDACTED) s
              | _ =>
                  JsString.splitJoin (Anonymizer.real r)
                    (Js.strOr (Anonymizer.responseReplacement r) Anonymizer.REDACTED) s
              end =
              JsString.replaceAll (Anonymizer.real r)
                (Js.strOr (Anonymizer.responseReplacement r) Anonymizer.REDACTED) s).
  { destruct (Anonymizer.caseSensitive r) as [[|]|];
      try congruence; now apply splitJoin_replaceAll. }
  rewrite E. apply needle_gone; [exact N | | exact D].
  apply strOr_not_empty. discriminate.
Qed.

Lemma one_way_secret_never_returns_witness :
  everyString (fun s => negb (JsString.includes "sk_secret" s))
    (Anonymizer.deanonymizeResponse
       [Anonymizer.mkReplacement "FAKE_KEY" "sk_secret" false None (Some "")]
       (JObj [("sk_secret", JArr [JStr "id=sk_secret;"; JStr "sk_sk_secret"])])) = true.
Proof.
  apply (one_way_secret_never_returns
           (Anonymizer.mkReplacement "FAKE_KEY" "sk_secret" false None (Some ""))
           (JObj [("sk_secret", JArr [JStr "id=sk_secret;"; JStr "sk_sk_secret"])])).
  - reflexivity.
  - discriminate.
  - discriminate.
  - reflexivity.
Defined.

(** X19.  The backend never sees a fake: under a case-sensitive rule whose
    fake and real values are not empty and share no character, no string of
    the rewritten request, key or value, contains the fake value. *)
Theorem fake_never_reaches_the_backend r args :
  Anonymizer.caseSensitive r <> Some false ->
  Anonymizer.fake r <> EmptyString ->
  Anonymizer.real r <> EmptyString ->
  shareNoChar (Anonymizer.fake r) (Anonymizer.real r) = true ->
  everyString (fun s => negb (JsString.includes (Anonymizer.fake r) s))
    (Anonymizer.anonymizeRequest [r] args) = true.
Proof.
  intros C NF NR D. unfold Anonymizer.anonymizeRequest.
  apply deepTraverse_everyString. intros s. apply negb_true_iff.
  unfold Anonymizer.replaceInValue. cbn [fold_left].
  unfold Anonymizer.replaceStep.
  assert (E : match Anonymizer.caseSensitive r with
              | Some false =>
                  JsString.replaceCI (Anonymizer.fake r) (Anonymizer.real r) s
              | _ => JsString.splitJoin (Anonymizer.fake r) (Anonymizer.real r) s
              end =
              JsString.replaceAll (Anonymizer.fake r) (Anonymizer.real r) s).
  { destruct (Anonymizer.caseSensitive r) as [[|]|];
      try congruence; now apply splitJoin_replaceAll. }
  rewrite E. now apply needle_gone.
Qed.

Lemma fake_never_reaches_the_backend_witness :
  everyString (fun s => negb (JsString.includes "ACME" s))
    (Anonymizer.anonymizeRequest
       [Anonymizer.mkReplacement "ACME" "initech" true None None]
       (JObj [("to", JStr "ACMEACME <a@ACME.example>")])) = true.
Proof.
  apply (fake_never_reaches_the_backend
           (Anonymizer.mkReplacement "ACME" "initech" true None None)
           (JObj [("to", JStr "ACMEACME <a@ACME.example>")])).
  - discriminate.
  - discriminate.
  - discriminate.
  - reflexivity.
Defined.

End Traversal.

(* ===================================================================== *)
(** * Bearer authentication *)
(* ===================================================================== *)

Section Authentication.

Lemma prefix_split p s : prefix p s = true -> s = p ++ JsString.drop (String.length p) s.
Proof.
  revert s. induction p as [|a p IH]; intros s H; [reflexivity|].
  destruct s as [|c s]; [discriminate|].
  destruct (ascii_dec a c) as [->|N].
  - rewrite prefix_cons_eq in H. cbn. f_equal. now apply IH.
  - now rewrite prefix_cons_neq in H.
Qed.

(** X20.  The bearer check lets a request through exactly if its
    [Authorization] header is ["Bearer "] followed by the expected token,
    character for character, and the expected token is not empty and holds
    no line terminator; every other request is answered with status 401. *)
Theorem bearer_accepts_exactly_the_token expectedToken authorization :
  (Auth.bearerAuthMiddleware expectedToken authorization = Auth.Next <->
   authorization = Some ("Bearer " ++ expectedToken) /\
   RegExp.dotPlus expectedToken = true) /\
  (Auth.bearerAuthMiddleware expectedToken authorization <> Auth.Next ->
   exists error, Auth.bearerAuthMiddleware expectedToken authorization =
                 Auth.Status401 error).
Proof.
  split.
  - unfold Auth.bearerAuthMiddleware, Auth.bearerMatch. split.
    + destruct authorization as [h|]; [|discriminate].
      destruct (String.eqb h ""); [discriminate|].
      destruct (prefix "Bearer " h) eqn:P; [|discriminate]. cbn [andb].
      destruct (RegExp.dotPlus (JsString.drop 7 h)) eqn:D; [|discriminate].
      destruct (String.eqb_spec (JsString.drop 7 h) expectedToken) as [E|E];
        [|discriminate].
      intros _. apply prefix_split in P. cbn [String.length] in P.
      rewrite E in *. now rewrite P at 1.
    + intros [-> D].
      change (JsString.drop 7 ("Bearer " ++ expectedToken)) with expectedToken.
      replace (prefix "Bearer " ("Bearer " ++ expectedToken)) with true
        by (symmetry; apply (prefix_app "Bearer ")).
      cbn [String.eqb append]. cbn [andb]. rewrite D, String.eqb_refl. reflexivity.
  - destruct (Auth.bearerAuthMiddleware expectedToken authorization) as [|e].
    + congruence.
    + intros _. now exists e.
Qed.

End Authentication.

(* ===================================================================== *)
(** * Environment placeholders in the configuration *)
(* ===================================================================== *)

Section Placeholders.

Variable env : string -> option string.

Lemma placeholderAt_Some s varName rest :
  ConfigLoader.placeholderAt s = Some (varName, rest) ->
  s = "${" ++ varName ++ String "}" rest /\ varName <> EmptyString /\
  JsString.includes "}" varName = false.
Proof.
  unfold ConfigLoader.placeholderAt.
  destruct (prefix "${" s) eqn:P; [|discriminate].
  apply prefix_split in P. cbn [String.length] in P.
  destruct (Router.cutAt "}" (JsString.drop 2 s)) as [[[|c n] r]|] eqn:C;
    try discriminate.
  intros H. injection H as <- <-. apply cutAt_Some in C as [C F].
  rewrite C in P. repeat split; [exact P | discriminate | exact F].
Qed.

Lemma placeholderAt_literal varName rest :
  varName <> EmptyString -> JsString.includes "}" varName = false ->
  ConfigLoader.placeholderAt ("${" ++ varName ++ String "}" rest) = Some (varName, rest).
Proof.
  intros N F. unfold ConfigLoader.placeholderAt.
  change (JsString.drop 2 ("${" ++ varName ++ String "}" rest))
    with (varName ++ String "}" rest).
  replace (prefix "${" ("${" ++ varName ++ String "}" rest)) with true
    by (symmetry; apply (prefix_app "${")).
  rewrite (cutAt_app _ _ _ F). destruct varName; [congruence | reflexivity].
Qed.

Lemma substitute_go_drop s :
  forall skip,
    ConfigLoader.substitute_go env skip s =
    ConfigLoader.substituteEnvVars env (JsString.drop skip s).
Proof.
  induction s as [|c r IH]; intros [|k]; try reflexivity. simpl. apply IH.
Qed.

Lemma placeholders_go_drop s :
  forall skip, placeholders_go skip s = placeholders (JsString.drop skip s).
Proof.
  induction s as [|c r IH]; intros [|k]; try reflexivity. simpl. apply IH.
Qed.

Lemma drop_past varName rest c r :
  String c r = "${" ++ varName ++ String "}" rest ->
  JsString.drop (String.length varName + 2) r = rest.
Proof.
  intros H. injection H as _ ->. cbn [append].
  replace (String.length varName + 2)%nat with (S (String.length varName + 1)) by lia.
  cbn [JsString.drop].
  replace (String.length varName + 1)%nat
    with (String.length (varName ++ "}")).
  - change (String "}" rest) with ("}" ++ rest). rewrite <- append_assoc.
    apply drop_app.
  - induction varName as [|a n IH]; [reflexivity|]. simpl. now rewrite IH.
Qed.

(** The two equations of the scan. *)
Lemma substitute_hit s varName rest :
  ConfigLoader.placeholderAt s = Some (varName, rest) ->
  ConfigLoader.substituteEnvVars env s =
  match ConfigLoader.processEnv env varName with
  | Some envValue => envValue
  | None => "${" ++ varName ++ "}"
  end ++ ConfigLoader.substituteEnvVars env rest.
Proof.
  intros H. pose proof (placeholderAt_Some _ _ _ H) as (E & _ & _).
  destruct s as [|c r]; [discriminate|].
  unfold ConfigLoader.substituteEnvVars at 1. cbn [ConfigLoader.substitute_go].
  rewrite H, substitute_go_drop. now rewrite (drop_past _ _ _ _ E).
Qed.

Lemma substitute_miss c r :
  ConfigLoader.placeholderAt (String c r) = None ->
  ConfigLoader.substituteEnvVars env (String c r) =
  String c (ConfigLoader.substituteEnvVars env r).
Proof.
  intros H. unfold ConfigLoader.substituteEnvVars at 1.
  cbn [ConfigLoader.substitute_go]. now rewrite H.
Qed.

Lemma placeholders_hit s varName rest :
  ConfigLoader.placeholderAt s = Some (varName, rest) ->
  placeholders s = varName :: placeholders rest.
Proof.
  intros H. pose proof (placeholderAt_Some _ _ _ H) as (E & _ & _).
  destruct s as [|c r]; [discriminate|].
  unfold placeholders at 1. cbn [placeholders_go].
  rewrite H, placeholders_go_drop. now rewrite (drop_past _ _ _ _ E).
Qed.

Lemma placeholders_miss c r :
  ConfigLoader.placeholderAt (String c r) = None ->
  placeholders (String c r) = placeholders r.
Proof.
  intros H. unfold placeholders at 1. cbn [placeholders_go]. now rewrite H.
Qed.

Lemma hasPlaceholder_app a b :
  ClientManager.hasPlaceholder b = true -> ClientManager.hasPlaceholder (a ++ b) = true.
Proof.
  intros H. induction a as [|c a IH]; [exact H|].
  cbn [append ClientManager.hasPlaceholder].
  now destruct (ConfigLoader.placeholderAt (String c (a ++ b))).
Qed.

Lemma hasPlaceholder_placeholders s :
  ClientManager.hasPlaceholder s = true <-> placeholders s <> [].
Proof.
  induction s as [|c r IH]; [cbn; split; [discriminate | congruence]|].
  cbn [ClientManager.hasPlaceholder].
  destruct (ConfigLoader.placeholderAt (String c r)) as [[n rest]|] eqn:P.
  - rewrite (placeholders_hit _ _ _ P). split; [discriminate | reflexivity].
  - now rewrite (placeholders_miss _ _ P).
Qed.

Lemma rest_shorter s varName rest :
  ConfigLoader.placeholderAt s = Some (varName, rest) ->
  (String.length rest < String.length s)%nat.
Proof.
  intros H. apply placeholderAt_Some in H as (-> & _ & _).
  cbn [append String.length]. clear. induction varName as [|a n IH]; simpl; lia.
Qed.

Lemma along_the_scan (P : string -> Prop) :
  P EmptyString ->
  (forall s varName rest,
     ConfigLoader.placeholderAt s = Some (varName, rest) -> P rest -> P s) ->
  (forall c r, ConfigLoader.placeholderAt (String c r) = None -> P r -> P (String c r)) ->
  forall s, P s.
Proof.
  intros H0 HH HM s.
  remember (String.length s) as n eqn:L.
  assert (B : (String.length s <= n)%nat) by lia. clear L.
  revert s B. induction n as [|n IH]; intros s B.
  - destruct s; [exact H0 | simpl in B; lia].
  - destruct s as [|c r]; [exact H0|].
    destruct (ConfigLoader.placeholderAt (String c r)) as [[v rest]|] eqn:E.
    + apply (HH _ _ _ E). apply IH. pose proof (rest_shorter _ _ _ E). lia.
    + apply (HM _ _ E). apply IH. simpl in B. lia.
Qed.

Lemma substitute_undefined s :
  (forall varName, In varName (placeholders s) ->
     ConfigLoader.processEnv env varName = None) ->
  ConfigLoader.substituteEnvVars env s = s.
Proof.
  pattern s. apply along_the_scan; clear s.
  - reflexivity.
  - intros s v rest E IH H. rewrite (placeholders_hit _ _ _ E) in H.
    rewrite (substitute_hit _ _ _ E), (H v (or_introl eq_refl)), IH.
    + apply placeholderAt_Some in E as (-> & _ & _).
      now rewrite !append_assoc.
    + intros n I. apply H. now right.
  - intros c r E IH H. rewrite (placeholders_miss _ _ E) in H.
    now rewrite (substitute_miss _ _ E), IH.
Qed.

Lemma substitute_keeps_missing s :
  (exists varName, In varName (placeholders s) /\
     ConfigLoader.processEnv env varName = None) ->
  ClientManager.hasPlaceholder (ConfigLoader.substituteEnvVars env s) = true.
Proof.
  pattern s. apply along_the_scan; clear s.
  - intros [v [[] _]].
  - intros s v rest E IH [n [I M]]. rewrite (placeholders_hit _ _ _ E) in I.
    rewrite (substitute_hit _ _ _ E).
    pose proof (placeholderAt_Some _ _ _ E) as (_ & N & F).
    destruct I as [<-|I].
    + rewrite M.
      replace (("${" ++ v ++ "}") ++ ConfigLoader.substituteEnvVars env rest)
        with ("${" ++ v ++ String "}" (ConfigLoader.substituteEnvVars env rest))
        by (cbn [append]; now rewrite append_assoc).
      cbn [append ClientManager.hasPlaceholder].
      change (String "$" (String "{" (v ++ String "}"
                (ConfigLoader.substituteEnvVars env rest))))
        with ("${" ++ v ++ String "}" (ConfigLoader.substituteEnvVars env rest)).
      now rewrite (placeholderAt_literal _ _ N F).
    + apply hasPlaceholder_app. apply IH. now exists n.
  - intros c r E IH H. rewrite (placeholders_miss _ _ E) in H.
    rewrite (substitute_miss _ _ E). cbn [ClientManager.hasPlaceholder].
    destruct (ConfigLoader.placeholderAt
                (String c (ConfigLoader.substituteEnvVars env r)));
      [reflexivity | now apply IH].
Qed.

End Placeholders.

Section ConfigValues.

Variable env : string -> option string.

Lemma noDupStrings_NoDup l : noDupStrings l = true <-> NoDup l.
Proof.
  induction l as [|x l IH]; [split; [constructor | reflexivity]|].
  cbn [noDupStrings]. rewrite andb_true_iff, negb_true_iff, IH. split.
  - intros [H1 H2]. constructor; [|exact H2].
    intros I. apply existsb_string_In in I. congruence.
  - intros H. inversion H as [|? ? N D]; subst. split; [|exact D].
    destruct (existsb (String.eqb x) l) eqn:E; [|reflexivity].
    apply existsb_string_In in E. contradiction.
Qed.

Lemma setField_fresh {A} k (v : A) acc :
  ~ In k (map fst acc) -> Js.setField k v acc = (acc ++ [(k, v)])%list.
Proof.
  induction acc as [|[k' w] rest IH]; intros N; [reflexivity|].
  simpl in *. destruct (String.eqb_spec k' k) as [->|D].
  - exfalso. apply N. now left.
  - rewrite IH; [reflexivity|]. intros I. apply N. now right.
Qed.

Lemma fromEntries_unique {A} (entries : list (string * A)) :
  NoDup (map fst entries) -> Js.fromEntries entries = entries.
Proof.
  unfold Js.fromEntries.
  assert (G : forall acc, NoDup (map fst (acc ++ entries)%list) ->
              fold_left (fun acc kv => Js.setField (fst kv) (snd kv) acc) entries acc =
              (acc ++ entries)%list).
  { induction entries as [|[k v] rest IH]; intros acc N.
    - simpl. now rewrite app_nil_r.
    - cbn [fold_left fst snd]. rewrite setField_fresh.
      + rewrite IH; rewrite <- app_assoc; [reflexivity | exact N].
      + rewrite map_app in N. cbn [map fst] in N.
        apply NoDup_remove_2 in N. intros I. apply N. apply in_or_app. now left. }
  intros N. now apply (G []).
Qed.

Lemma map_values_keys {A B} (g : A -> B) (fields : list (string * A)) :
  map fst (map (fun kv => (fst kv, g (snd kv))) fields) = map fst fields.
Proof. rewrite map_map. now apply map_ext. Qed.

Lemma processEnv_None varName :
  ConfigLoader.processEnv env varName = None <->
  env varName = None /\ Js.inherited varName = false.
Proof.
  unfold ConfigLoader.processEnv.
  destruct (env varName); [split; [discriminate | now intros [? _]]|].
  destruct (Js.inherited varName); split; try discriminate; auto.
  now intros [_ ?].
Qed.

Lemma filter_all {A} (p : A -> bool) l : forallb p l = true -> filter p l = l.
Proof.
  induction l as [|x l IH]; [reflexivity|]. cbn [forallb filter].
  intros H. apply andb_true_iff in H as [-> H]. now rewrite IH.
Qed.

Lemma substituteObject_fields fields :
  noDupStrings (map fst fields) = true ->
  forallb (fun kv : string * json => negb (String.eqb (fst kv) "__proto__"))
    fields = true ->
  ConfigLoader.substituteEnvVarsInObject env (JObj fields) =
  JObj (map (fun kv => (fst kv, ConfigLoader.substituteEnvVarsInObject env (snd kv)))
          fields).
Proof.
  intros N P. cbn [ConfigLoader.substituteEnvVarsInObject]. f_equal.
  unfold ConfigLoader.assignAll. rewrite filter_all.
  - apply fromEntries_unique. rewrite map_values_keys. now apply noDupStrings_NoDup.
  - rewrite forallb_forall in *. intros kv I. apply in_map_iff in I as [x [<- I]].
    exact (P x I).
Qed.

Lemma hasUnresolved_stringValues v :
  ClientManager.hasUnresolvedEnvPlaceholders v =
  existsb ClientManager.hasPlaceholder (stringValues v).
Proof.
  pattern v. apply json_induction; clear v; try reflexivity.
  - intros s. cbn. now rewrite orb_false_r.
  - intros items F. cbn [ClientManager.hasUnresolvedEnvPlaceholders stringValues].
    induction F as [|x l H F IH]; [reflexivity|].
    cbn [existsb flat_map]. now rewrite existsb_app, H, IH.
  - intros fields F. cbn [ClientManager.hasUnresolvedEnvPlaceholders stringValues].
    induction F as [|x l H F IH]; [reflexivity|].
    cbn [existsb flat_map]. now rewrite existsb_app, H, IH.
Qed.

Lemma substitute_stringValues v :
  uniqueKeys v = true -> plainKeys v = true ->
  stringValues (ConfigLoader.substituteEnvVarsInObject env v) =
  map (ConfigLoader.substituteEnvVars env) (stringValues v).
Proof.
  pattern v. apply json_induction; clear v; try reflexivity.
  - intros items F U K. cbn [uniqueKeys plainKeys] in U, K.
    cbn [ConfigLoader.substituteEnvVarsInObject stringValues].
    induction F as [|x l H F IH]; [reflexivity|].
    cbn [forallb] in U, K. apply andb_true_iff in U as [U1 U2].
    apply andb_true_iff in K as [K1 K2].
    cbn [map flat_map]. now rewrite map_app, H, IH.
  - intros fields F U K. cbn [uniqueKeys plainKeys] in U, K.
    apply andb_true_iff in U as [N U]. apply andb_true_iff in K as [P K].
    rewrite (substituteObject_fields _ N P). cbn [stringValues]. clear N P.
    induction F as [|x l H F IH]; [reflexivity|].
    cbn [forallb] in U, K. apply andb_true_iff in U as [U1 U2].
    apply andb_true_iff in K as [K1 K2].
    cbn [map flat_map snd]. now rewrite map_app, H, IH.
Qed.

Lemma substitute_plain v :
  uniqueKeys v = true -> plainKeys v = true ->
  ClientManager.hasUnresolvedEnvPlaceholders v = false ->
  ConfigLoader.substituteEnvVarsInObject env v = v.
Proof.
  pattern v. apply json_induction; clear v; try reflexivity.
  - intros s _ _ H. cbn in *. f_equal. apply substitute_undefined.
    intros n I. exfalso.
    assert (P : placeholders s <> []) by (intros E; now rewrite E in I).
    apply hasPlaceholder_placeholders in P. congruence.
  - intros items F U K H.
    cbn [uniqueKeys plainKeys ClientManager.hasUnresolvedEnvPlaceholders] in *.
    cbn [ConfigLoader.substituteEnvVarsInObject]. f_equal.
    induction F as [|x l HX F IH]; [reflexivity|].
    cbn [forallb existsb] in *. apply andb_true_iff in U as [U1 U2].
    apply andb_true_iff in K as [K1 K2].
    apply orb_false_iff in H as [H1 H2].
    cbn [map]. now rewrite HX, IH.
  - intros fields F U K H.
    cbn [uniqueKeys plainKeys ClientManager.hasUnresolvedEnvPlaceholders] in *.
    apply andb_true_iff in U as [N U]. apply andb_true_iff in K as [P K].
    rewrite (substituteObject_fields _ N P). f_equal. clear N P.
    induction F as [|[k x] l HX F IH]; [reflexivity|].
    cbn [forallb existsb snd] in *. apply andb_true_iff in U as [U1 U2].
    apply andb_true_iff in K as [K1 K2].
    apply orb_false_iff in H as [H1 H2].
    cbn [map fst snd]. now rewrite HX, IH.
Qed.

(** X21.  The substitution of environment variables changes only the
    placeholders for which [process.env] has an answer: a string in which
    every placeholder names a variable that is not set, and that is not
    the name of a property of [Object.prototype], is returned as it is, and
    so is any string without placeholders, and every structured value
    (with the unique keys that [JSON.parse] gives, none of them
    [__proto__]) that holds no placeholder.  A placeholder of a set
    variable is replaced by its value; and a placeholder of a name that
    [process.env] inherits, [constructor] say, is replaced by the text of
    the inherited property although no such variable is set. *)
Theorem substitution_changes_set_placeholders_only :
  (forall s,
     (forall varName, In varName (placeholders s) ->
        env varName = None /\ Js.inherited varName = false) ->
     ConfigLoader.substituteEnvVars env s = s) /\
  (forall s, ClientManager.hasPlaceholder s = false ->
             ConfigLoader.substituteEnvVars env s = s) /\
  (forall v, uniqueKeys v = true -> plainKeys v = true ->
             ClientManager.hasUnresolvedEnvPlaceholders v = false ->
             ConfigLoader.substituteEnvVarsInObject env v = v) /\
  (forall varName value rest,
     varName <> EmptyString -> JsString.includes "}" varName = false ->
     env varName = Some value ->
     ConfigLoader.substituteEnvVars env ("${" ++ varName ++ "}" ++ rest) =
     value ++ ConfigLoader.substituteEnvVars env rest) /\
  ConfigLoader.substituteEnvVars (fun _ => None) "${HOME}/${constructor}" =
    "${HOME}/function Object() { [native code] }" /\
  ConfigLoader.substituteEnvVars (fun _ => None) "${__proto__}" =
    "[object Object]" /\
  ConfigLoader.substituteEnvVars (fun _ => None) "${toString}" =
    "function toString() { [native code] }".
Proof.
  split; [|split; [|split; [apply substitute_plain|split; [|repeat split; reflexivity]]]].
  - intros s H. apply substitute_undefined. intros n I.
    apply processEnv_None. now apply H.
  - intros s H. apply substitute_undefined. intros n I. exfalso.
    assert (P : placeholders s <> []) by (intros E; now rewrite E in I).
    apply hasPlaceholder_placeholders in P. congruence.
  - intros varName value rest N F E.
    change ("${" ++ varName ++ "}" ++ rest)
      with ("${" ++ varName ++ String "}" rest).
    rewrite (substitute_hit _ _ _ _ (placeholderAt_literal _ _ N F)).
    unfold ConfigLoader.processEnv. now rewrite E.
Qed.

(** X22.  A placeholder for which [process.env] has no answer survives the
    substitution, and the backend whose configuration holds it is skipped:
    if some string value of a configuration (with unique keys, none of them
    [__proto__]) has a placeholder naming a variable that is not set and
    that is not the name of a property of [Object.prototype], the loaded
    configuration still has an unresolved placeholder and is not among
    those that [connectAll] tries to connect. *)
Theorem missing_variable_skips_the_backend c s varName configs :
  uniqueKeys c = true -> plainKeys c = true ->
  In s (stringValues c) -> In varName (placeholders s) ->
  env varName = None -> Js.inherited varName = false ->
  ClientManager.hasUnresolvedEnvPlaceholders
    (ConfigLoader.substituteEnvVarsInObject env c) = true /\
  ~ In (ConfigLoader.substituteEnvVarsInObject env c) (ClientManager.eligible configs) /\
  (forall loaded,
     In loaded (ClientManager.eligible configs) <->
     In loaded configs /\
     forall value, In value (stringValues loaded) -> placeholders value = []).
Proof.
  intros U K I P M NI.
  assert (E : forall loaded,
            In loaded (ClientManager.eligible configs) <->
            In loaded configs /\
            forall value, In value (stringValues loaded) -> placeholders value = []).
  { intros loaded. unfold ClientManager.eligible.
    rewrite filter_In, negb_true_iff, hasUnresolved_stringValues.
    split; intros [J H]; (split; [exact J|]).
    - intros value V.
      destruct (placeholders value) as [|x l] eqn:PV; [reflexivity|].
      assert (T : ClientManager.hasPlaceholder value = true)
        by (apply hasPlaceholder_placeholders; now rewrite PV).
      assert (X : existsb ClientManager.hasPlaceholder (stringValues loaded) = true)
        by (apply existsb_exists; now exists value).
      congruence.
    - destruct (existsb ClientManager.hasPlaceholder (stringValues loaded)) eqn:X;
        [|reflexivity].
      apply existsb_exists in X as [value [V T]].
      apply hasPlaceholder_placeholders in T. now specialize (H value V). }
  assert (H : ClientManager.hasUnresolvedEnvPlaceholders
                (ConfigLoader.substituteEnvVarsInObject env c) = true).
  { rewrite hasUnresolved_stringValues, (substitute_stringValues _ U K).
    apply existsb_exists. exists (ConfigLoader.substituteEnvVars env s). split.
    - now apply in_map.
    - apply substitute_keeps_missing. exists varName. split; [exact P|].
      now apply processEnv_None. }
  split; [exact H|]. split; [|exact E]. unfold ClientManager.eligible. intros J.
  apply filter_In in J as [_ J]. rewrite H in J. discriminate.
Qed.

End ConfigValues.

Lemma missing_variable_skips_the_backend_witness :
  let env := homeOnly in
  let c := JObj [("name", JStr "github");
                 ("args", JArr [JStr "${HOME}/bin/server"]);
                 ("env", JObj [("GITHUB_TOKEN", JStr "Bearer ${GITHUB_TOKEN}")])] in
  ConfigLoader.substituteEnvVarsInObject env c =
    JObj [("name", JStr "github");
          ("args", JArr [JStr "/root/bin/server"]);
          ("env", JObj [("GITHUB_TOKEN", JStr "Bearer ${GITHUB_TOKEN}")])] /\
  ClientManager.hasUnresolvedEnvPlaceholders
    (ConfigLoader.substituteEnvVarsInObject env c) = true /\
  ~ In (ConfigLoader.substituteEnvVarsInObject env c)
       (ClientManager.eligible [ConfigLoader.substituteEnvVarsInObject env c]).
Proof.
  intros env c. split; [reflexivity|].
  refine ((fun T => conj (proj1 T) (proj1 (proj2 T))) _).
  apply (missing_variable_skips_the_backend env c "Bearer ${GITHUB_TOKEN}"
           "GITHUB_TOKEN" [ConfigLoader.substituteEnvVarsInObject env c]).
  - reflexivity.
  - reflexivity.
  - simpl. right. right. now left.
  - now left.
  - reflexivity.
  - reflexivity.
Defined.

(* ===================================================================== *)
(** * The commands of the approval channel *)
(* ===================================================================== *)

Section Durations.

Lemma parseInt_go_nonneg digits :
  forall acc, (0 <= acc)%Z -> (0 <= TelegramBot.parseInt_go acc digits)%Z.
Proof.
  induction digits as [|c r IH]; intros acc H; [exact H|].
  cbn [TelegramBot.parseInt_go]. apply IH. lia.
Qed.

Lemma spanDigits_app digits c rest :
  allChars TelegramBot.isDigit digits = true ->
  TelegramBot.isDigit c = false ->
  TelegramBot.spanDigits (digits ++ String c rest) = (digits, String c rest).
Proof.
  intros D N. induction digits as [|d r IH].
  - cbn. now rewrite N.
  - cbn [allChars] in D. apply andb_true_iff in D as [D1 D2].
    cbn [append TelegramBot.spanDigits]. now rewrite D1, (IH D2).
Qed.

Lemma spanDigits_all digits :
  allChars TelegramBot.isDigit digits = true ->
  TelegramBot.spanDigits digits = (digits, EmptyString).
Proof.
  intros D. induction digits as [|d r IH]; [reflexivity|].
  cbn [allChars] in D. apply andb_true_iff in D as [D1 D2].
  cbn [TelegramBot.spanDigits]. now rewrite D1, (IH D2).
Qed.

Lemma strOr_Some s b : s <> EmptyString -> Js.strOr (Some s) b = s.
Proof.
  intros N. unfold Js.strOr. now destruct (String.eqb_spec s "").
Qed.

Lemma parseDuration_positive str seconds :
  TelegramBot.parseDuration str = Some seconds ->
  (0 < seconds)%Z /\ (seconds mod 60 = 0)%Z.
Proof.
  unfold TelegramBot.parseDuration.
  destruct (TelegramBot.matchDuration str) as [[h m]|]; [|discriminate].
  pose proof (parseInt_go_nonneg (Js.strOr h "0") 0 (Z.le_refl 0)) as H.
  pose proof (parseInt_go_nonneg (Js.strOr m "0") 0 (Z.le_refl 0)) as M.
  fold (TelegramBot.parseInt (Js.strOr h "0")) in H.
  fold (TelegramBot.parseInt (Js.strOr m "0")) in M.
  destruct (Z.eqb_spec (TelegramBot.parseInt (Js.strOr h "0")) 0) as [E1|E1];
    destruct (Z.eqb_spec (TelegramBot.parseInt (Js.strOr m "0")) 0) as [E2|E2];
    cbn [andb]; try discriminate;
    intros X; injection X as <-;
    (split; [lia|]);
    replace (TelegramBot.parseInt (Js.strOr h "0") * 3600 +
             TelegramBot.parseInt (Js.strOr m "0") * 60)%Z
      with ((TelegramBot.parseInt (Js.strOr h "0") * 60 +
             TelegramBot.parseInt (Js.strOr m "0")) * 60)%Z by lia;
    apply Z.mod_mul; lia.
Qed.

Lemma length_app a b :
  String.length (a ++ b) = (String.length a + String.length b)%nat.
Proof. induction a as [|c a IH]; [reflexivity|]. cbn. now rewrite IH. Qed.

Lemma spanDigits_spec s :
  s = fst (TelegramBot.spanDigits s) ++ snd (TelegramBot.spanDigits s) /\
  allChars TelegramBot.isDigit (fst (TelegramBot.spanDigits s)) = true.
Proof.
  induction s as [|c r [IH1 IH2]]; [split; reflexivity|].
  cbn [TelegramBot.spanDigits].
  destruct (TelegramBot.isDigit c) eqn:D; [|split; reflexivity].
  destruct (TelegramBot.spanDigits r) as [digits rest]. cbn [fst snd] in *.
  split; [cbn [append]; now f_equal|].
  cbn [allChars]. now rewrite D.
Qed.

Lemma parseInt_go_bound digits :
  allChars TelegramBot.isDigit digits = true ->
  forall acc, (0 <= acc)%Z ->
  (TelegramBot.parseInt_go acc digits <
   (acc + 1) * 10 ^ Z.of_nat (String.length digits))%Z.
Proof.
  induction digits as [|c r IH]; intros D acc H.
  - cbn. lia.
  - cbn [allChars] in D. apply andb_true_iff in D as [D1 D2].
    cbn [TelegramBot.parseInt_go String.length].
    unfold TelegramBot.isDigit in D1. apply andb_true_iff in D1 as [Lo Hi].
    apply Nat.leb_le in Lo, Hi.
    specialize (IH D2 (acc * 10 + Z.of_nat (nat_of_ascii c - 48))%Z ltac:(lia)).
    rewrite Nat2Z.inj_succ, Z.pow_succ_r by lia.
    assert (P : (0 < 10 ^ Z.of_nat (String.length r))%Z)
      by (apply Z.pow_pos_nonneg; lia).
    nia.
Qed.

Lemma parseInt_bound digits :
  allChars TelegramBot.isDigit digits = true ->
  (String.length digits <= 12)%nat ->
  (0 <= TelegramBot.parseInt digits < 1000000000000)%Z.
Proof.
  intros D L. split; [apply parseInt_go_nonneg; lia|].
  pose proof (parseInt_go_bound digits D 0 (Z.le_refl 0)) as B.
  fold (TelegramBot.parseInt digits) in B.
  assert (M : (10 ^ Z.of_nat (String.length digits) <= 10 ^ 12)%Z)
    by (apply Z.pow_le_mono_r; lia).
  change (10 ^ 12)%Z with 1000000000000%Z in M. lia.
Qed.

(** The groups of a match are runs of digits, each shorter than the
    string. *)
Lemma matchDuration_groups str h m :
  TelegramBot.matchDuration str = Some (h, m) ->
  (forall x, h = Some x ->
     allChars TelegramBot.isDigit x = true /\
     (String.length x < String.length str)%nat) /\
  (forall y, m = Some y ->
     allChars TelegramBot.isDigit y = true /\
     (String.length y < String.length str)%nat).
Proof.
  unfold TelegramBot.matchDuration.
  destruct (spanDigits_spec str) as [S1 D1].
  destruct (TelegramBot.spanDigits str) as [d1 r1]. cbn [fst snd] in S1, D1.
  set (hr := match d1, r1 with
             | String _ _, String c r =>
                 if Ascii.eqb c "h"%char then (Some d1, r) else (None, str)
             | _, _ => (None, str)
             end).
  assert (HR : (fst hr = None /\ snd hr = str) \/
               (fst hr = Some d1 /\ str = d1 ++ String "h" (snd hr))).
  { subst hr. destruct d1 as [|a d]; [now left|].
    destruct r1 as [|c r]; [now left|].
    destruct (Ascii.eqb_spec c "h"%char) as [->|]; [right | now left].
    split; [reflexivity | exact S1]. }
  destruct hr as [hours rest]. cbn [fst snd] in HR.
  destruct (spanDigits_spec rest) as [S2 D2].
  destruct (TelegramBot.spanDigits rest) as [d2 r2]. cbn [fst snd] in S2, D2.
  assert (LR : (String.length rest <= String.length str)%nat).
  { destruct HR as [[_ ->] | [_ ->]]; [lia|].
    rewrite length_app. cbn [String.length]. lia. }
  assert (HH : forall x, hours = Some x ->
             allChars TelegramBot.isDigit x = true /\
             (String.length x < String.length str)%nat).
  { intros x ->. destruct HR as [[X _] | [X E]]; [discriminate|].
    injection X as ->. split; [exact D1|].
    rewrite E, length_app. cbn [String.length]. lia. }
  destruct d2 as [|a d].
  - destruct r2; [|discriminate]. intros [= <- <-]. split; [exact HH | discriminate].
  - destruct r2 as [|c [|]]; try discriminate.
    destruct (Ascii.eqb c "m"%char); [|discriminate].
    intros [= <- <-]. split; [exact HH|].
    intros y [= <-]. split; [exact D2|].
    assert (String.length rest = S (String.length (String a d))) as LL.
    { rewrite S2, length_app. cbn [String.length]. lia. }
    lia.
Qed.

(** Within thirteen characters the seconds stay below 2^53, where the
    numbers of the code are exact. *)
Lemma parseDuration_exact str seconds :
  (String.length str <= 13)%nat ->
  TelegramBot.parseDuration str = Some seconds ->
  (seconds < 9007199254740992)%Z.
Proof.
  intros L. unfold TelegramBot.parseDuration.
  destruct (TelegramBot.matchDuration str) as [[h m]|] eqn:M; [|discriminate].
  destruct (matchDuration_groups _ _ _ M) as [GH GM].
  assert (B : forall g, (forall x, g = Some x ->
                allChars TelegramBot.isDigit x = true /\
                (String.length x < String.length str)%nat) ->
              (0 <= TelegramBot.parseInt (Js.strOr g "0") < 1000000000000)%Z).
  { intros g G. destruct g as [x|]; [|cbn; lia].
    destruct (G x eq_refl) as [D Lx]. unfold Js.strOr.
    destruct (String.eqb x ""); [cbn; lia|].
    apply parseInt_bound; [exact D | lia]. }
  pose proof (B h GH) as BH. pose proof (B m GM) as BM.
  destruct ((_ =? 0)%Z && (_ =? 0)%Z); [discriminate|].
  intros [= <-]. lia.
Qed.

(** X23.  On the durations of at most thirteen characters, where the
    numbers of the code are exact, [parseDuration] accepts a run of digits
    with [h], a run of digits with [m], or the first followed by the
    second, and nothing else: a bare number, the empty string included, is
    refused.  What it returns is the number of seconds of the hours and
    minutes written, never zero and never negative (zero hours and zero
    minutes are refused), a multiple of 60 below 2^53, so that a grant made
    from it expires after it was created. *)
Theorem parseDuration_accepts_hours_and_minutes :
  (forall str seconds,
     (String.length str <= 13)%nat ->
     TelegramBot.parseDuration str = Some seconds ->
     (0 < seconds < 9007199254740992)%Z /\ (seconds mod 60 = 0)%Z) /\
  (forall hours minutes,
     allChars TelegramBot.isDigit hours = true -> hours <> EmptyString ->
     allChars TelegramBot.isDigit minutes = true -> minutes <> EmptyString ->
     (String.length hours <= 12)%nat -> (String.length minutes <= 12)%nat ->
     let seconds := (TelegramBot.parseInt hours * 3600 +
                     TelegramBot.parseInt minutes * 60)%Z in
     (0 <= TelegramBot.parseInt hours < 1000000000000)%Z /\
     (0 <= TelegramBot.parseInt minutes < 1000000000000)%Z /\
     TelegramBot.parseDuration (hours ++ "h" ++ minutes ++ "m") =
       (if (seconds =? 0)%Z then None else Some seconds) /\
     TelegramBot.parseDuration (hours ++ "h") =
       (if (TelegramBot.parseInt hours =? 0)%Z then None
        else Some (TelegramBot.parseInt hours * 3600)%Z) /\
     TelegramBot.parseDuration (minutes ++ "m") =
       (if (TelegramBot.parseInt minutes =? 0)%Z then None
        else Some (TelegramBot.parseInt minutes * 60)%Z)) /\
  (forall digits,
     allChars TelegramBot.isDigit digits = true ->
     TelegramBot.parseDuration digits = None) /\
  TelegramBot.parseDuration "2h30m" = Some 9000%Z /\
  TelegramBot.parseDuration "90m" = Some 5400%Z /\
  TelegramBot.parseDuration "0h0m" = None /\
  TelegramBot.parseDuration "1h30" = None.
Proof.
  split; [|split; [|split; [|repeat split; reflexivity]]].
  - intros str seconds L P.
    destruct (parseDuration_positive _ _ P) as [POS MOD].
    pose proof (parseDuration_exact _ _ L P). repeat split; trivial.
  - intros hours minutes DH NH DM NM LH LM seconds.
    pose proof (parseInt_bound hours DH LH) as PH.
    pose proof (parseInt_bound minutes DM LM) as PM.
    split; [exact PH|]. split; [exact PM|].
    unfold TelegramBot.parseDuration, TelegramBot.matchDuration.
    change (hours ++ "h" ++ minutes ++ "m")
      with (hours ++ String "h" (minutes ++ String "m" EmptyString)).
    change (hours ++ "h") with (hours ++ String "h" EmptyString).
    change (minutes ++ "m") with (minutes ++ String "m" EmptyString).
    rewrite !(spanDigits_app hours "h") by (assumption || reflexivity).
    rewrite !(spanDigits_app minutes "m") by (assumption || reflexivity).
    destruct hours as [|h0 hr]; [congruence|].
    destruct minutes as [|m0 mr]; [congruence|].
    cbn [Ascii.eqb Bool.eqb].
    rewrite !(spanDigits_app (String m0 mr) "m") by (assumption || reflexivity).
    cbn [TelegramBot.spanDigits Ascii.eqb Bool.eqb].
    rewrite !strOr_Some by discriminate.
    cbn [Js.strOr].
    change (TelegramBot.parseInt "0") with 0%Z.
    subst seconds. split; [|split].
    + destruct (Z.eqb_spec (TelegramBot.parseInt (String h0 hr)) 0) as [E1|E1];
        destruct (Z.eqb_spec (TelegramBot.parseInt (String m0 mr)) 0) as [E2|E2];
        cbn [andb].
      * rewrite E1, E2. reflexivity.
      * replace (_ =? 0)%Z with false; [reflexivity|]. symmetry. apply Z.eqb_neq. lia.
      * replace (_ =? 0)%Z with false; [reflexivity|]. symmetry. apply Z.eqb_neq. lia.
      * replace (_ =? 0)%Z with false; [reflexivity|]. symmetry. apply Z.eqb_neq. lia.
    + change (0 * 60)%Z with 0%Z. rewrite Z.add_0_r, andb_true_r. reflexivity.
    + reflexivity.
  - intros digits D. unfold TelegramBot.parseDuration, TelegramBot.matchDuration.
    rewrite (spanDigits_all _ D).
    destruct digits as [|d r]; [reflexivity|].
    rewrite (spanDigits_all _ D). reflexivity.
Qed.

End Durations.

Section AdminCommands.

Lemma isAdmin_refuses chat w :
  adminChatId w = EmptyString \/ chat <> Some (adminChatId w) ->
  TelegramBot.isAdmin chat w =
    (set_outbox w
       (outbox w ++
        [(chat, if String.eqb (adminChatId w) "" then NotPairedYet else Unauthorized)]),
     Returned false).
Proof.
  intros H. unfold TelegramBot.isAdmin, reply. run.
  destruct (String.eqb_spec (adminChatId w) "") as [E|E]; [reflexivity|].
  destruct H as [H|H]; [contradiction|].
  destruct chat as [c|]; [|reflexivity].
  destruct (String.eqb_spec c (adminChatId w)) as [->|N]; [congruence | reflexivity].
Qed.

Lemma isAdmin_admits w :
  adminChatId w <> EmptyString ->
  TelegramBot.isAdmin (Some (adminChatId w)) w = (w, Returned true).
Proof.
  intros H. unfold TelegramBot.isAdmin. run.
  destruct (String.eqb_spec (adminChatId w) ""); [contradiction|].
  now rewrite String.eqb_refl.
Qed.

(** X24.  Only the paired admin drives the approval channel: from any
    other chat, and from every chat while none is paired, the commands that
    change the stores ([/grant], [/revoke], [/allow], [/deny], [/unrule])
    and the buttons change no file, draw no identifier, dispatch nothing
    and leave the pairing and the queue of notices as they are; the chat is
    answered with the refusal, and with nothing else. *)
Theorem strangers_change_nothing env cfg chat cmd w :
  adminChatId w = EmptyString \/ chat <> Some (adminChatId w) ->
  runCommand env cfg chat cmd w =
    (set_outbox w
       (outbox w ++
        [(chat, if String.eqb (adminChatId w) "" then NotPairedYet else Unauthorized)]),
     Returned tt).
Proof.
  intros H. pose proof (isAdmin_refuses chat w H) as R.
  destruct cmd; unfold runCommand, TelegramBot.onGrant, TelegramBot.onRevoke,
    TelegramBot.onAllow, TelegramBot.onDeny, TelegramBot.onUnrule,
    TelegramBot.onCallbackQuery, bind, tryCatch, ret; now rewrite R.
Qed.

Lemma strangers_change_nothing_witness :
  runCommand sampleEnv secretConfig (Some "222") (CmdAllow "/allow stripe/*")
    (pairedWorld "111") =
  (set_outbox (pairedWorld "111") [(Some "222", Unauthorized)], Returned tt).
Proof.
  apply (strangers_change_nothing sampleEnv secretConfig (Some "222")
           (CmdAllow "/allow stripe/*") (pairedWorld "111")).
  right. discriminate.
Defined.

Lemma upsertRuleReturning_run env pattern action w :
  exists id,
    TelegramBot.upsertRuleReturning env pattern action w =
      (mkWorld
         (set_rulesJson (disk w)
            (PolicyRulesDB.upsert id (clock w) pattern action (rulesJson (disk w))))
         (clock w)
         (match List.find (PolicyRulesDB.hasPattern pattern)
                  (readJsonFile (rulesJson (disk w)) []) with
          | Some _ => uuids w
          | None => S (uuids w)
          end)
         (adminChatId w) (noticeQueue w) (noticeFlushTimer w) (dispatched w)
         (outbox w),
       Returned (PolicyRulesDB.upserted id (clock w) pattern action
                   (rulesJson (disk w)))).
Proof.
  unfold TelegramBot.upsertRuleReturning, onRules, Js.find. run.
  destruct (List.find _ (readJsonFile (rulesJson (disk w)) [])); run.
  - exists EmptyString. now destruct w.
  - exists (uuidv4 env (uuids w)). reflexivity.
Qed.

Lemma resolver_after_upsert engine id now pattern action f :
  PolicyEngine.hasPolicyRulesDB engine = true ->
  PolicyEngine.checkPolicyDetailed engine
    (PolicyRulesDB.upsert id now pattern action f) pattern =
  PolicyEngine.mkDetailed action PolicyEngine.db_rule (Some pattern)
    (Some (rule_id (PolicyRulesDB.upserted id now pattern action f))).
Proof.
  intros H. unfold PolicyEngine.checkPolicyDetailed, PolicyRulesDB.resolveDetailed, Js.find.
  rewrite H, upsert_find. unfold PolicyRulesDB.resolvedOf, PolicyRulesDB.upserted.
  destruct (Js.find _ _); reflexivity.
Qed.

(** X25.  When the paired admin sends [/allow] or [/deny] followed by a
    space and a pattern, the tool named by the pattern is resolved from
    then on to that action, from the rule the command answers with, whatever
    the static policies say; nothing but the rules file (and the count of
    identifiers drawn) changes.  The pattern is what stands between the
    first space and the next, so a command that ends in a space makes a rule
    for the empty pattern. *)
Theorem admin_rule_commands env engine text pattern more w :
  adminChatId w <> EmptyString ->
  TelegramBot.commandArgs text = pattern :: more ->
  PolicyEngine.hasPolicyRulesDB engine = true ->
  let chat := Some (adminChatId w) in
  (exists rule,
     snd (TelegramBot.onAllow env chat text w) =
       Returned (Some (TelegramBot.RuleAllowed rule)) /\
     rule_pattern rule = pattern /\ rule_action rule = allow /\
     PolicyEngine.checkPolicyDetailed engine
       (rulesJson (disk (fst (TelegramBot.onAllow env chat text w)))) pattern =
     PolicyEngine.mkDetailed allow PolicyEngine.db_rule (Some pattern)
       (Some (rule_id rule))) /\
  (exists rule,
     snd (TelegramBot.onDeny env chat text w) =
       Returned (Some (TelegramBot.RuleDenied rule)) /\
     rule_pattern rule = pattern /\ rule_action rule = deny /\
     PolicyEngine.checkPolicyDetailed engine
       (rulesJson (disk (fst (TelegramBot.onDeny env chat text w)))) pattern =
     PolicyEngine.mkDetailed deny PolicyEngine.db_rule (Some pattern)
       (Some (rule_id rule))) /\
  (forall w', w' = fst (TelegramBot.onAllow env chat text w) \/
              w' = fst (TelegramBot.onDeny env chat text w) ->
     tasksJson (disk w') = tasksJson (disk w) /\
     grantsJson (disk w') = grantsJson (disk w) /\
     adminJson (disk w') = adminJson (disk w) /\
     auditNdjson (disk w') = auditNdjson (disk w) /\
     adminChatId w' = adminChatId w /\ dispatched w' = dispatched w /\
     outbox w' = outbox w).
Proof.
  intros A C H chat. subst chat.
  unfold TelegramBot.onAllow, TelegramBot.onDeny, bind.
  rewrite (isAdmin_admits _ A), C. cbn [negb].
  destruct (upsertRuleReturning_run env pattern allow w) as [ia Ea].
  destruct (upsertRuleReturning_run env pattern deny w) as [id Ed].
  rewrite Ea, Ed. cbn [fst snd ret disk rulesJson set_rulesJson].
  assert (P : forall i a, rule_pattern (PolicyRulesDB.upserted i (clock w) pattern a
                            (rulesJson (disk w))) = pattern /\
                          rule_action (PolicyRulesDB.upserted i (clock w) pattern a
                            (rulesJson (disk w))) = a).
  { intros i a. unfold PolicyRulesDB.upserted. destruct (Js.find _ _); now split. }
  split; [|split].
  - eexists. split; [reflexivity|]. split; [apply P|]. split; [apply P|].
    now apply resolver_after_upsert.
  - eexists. split; [reflexivity|]. split; [apply P|]. split; [apply P|].
    now apply resolver_after_upsert.
  - intros w' [->| ->]; cbn; repeat split; reflexivity.
Qed.

Lemma admin_rule_commands_witness :
  let w := pairedWorld "111" in
  let engine := PolicyEngine.mkEngine [("stripe/*", allow)] allow true in
  exists rule,
    snd (TelegramBot.onDeny sampleEnv (Some "111") "/deny stripe/* now" w) =
      Returned (Some (TelegramBot.RuleDenied rule)) /\
    rule_pattern rule = "stripe/*" /\ rule_action rule = deny /\
    PolicyEngine.checkPolicyDetailed engine
      (rulesJson (disk (fst (TelegramBot.onDeny sampleEnv (Some "111")
                               "/deny stripe/* now" w)))) "stripe/*" =
    PolicyEngine.mkDetailed deny PolicyEngine.db_rule (Some "stripe/*")
      (Some (rule_id rule)).
Proof.
  intros w engine.
  refine (proj1 (proj2 (admin_rule_commands sampleEnv engine "/deny stripe/* now"
                          "stripe/*" ["now"] w _ eq_refl eq_refl))).
  discriminate.
Defined.

End AdminCommands.

Section GrantCommand.

Lemma hasActiveGrant_written id pattern createdAt expires f t name :
  GrantsDB.hasActiveGrant t name
    (writeJsonFileAtomic f
       (mkGrant id pattern createdAt (Some expires) :: readJsonFile f [])) =
  ((t <? expires)%Z && Pattern.matchesPattern name pattern) ||
  GrantsDB.hasActiveGrant t name f.
Proof.
  unfold GrantsDB.hasActiveGrant.
  rewrite readJsonFile_written. cbn [GrantsDB.anyGrant].
  unfold GrantsDB.grantCovers at 1. cbn [grant_expiresAt grant_pattern].
  now destruct ((t <? expires)%Z && Pattern.matchesPattern name pattern).
Qed.

(** X26.  When the paired admin sends [/grant pattern duration] with a
    duration of at most thirteen characters that [parseDuration] accepts,
    and the grant would expire within the range of dates, a grant for the
    pattern is stored that expires that many seconds after the command:
    from then on a tool has an active grant while the time is before the
    expiry and the pattern matches its name, or if it had one anyway.  When
    the expiry would lie beyond the range of dates, the command throws the
    [RangeError] of [toISOString] and no file changes.  With a duration
    that is refused the command answers so and changes nothing. *)
Theorem admin_grant_command env text pattern durationStr more w :
  adminChatId w <> EmptyString ->
  TelegramBot.commandArgs text = pattern :: durationStr :: more ->
  (String.length durationStr <= 13)%nat ->
  (0 <= clock w <= 8640000000000000)%Z ->
  let r := TelegramBot.onGrant env (Some (adminChatId w)) text w in
  (forall seconds,
     TelegramBot.parseDuration durationStr = Some seconds ->
     let expires := (clock w + seconds * 1000)%Z in
     (seconds < 9007199254740992)%Z /\
     ((expires <= 8640000000000000)%Z ->
      snd r = Returned (Some (TelegramBot.GrantCreated
                                (mkGrant (uuidv4 env (uuids w)) pattern
                                   (Some (clock w)) (Some expires))
                                (seconds / 60))) /\
      (clock w < expires)%Z /\
      readJsonFile (grantsJson (disk (fst r))) [] =
        mkGrant (uuidv4 env (uuids w)) pattern (Some (clock w)) (Some expires)
        :: readJsonFile (grantsJson (disk w)) [] /\
      (forall t name,
         GrantsDB.hasActiveGrant t name (grantsJson (disk (fst r))) = true <->
         ((t < expires)%Z /\ Pattern.matchesPattern name pattern = true) \/
         GrantsDB.hasActiveGrant t name (grantsJson (disk w)) = true) /\
      rulesJson (disk (fst r)) = rulesJson (disk w) /\
      tasksJson (disk (fst r)) = tasksJson (disk w)) /\
     ((8640000000000000 < expires)%Z ->
      snd r = Thrown "Invalid time value" /\
      disk (fst r) = disk w)) /\
  (TelegramBot.parseDuration durationStr = None ->
   r = (w, Returned (Some TelegramBot.InvalidDuration))).
Proof.
  intros A C L N r. subst r. unfold TelegramBot.onGrant, bind.
  rewrite (isAdmin_admits _ A), C. cbn [negb]. split.
  - intros seconds P. cbv zeta. rewrite P.
    destruct (parseDuration_positive _ _ P) as [POS MOD].
    pose proof (parseDuration_exact _ _ L P) as EX.
    destruct (Z.eqb_spec seconds 0) as [Z0|NZ]; [lia|].
    assert (CN : Js.timeClip (clock w) = Some (clock w)).
    { unfold Js.timeClip. replace (Z.abs (clock w) <=? _)%Z with true; [reflexivity|].
      symmetry. apply Z.leb_le. lia. }
    split; [exact EX|]. split.
    + intros E.
      assert (CE : Js.timeClip (clock w + seconds * 1000)%Z =
                   Some (clock w + seconds * 1000)%Z).
      { unfold Js.timeClip.
        replace (Z.abs (clock w + seconds * 1000) <=? _)%Z with true; [reflexivity|].
        symmetry. apply Z.leb_le. lia. }
      unfold TelegramBot.createGrantReturning, onGrants. run.
      rewrite (timeClip_Some_create _ _ _ _ _ CN CE). run.
      rewrite readJsonFile_written.
      split; [|split; [lia|split; [reflexivity|split; [|split; reflexivity]]]].
      * do 3 f_equal. apply Z.mod_divide in MOD; [|lia].
        destruct MOD as [k ->]. rewrite <- Z.mul_opp_l, !Z.div_mul by lia. lia.
      * intros t name. rewrite hasActiveGrant_written, orb_true_iff, andb_true_iff.
        now rewrite Z.ltb_lt.
    + intros E.
      assert (CE : Js.timeClip (clock w + seconds * 1000)%Z = None).
      { unfold Js.timeClip.
        replace (Z.abs (clock w + seconds * 1000) <=? _)%Z with false; [reflexivity|].
        symmetry. apply Z.leb_gt. lia. }
      unfold TelegramBot.createGrantReturning. run.
      rewrite (timeClip_None_create _ _ _ _ _ (or_intror CE)). run.
      split; reflexivity.
  - intros P. now rewrite P.
Qed.

Lemma admin_grant_command_witness :
  GrantsDB.hasActiveGrant 8999999 "github/create_issue"
    (grantsJson (disk (fst (TelegramBot.onGrant sampleEnv (Some "111")
                              "/grant github/* 2h30m" (pairedWorld "111"))))) = true /\
  snd (TelegramBot.onGrant sampleEnv (Some "111")
         "/grant github/* 2400000001h" (pairedWorld "111")) =
    Thrown "Invalid time value".
Proof.
  assert (A : adminChatId (pairedWorld "111") <> EmptyString) by discriminate.
  assert (L1 : (String.length "2h30m" <= 13)%nat) by (cbn; lia).
  assert (L2 : (String.length "2400000001h" <= 13)%nat) by (cbn; lia).
  assert (N : (0 <= clock (pairedWorld "111") <= 8640000000000000)%Z)
    by (cbn; lia).
  split.
  - assert (E : (clock (pairedWorld "111") + 9000 * 1000 <= 8640000000000000)%Z)
      by (cbn; lia).
    apply (proj1 (proj2 (proj2 (proj2 (proj1 (proj2
             (proj1 (admin_grant_command sampleEnv "/grant github/* 2h30m"
                       "github/*" "2h30m" [] (pairedWorld "111") A eq_refl L1 N)
                9000%Z eq_refl)) E))))).
    left. split; [reflexivity | reflexivity].
  - assert (E : (8640000000000000 <
                 clock (pairedWorld "111") + 8640000003600 * 1000)%Z)
      by (cbn; lia).
    exact (proj1 (proj2 (proj2
             (proj1 (admin_grant_command sampleEnv "/grant github/* 2400000001h"
                       "github/*" "2400000001h" [] (pairedWorld "111")
                       A eq_refl L2 N)
                8640000003600%Z eq_refl)) E)).
Defined.

End GrantCommand.

Section Digests.

Lemma upsertRule_run env pattern action w :
  exists id,
    TelegramBot.upsertRule env pattern action w =
      (mkWorld
         (set_rulesJson (disk w)
            (PolicyRulesDB.upsert id (clock w) pattern action (rulesJson (disk w))))
         (clock w)
         (match List.find (PolicyRulesDB.hasPattern pattern)
                  (readJsonFile (rulesJson (disk w)) []) with
          | Some _ => uuids w
          | None => S (uuids w)
          end)
         (adminChatId w) (noticeQueue w) (noticeFlushTimer w) (dispatched w)
         (outbox w),
       Returned tt).
Proof.
  unfold TelegramBot.upsertRule, onRules, Js.find. run.
  destruct (List.find _ (readJsonFile (rulesJson (disk w)) [])); run.
  - exists EmptyString. now destruct w.
  - exists (uuidv4 env (uuids w)). reflexivity.
Qed.

Lemma autoAllowed_spec batch :
  NoDup (TelegramBot.autoAllowed batch) /\
  forall t, In t (TelegramBot.autoAllowed batch) <->
            exists n, In n batch /\ Notice.status n = Notice.ok /\
                      Notice.policyAction n = allow /\ Notice.toolName n = t.
Proof.
  unfold TelegramBot.autoAllowed.
  set (step := fun names n => _).
  assert (G : forall l acc, NoDup acc ->
            NoDup (fold_left step l acc) /\
            forall t, In t (fold_left step l acc) <->
                      In t acc \/
                      exists n, In n l /\ Notice.status n = Notice.ok /\
                                Notice.policyAction n = allow /\ Notice.toolName n = t).
  { induction l as [|n l IH]; intros acc N.
    - split; [exact N|]. intros t. split; [now left|].
      intros [H|[n [[] _]]]. exact H.
    - cbn [fold_left].
      assert (S : NoDup (step acc n) /\
                  forall t, In t (step acc n) <->
                            In t acc \/
                            (Notice.status n = Notice.ok /\
                             Notice.policyAction n = allow /\ Notice.toolName n = t)).
      { subst step. cbn beta.
        destruct (Notice.status n) eqn:S1; destruct (Notice.policyAction n) eqn:S2;
          try (split; [exact N|]; intros t; split; [now left|];
               intros [H|(H1 & H2 & H3)]; [exact H | discriminate]).
        destruct (existsb (String.eqb (Notice.toolName n)) acc) eqn:E.
        - split; [exact N|]. intros t. split; [now left|].
          intros [H|(_ & _ & <-)]; [exact H | now apply existsb_string_In].
        - split.
          + apply NoDup_app; [exact N | constructor; [intros [] | constructor] |].
            intros x I [<-|[]]. apply existsb_string_In in I. congruence.
          + intros t. rewrite in_app_iff. cbn [In]. split.
            * intros [H|[<-|[]]]; [now left | right; now repeat split].
            * intros [H|(_ & _ & <-)]; [now left | right; now left]. }
      destruct S as [S1 S2]. destruct (IH _ S1) as [I1 I2]. split; [exact I1|].
      intros t. rewrite I2, S2. split.
      + intros [[H|H]|[m [I H]]].
        * now left.
        * right. exists n. split; [now left | exact H].
        * right. exists m. split; [now right | exact H].
      + intros [H|[m [[<-|I] H]]].
        * left. now left.
        * left. now right.
        * right. now exists m. }
  destruct (G batch [] (NoDup_nil _)) as [N I]. split; [exact N|].
  intros t. rewrite I. split; [intros [[]|H]; exact H | now right].
Qed.

(** X27.  The buttons under a digest do what they say.  A digest carries
    a pair of buttons for each tool of its batch that ran under [allow],
    each tool once, when there are between one and three such tools, and
    none otherwise; and when the paired admin presses one of the two
    buttons made for a tool (whose name is not empty), the tool is resolved
    from then on to [require-approval], respectively to [deny], from a
    stored rule. *)
Theorem digest_buttons_set_their_rule env cfg engine batch toolName w :
  toolName <> EmptyString ->
  adminChatId w <> EmptyString ->
  PolicyEngine.hasPolicyRulesDB engine = true ->
  let pressed data :=
    rulesJson (disk (fst (TelegramBot.onCallbackQuery env cfg
                            (Some (adminChatId w)) (Some data) w))) in
  (forall w0 digest,
     snd (TelegramBot.flushExecutionNotices w0) = Returned (Some digest) ->
     let names := TelegramBot.autoAllowed (TelegramBot.digest_batch digest) in
     TelegramBot.digest_buttons digest =
       if ((0 <? List.length names) && (List.length names <=? 3))%nat
       then map TelegramBot.policyButtons names else []) /\
  NoDup (TelegramBot.autoAllowed batch) /\
  (forall t, In t (TelegramBot.autoAllowed batch) <->
             exists n, In n batch /\ Notice.status n = Notice.ok /\
                       Notice.policyAction n = allow /\ Notice.toolName n = t) /\
  PolicyEngine.checkPolicy engine
    (pressed (fst (TelegramBot.policyButtons toolName))) toolName = require_approval /\
  PolicyEngine.checkPolicy engine
    (pressed (snd (TelegramBot.policyButtons toolName))) toolName = deny.
Proof.
  intros T A H pressed.
  split.
  { intros w0 digest. unfold TelegramBot.flushExecutionNotices.
    destruct (firstn 25 (noticeQueue w0)) as [|n q]; [discriminate|].
    cbn [set_notices adminChatId].
    destruct (String.eqb (adminChatId w0) ""); [discriminate|].
    cbn [snd]. intros E. injection E as <-. reflexivity. }
  split; [apply autoAllowed_spec|]. split; [apply autoAllowed_spec|].
  assert (E : String.eqb toolName "" = false) by now apply String.eqb_neq.
  subst pressed. cbn beta. unfold TelegramBot.policyButtons. cbn [fst snd].
  unfold TelegramBot.onCallbackQuery, tryCatch, bind.
  rewrite (isAdmin_admits _ A). cbn [negb].
  change ("change_policy:require-approval:" ++ toolName)
    with ("change_policy:" ++ ("require-approval:" ++ toolName)).
  change ("change_policy:deny:" ++ toolName)
    with ("change_policy:" ++ ("deny:" ++ toolName)).
  rewrite !prefix_app.
  cbn [append String.eqb Ascii.eqb Bool.eqb].
  unfold TelegramBot.changePolicy, TelegramBot.afterFirst.
  cbn [Router.cutAt Ascii.eqb Bool.eqb]. rewrite E.
  cbn [String.eqb Ascii.eqb Bool.eqb]. unfold bind, reply. 
  destruct (upsertRule_run env toolName require_approval w) as [i1 E1].
  destruct (upsertRule_run env toolName deny w) as [i2 E2].
  rewrite E1, E2. cbn [fst snd modify disk rulesJson set_rulesJson set_outbox].
  unfold PolicyEngine.checkPolicy.
  now rewrite !resolver_after_upsert.
Qed.

Lemma digest_buttons_set_their_rule_witness :
  PolicyEngine.checkPolicy (PolicyEngine.mkEngine [("fs/read", allow)] allow true)
    (rulesJson (disk (fst (TelegramBot.onCallbackQuery sampleEnv secretConfig
                             (Some "111") (Some "change_policy:deny:fs/read")
                             (pairedWorld "111"))))) "fs/read" = deny.
Proof.
  assert (A : adminChatId (pairedWorld "111") <> EmptyString) by discriminate.
  assert (T : "fs/read" <> EmptyString) by discriminate.
  exact (proj2 (proj2 (proj2 (proj2
           (digest_buttons_set_their_rule sampleEnv secretConfig
              (PolicyEngine.mkEngine [("fs/read", allow)] allow true)
              [] "fs/read" (pairedWorld "111") T A eq_refl))))).
Defined.

Lemma enqueue_served notice w :
  queueServed w -> queueServed (fst (TelegramBot.enqueueExecutionNotice notice w)).
Proof.
  unfold queueServed, TelegramBot.enqueueExecutionNotice. run.
  destruct (String.eqb_spec (adminChatId w) ""); run; [tauto|].
  intros _ _. now split.
Qed.

(** X28.  The queue of execution notices.  While a notice waits, an admin
    chat is paired and a flush is scheduled, and both [enqueue] and [flush]
    keep it so.  A flush takes the (at most 25) oldest notices out of the
    queue into the one digest it hands to [sendMessage], in their order,
    and leaves the others waiting, in their order, with the next flush
    scheduled; it touches nothing else.  So no notice is handed over
    twice.  Delivery is not part of this: the batch has left the queue
    before it is sent, whatever becomes of the send, and a notice raised
    while no admin chat is paired is dropped, not queued. *)
Theorem flush_serves_the_queue notice w :
  queueServed w ->
  let r := TelegramBot.flushExecutionNotices w in
  let batch := match snd r with
               | Returned (Some digest) => TelegramBot.digest_batch digest
               | _ => []
               end in
  let queued := fst (TelegramBot.enqueueExecutionNotice notice w) in
  batch = firstn 25 (noticeQueue w) /\
  noticeQueue (fst r) = skipn 25 (noticeQueue w) /\
  noticeQueue w = (batch ++ noticeQueue (fst r))%list /\
  (List.length batch <= 25)%nat /\
  queueServed (fst r) /\
  queueServed queued /\
  (adminChatId w = EmptyString -> queued = w) /\
  (adminChatId w <> EmptyString ->
   noticeQueue queued = (noticeQueue w ++ [notice (clock w)])%list /\
   noticeFlushTimer queued = true) /\
  disk (fst r) = disk w /\ adminChatId (fst r) = adminChatId w /\
  dispatched (fst r) = dispatched w /\ outbox (fst r) = outbox w.
Proof.
  intros Q r batch queued.
  assert (B : batch = firstn 25 (noticeQueue w) /\
              noticeQueue (fst r) = skipn 25 (noticeQueue w) /\
              (noticeQueue (fst r) <> [] -> noticeFlushTimer (fst r) = true) /\
              disk (fst r) = disk w /\ adminChatId (fst r) = adminChatId w /\
              dispatched (fst r) = dispatched w /\ outbox (fst r) = outbox w).
  { subst batch r. unfold TelegramBot.flushExecutionNotices.
    destruct (noticeQueue w) as [|n q] eqn:E.
    - cbn. repeat split; congruence.
    - destruct Q as [Q1 Q2]; [congruence|].
      assert (F : firstn 25 (n :: q) = n :: firstn 24 q) by reflexivity.
      rewrite F. cbn [set_notices adminChatId].
      destruct (String.eqb_spec (adminChatId w) ""); [contradiction|].
      cbn [snd TelegramBot.digest_batch noticeQueue].
      destruct (skipn 25 (n :: q)) eqn:S; cbn; repeat split; congruence. }
  destruct B as (B1 & B2 & B3 & B4 & B5 & B6 & B7).
  split; [exact B1|]. split; [exact B2|].
  split; [|split; [|split; [|split; [|split; [|split]]]]].
  - rewrite B1, B2. symmetry. apply firstn_skipn.
  - rewrite B1, length_firstn. lia.
  - intros N. split; [now apply B3|]. rewrite B5. apply Q.
    intros E. apply N. now rewrite B2, E.
  - now apply enqueue_served.
  - intros E. subst queued. unfold TelegramBot.enqueueExecutionNotice. run.
    now rewrite E.
  - intros E. subst queued. unfold TelegramBot.enqueueExecutionNotice. run.
    destruct (String.eqb_spec (adminChatId w) ""); [contradiction|].
    run. split; reflexivity.
  - now repeat split.
Qed.

Lemma flush_serves_the_queue_witness :
  let n := ranAllowed in
  let w := fst (TelegramBot.enqueueExecutionNotice n
                  (fst (TelegramBot.enqueueExecutionNotice n (pairedWorld "111")))) in
  let r := TelegramBot.flushExecutionNotices w in
  snd r = Returned (Some (TelegramBot.mkDigest [n 0%Z; n 0%Z]
                            [TelegramBot.policyButtons "fs/read"])) /\
  noticeQueue (fst r) = [] /\ noticeFlushTimer (fst r) = false /\
  queueServed (fst r).
Proof.
  intros n w r.
  assert (Q : queueServed w) by (intros _; split; [reflexivity | discriminate]).
  pose proof (flush_serves_the_queue n w Q) as (_ & _ & _ & _ & S & _).
  split; [reflexivity | split; [reflexivity | split; [reflexivity | exact S]]].
Defined.

End Digests.

(* ===================================================================== *)
(** * Across a restart, and from approval to result *)
(* ===================================================================== *)

Section Restart.

Lemma readable_not_empty chat c : TelegramBot.readable chat = Some c -> c <> EmptyString.
Proof.
  unfold TelegramBot.readable. destruct chat as [x|]; [|discriminate].
  destruct (String.eqb_spec x ""); [discriminate|]. now intros [= <-].
Qed.

Lemma initStorage_frame d :
  adminJson (initStorage d) = adminJson d /\
  tasksJson (initStorage d) = tasksJson d /\
  readJsonFile (rulesJson (initStorage d)) [] = readJsonFile (rulesJson d) [] /\
  readJsonFile (grantsJson (initStorage d)) [] = readJsonFile (grantsJson d) [].
Proof. destruct d. cbn. now repeat split. Qed.

(** X29.  A pairing survives a restart: after a [/pair] with the right
    secret from a chat, a process started on the same data directory has
    that chat as its admin, unless [TELEGRAM_ADMIN_CHAT_ID] is set (and not
    empty), which then wins.  The start keeps the tasks, the rules and the
    grants that were stored, and begins with an empty queue of notices. *)
Theorem pairing_survives_restart cfg chat text c env w :
  pairingCode cfg <> EmptyString ->
  TelegramBot.trim (TelegramBot.afterFirst " " text) = pairingCode cfg ->
  TelegramBot.readable chat = Some c ->
  let paired := fst (TelegramBot.onPair cfg chat text w) in
  let started := Main.start env paired in
  (ConfigLoader.adminChatIdOf env = None ->
   adminChatId started = c /\
   (forall other, snd (TelegramBot.isAdmin other started) = Returned true <->
                  other = Some c)) /\
  (forall configured, ConfigLoader.adminChatIdOf env = Some configured ->
                      adminChatId started = configured) /\
  tasksJson (disk started) = tasksJson (disk w) /\
  readJsonFile (rulesJson (disk started)) [] = readJsonFile (rulesJson (disk w)) [] /\
  readJsonFile (grantsJson (disk started)) [] = readJsonFile (grantsJson (disk w)) [] /\
  noticeQueue started = [].
Proof.
  intros N T R paired started.
  pose proof (readable_not_empty _ _ R) as C.
  assert (P : adminJson (disk paired) = mkFile (Some (Parsed (mkAdminState (Some c)))) None /\
              tasksJson (disk paired) = tasksJson (disk w) /\
              rulesJson (disk paired) = rulesJson (disk w) /\
              grantsJson (disk paired) = grantsJson (disk w)).
  { subst paired. unfold TelegramBot.onPair.
    apply String.eqb_neq in N. rewrite N, T, N, String.eqb_refl, R.
    cbn. repeat split; reflexivity. }
  destruct P as (PA & PT & PR & PG).
  destruct (initStorage_frame (disk paired)) as (IA & IT & IR & IG).
  assert (S : adminChatId started =
              Js.strOr (ConfigLoader.adminChatIdOf env) c).
  { subst started. unfold Main.start. cbn [adminChatId].
    unfold Main.initialAdminChatId. rewrite IA, PA.
    cbn [AdminStore.get readJsonFile target admin_adminChatId].
    f_equal. now apply strOr_Some. }
  split; [|split; [|repeat split]].
  - intros E. rewrite E in S. cbn [Js.strOr] in S. split; [exact S|].
    intros other. rewrite isAdmin_iff, S. split.
    + now intros [_ ->].
    + intros ->. now split.
  - intros configured E. rewrite S, E.
    unfold ConfigLoader.adminChatIdOf in E.
    destruct (env "TELEGRAM_ADMIN_CHAT_ID") as [s|]; [|discriminate].
    destruct (String.eqb_spec s ""); [discriminate|]. injection E as <-.
    now apply strOr_Some.
  - subst started. unfold Main.start. cbn [disk]. now rewrite IT.
  - subst started. unfold Main.start. cbn [disk]. now rewrite IR, PR.
  - subst started. unfold Main.start. cbn [disk]. now rewrite IG, PG.
Qed.

Lemma pairing_survives_restart_witness :
  let paired := fst (TelegramBot.onPair secretConfig (Some "111") "/pair s3cret"
                       (pairedWorld "")) in
  adminChatId (Main.start (fun _ => None) paired) = "111" /\
  adminChatId
    (Main.start (fun name => if String.eqb name "TELEGRAM_ADMIN_CHAT_ID"
                             then Some "999" else None) paired) = "999".
Proof.
  intros paired. split.
  - refine (proj1 (proj1 (pairing_survives_restart secretConfig (Some "111")
                            "/pair s3cret" "111" (fun _ => None) (pairedWorld "")
                            _ eq_refl eq_refl) eq_refl)).
    discriminate.
  - refine (proj1 (proj2 (pairing_survives_restart secretConfig (Some "111")
                            "/pair s3cret" "111"
                            (fun name => if String.eqb name "TELEGRAM_ADMIN_CHAT_ID"
                                         then Some "999" else None)
                            (pairedWorld "") _ eq_refl eq_refl)) "999" eq_refl).
    discriminate.
Defined.

End Restart.

Section Approval.

Lemma updateStatus_get id status now f t :
  TasksDB.get id f = Some t ->
  TasksDB.get id (TasksDB.updateStatus id status now f) =
  Some (let row := TasksDB.with_status status t in
        let row := if TaskStatus_eqb status approved_queued
                   then TasksDB.with_approvedAt now row else row in
        if TaskStatus_eqb status executing
        then TasksDB.with_executedAt now row else row).
Proof.
  intros G. unfold TasksDB.updateStatus.
  rewrite (get_mutate _ _ _ _ G); [reflexivity|]. now destruct status.
Qed.

Lemma executeApprovedTask_run env cfg id t1 w1 mcp tool client :
  TasksDB.get id (tasksJson (disk w1)) = Some t1 ->
  Router.parseNamespace (task_toolName t1) = Returned (mcp, tool) ->
  getClient env mcp = Some client ->
  let w' := fst (TelegramBot.executeApprovedTask env cfg id w1) in
  let running := TasksDB.with_executedAt (clock w1) (TasksDB.with_status executing t1) in
  dispatched w' = (dispatched w1 ++ [mkDispatch mcp tool (task_args t1)])%list /\
  adminChatId w' = adminChatId w1 /\ clock w' = clock w1 /\
  grantsJson (disk w') = grantsJson (disk w1) /\
  rulesJson (disk w') = rulesJson (disk w1) /\
  match client tool (task_args t1) with
  | Returned result =>
      let fakeResult := Anonymizer.deanonymizeResponse (replacements cfg) result in
      TasksDB.get id (tasksJson (disk w')) =
        Some (TasksDB.with_executedAt (clock w1)
                (TasksDB.with_result fakeResult
                   (TasksDB.with_status completed running))) /\
      auditNdjson (disk w') =
        (auditNdjson (disk w1) ++
         [mkAudit (clock w1) (task_toolName t1) (task_originalArgs t1)
            (Some fakeResult) (Some (task_policyAction t1)) (Some "approved") None])%list /\
      outbox w' =
        (outbox w1 ++
         if String.eqb (adminChatId w1) "" then []
         else [(Some (adminChatId w1), TaskCompleted id)])%list
  | Thrown message =>
      TasksDB.get id (tasksJson (disk w')) =
        Some (TasksDB.with_executedAt (clock w1)
                (TasksDB.with_error message
                   (TasksDB.with_status error running))) /\
      auditNdjson (disk w') =
        (auditNdjson (disk w1) ++
         [mkAudit (clock w1) (task_toolName t1) (task_originalArgs t1)
            None (Some (task_policyAction t1)) (Some "approved") (Some message)])%list /\
      outbox w' =
        (outbox w1 ++
         if String.eqb (adminChatId w1) "" then []
         else [(Some (adminChatId w1), TaskFailed id)])%list
  end.
Proof.
  intros G P C w' running. subst w'.
  unfold TelegramBot.executeApprovedTask. run. rewrite G. run.
  rewrite (callTool_connected _ _ _ _ _ _ _ P C).
  pose proof (updateStatus_get id executing (clock w1) _ _ G) as G2.
  cbn [TaskStatus_eqb] in G2. fold running in G2.
  unfold TelegramBot.notifyAdmin, reply.
  destruct (client tool (task_args t1)) as [result|message]; run.
  - destruct (String.eqb (adminChatId w1) ""); run;
      (repeat split; try reflexivity; try (now rewrite app_nil_r));
      unfold TasksDB.setResult; now rewrite (get_mutate _ _ _ _ G2).
  - destruct (String.eqb (adminChatId w1) ""); run;
      (repeat split; try reflexivity; try (now rewrite app_nil_r));
      unfold TasksDB.setError; now rewrite (get_mutate _ _ _ _ G2).
Qed.

(** X30.  From approval to result.  When the paired admin approves a task
    that is pending (and the answers to the button are delivered), the call that was stored with the task (its tool, and
    the arguments as they were rewritten when the task was made) is what
    is dispatched, once, to the backend the tool name designates.  If the
    backend answers, the task ends [completed] with the answer rewritten
    for the caller, an audit record marked approved is appended, and
    [portero/check_task] then returns that result (when it is truthy); if
    the backend fails, the task ends in [error] with the message. *)
Theorem approval_runs_the_stored_call env cfg id t w mcp tool client :
  TasksDB.get id (tasksJson (disk w)) = Some t ->
  task_status t = pending_approval ->
  id <> EmptyString ->
  adminChatId w <> EmptyString ->
  Router.parseNamespace (task_toolName t) = Returned (mcp, tool) ->
  getClient env mcp = Some client ->
  let w' := fst (TelegramBot.onCallbackQuery env cfg (Some (adminChatId w))
                   (Some ("approve:" ++ id)) w) in
  dispatched w' = (dispatched w ++ [mkDispatch mcp tool (task_args t)])%list /\
  match client tool (task_args t) with
  | Returned result =>
      let fakeResult := Anonymizer.deanonymizeResponse (replacements cfg) result in
      (exists t',
         TasksDB.get id (tasksJson (disk w')) = Some t' /\
         task_status t' = completed /\ task_result t' = Some fakeResult /\
         task_approvedAt t' = Some (clock w) /\ task_executedAt t' = Some (clock w)) /\
      auditNdjson (disk w') =
        (auditNdjson (disk w) ++
         [mkAudit (clock w) (task_toolName t) (task_originalArgs t)
            (Some fakeResult) (Some (task_policyAction t)) (Some "approved") None])%list /\
      (Js.truthy fakeResult = true ->
       snd (MCPHandler.handleCheckTask env (checkArgs id) w') = Returned fakeResult)
  | Thrown message =>
      (exists t',
         TasksDB.get id (tasksJson (disk w')) = Some t' /\
         task_status t' = error /\ task_error t' = Some message /\
         task_result t' = task_result t) /\
      auditNdjson (disk w') =
        (auditNdjson (disk w) ++
         [mkAudit (clock w) (task_toolName t) (task_originalArgs t)
            None (Some (task_policyAction t)) (Some "approved") (Some message)])%list
  end.
Proof.
  intros G S I A P C w'.
  assert (EI : String.eqb id "" = false) by now apply String.eqb_neq.
  set (t1 := TasksDB.with_approvedAt (clock w) (TasksDB.with_status approved_queued t)).
  set (w1 := set_outbox
               (set_disk w
                  (set_tasksJson (disk w)
                     (TasksDB.updateStatus id approved_queued (clock w)
                        (tasksJson (disk w)))))
               (outbox w ++ [(Some (adminChatId w), CallbackAnswer "Approved")])).
  assert (W : w' = fst (TelegramBot.executeApprovedTask env cfg id w1)).
  { subst w'. unfold TelegramBot.onCallbackQuery, tryCatch, bind.
    rewrite (isAdmin_admits _ A). cbn [negb].
    cbn [append String.eqb Ascii.eqb Bool.eqb].
    rewrite (prefix_cons_neq "c" _ "a") by discriminate.
    cbn [Router.cutAt Ascii.eqb Bool.eqb String.eqb].
    rewrite EI. unfold gets. rewrite G.
    cbn [TelegramBot.decisionOf String.eqb Ascii.eqb Bool.eqb].
    unfold TelegramBot.decide. rewrite S. cbn [TaskStatus_eqb negb].
    unfold reply, TelegramBot.detached. run. reflexivity. }
  assert (G1 : TasksDB.get id (tasksJson (disk w1)) = Some t1).
  { subst w1. cbn [disk set_outbox set_disk tasksJson set_tasksJson].
    now rewrite (updateStatus_get _ _ _ _ _ G). }
  pose proof (executeApprovedTask_run env cfg id t1 w1 mcp tool client G1 P C)
    as (D & _ & _ & _ & _ & R).
  rewrite <- W in D, R. split; [exact D|].
  change (task_args t1) with (task_args t) in R.
  destruct (client tool (task_args t)) as [result|message].
  - destruct R as (R1 & R2 & _). split; [|split].
    + eexists. split; [exact R1|]. now repeat split.
    + exact R2.
    + intros T. unfold MCPHandler.handleCheckTask, checkArgs.
      cbn [MCPHandler.taskIdOf Js.getField String.eqb Ascii.eqb Bool.eqb Js.truthy].
      rewrite EI. cbn [negb]. unfold onTasks. run. rewrite R1. run.
      unfold MCPHandler.hasResult.
      cbn [task_status task_result TasksDB.with_executedAt TasksDB.with_result
           TasksDB.with_status].
      now rewrite T.
  - destruct R as (R1 & R2 & _). split.
    + eexists. split; [exact R1|]. now repeat split.
    + exact R2.
Qed.

Lemma approval_runs_the_stored_call_witness :
  let pending := pendingWrite in
  let w' := fst (TelegramBot.onCallbackQuery sampleEnv guardedConfig (Some "111")
                   (Some "approve:t5") (worldWith [pending])) in
  dispatched w' = [mkDispatch "filesystem" "write_file" (JStr "Jane Real")] /\
  snd (MCPHandler.handleCheckTask sampleEnv (checkArgs "t5") w') =
    Returned (JObj [("echo", JStr "John Doe")]).
Proof.
  intros pending w'.
  assert (I : "t5" <> EmptyString) by discriminate.
  assert (A : adminChatId (worldWith [pending]) <> EmptyString) by discriminate.
  pose proof (approval_runs_the_stored_call sampleEnv guardedConfig "t5" pending
                (worldWith [pending]) "filesystem" "write_file"
                (fun _ args => Returned (JObj [("echo", args)]))
                eq_refl eq_refl I A eq_refl eq_refl) as (D & _ & _ & K).
  split; [exact D | exact (K eq_refl)].
Defined.

End Approval.
